(* ===== verification/_CoqProject ===== *)
-Q . S2P
Prelude.v
Raster.v
NdArray.v
Filter.v
PillowNumpy.v
Cv2Filter.v
PillowPure.v
MatteSpec.v
Base64.v
Codec.v
Io.v
Paths.v
Cli.v
Compare.v
LoopMachine.v
NdView.v
