(* ===== verification/Prelude.v ===== *)
(** * neo-breakout background removal: a verification development

    ** The program

    The repository holds three Python scripts that do the same job: read
    an image, make its near-white background transparent, save the result
    and print it base64-encoded between the lines [BASE64_START] and
    [BASE64_END].  Each script is a command-line entry point
    ([if __name__ == "__main__"]: check [sys.argv], call
    [remove_background_and_convert]) around one image transform:
    - src/process_bg.py: OpenCV.  [cv2.imread] (BGR, alpha dropped),
      [cv2.cvtColor] to BGRA, [cv2.inRange] with the inclusive box
      [[240, 255]] per channel, [rgba[mask > 0] = [0, 0, 0, 0]],
      [cv2.imwrite];
    - src/process_bg_pillow.py: Pillow and numpy.  [convert("RGBA")],
      [np.array], [r, g, b, a = data.T], [(r > 240) & (g > 240) & (b > 240)],
      [data[..., 3][white_areas.T] = 0], [Image.fromarray];
    - src/process_bg_pillow_pure.py: Pillow with a Python loop over
      [getdata()] that appends [(255, 255, 255, 0)] for white items, then
      [putdata].
    spec.md describes one contract, [BackgroundMatteFilter.apply], that the
    three transforms are meant to implement.

    ** The files

    - Prelude.v (this file): the result monad for Python exceptions
      ([PyExc], [result], [x <- c ;; k]), 8-bit values, and the
      two-dimensional lists every array is made of: [rect] (an [h x w]
      array), [at2] (indexing), [transpose_n], [map2d], [zip2d], with their
      lemmas, the tactic [case_if] and the hint databases [matte] and
      [matte_rw].
    - Raster.v, [Module Raster]: Pillow images ([image]: mode, size, pixel
      rows; [px]: an L, RGB or RGBA pixel), [image_wf] and its executable
      test [image_wfb], and [convert_rgba] ([Image.convert("RGBA")]).
    - NdArray.v, [Module Np]: numpy arrays with their shape ([nd3], [nd2])
      and the operations the scripts use: [T3] and [T2] ([.T]),
      [unpack4] (tuple unpacking, [ValueError]), [gt_scalar] ([>]), [and2]
      ([&]), [set_channel_where] and [set_pixels_where] (boolean-mask
      assignment, [IndexError]/[ValueError]).
    - Filter.v, [Module Filter]: the interface between a transform and
      its caller, the typeclass [MatteFilter] (the transform is a
      per-pixel map into 8-bit RGBA, on every well-formed image, without
      raising), with the consequences for any such map: output
      well-formedness and idempotence from pixel idempotence.
    - PillowNumpy.v, [Module PillowNumpy]: src/process_bg_pillow.py lines
      7-24 as [remove_background], one definition per line of the code.
    - Cv2Filter.v, [Module Cv2]: src/process_bg.py lines 7-29 as
      [remove_background].
    - PillowPure.v, [Module PillowPure]: src/process_bg_pillow_pure.py
      lines 5-21 as [remove_background], with the loop as a [Fixpoint]
      over the pixel list and [putdata] with its overflow error.
    - MatteSpec.v, [Module MatteSpec]: the contract of spec.md (modelled
      from the specification, not from src/): [ThresholdConfig],
      [config_valid], [is_background], [apply]; the per-pixel masks of the
      scripts; the refinement and comparison theorems; the three
      [MatteFilter] instances.
    - Base64.v, [Module Base64]: the printed report.  [b64encode] is
      [base64.b64encode] (RFC 4648, three bytes at a time with shifts and
      masks), [string_of_codes] is [.decode('utf-8')] of its ASCII output,
      [report] the three [print] lines; [b64decode] and [read_report]
      are what a consumer of the output runs (from spec.md section 6).
    - Codec.v, [Module Codec]: the typeclass [ImageCodec], what the
      scripts rely on from OpenCV's and Pillow's codecs (decoded images
      are well formed, PNG is lossless, Pillow cannot write RGBA as JPEG),
      and [raw_codec], a computable lossless instance for the examples.
    - Io.v, [Module Io]: the [world] of files, unwritable paths and
      printed lines; steps [io A] ending in a value, [sys.exit] or an
      uncaught exception, with [x <- m ;; k] in [io_scope]; [run] gives the
      exit status, [render] the printed text.  Two step invariants,
      [frames p] (no file but [p] changes, output only grows) and
      [exits_1] ([sys.exit] only with 1), are closed under [io_bind] and
      proved for whole scripts by the tactic [solve_steps] with the hint
      database [io_steps].
    - Paths.v, [Module Paths]: how OpenCV ([cv_ext], the letters and
      digits after the last dot of the path) and Pillow ([pil_ext],
      [os.path.splitext(...)[1].lower()]) read the output extension,
      and where the two readings agree.
    - Cli.v, [Module Cli]: the [__main__] blocks ([cv2_main],
      [numpy_main], [pure_main], sharing [main]) and the whole
      [remove_background_and_convert] of each script ([cv2_convert],
      [numpy_convert], [pure_convert]), with [cv2.imread]/[cv2.imwrite]
      and [Image.open]/[Image.save] modelled down to [ImageCodec].
    - Compare.v, [Module Compare]: the runs of the two Pillow scripts
      side by side: [alpha_equiv] (images of one size with the same
      alpha channel) and [alpha_equiv_bytes] (files equal or decoding to
      such images), both [Equivalence] instances, and [runs_equiv], which
      relates two results of [Io.run] by exit status and file maps
      ([map_Forall2]).
    - LoopMachine.v, [Module LoopMachine]: the [for item in datas] loop of
      src/process_bg_pillow_pure.py lines 14-19 as a small-step machine
      ([lstate]: position and [newData], end of loop, or a raised
      exception; [lstep], the step relation, and [next], the same step
      as a function).
    - NdView.v, [Module NdView]: numpy's memory model for
      src/process_bg_pillow.py lines 13-24.  An array is a view (offset,
      shape, strides) of a flat buffer ([view2], [view3], [addr3]);
      [np.array] builds a C-order buffer ([np_buffer], [np_array_view]),
      [.T], [r, g, b, a = ...] and [data[..., 3]] make views of the same
      buffer without copying ([vT3], [vunpack4], [vlast]), and the masked
      assignment of line 22 writes through the alpha view into the shared
      buffer ([setitem_mask]), which [Image.fromarray] then reads
      ([remove_background_views]).

    ** What is proved

    - Functional correctness of each transform on every decoded image:
      [numpy_filter_spec], [cv2_filter_spec], [pure_filter_spec] give the
      output pixel at each place as a function of the input pixel there,
      and that no exception is raised (the shapes given to numpy always
      match, unpacking finds four planes, [putdata] never overflows).
    - Refinement: [numpy_refines_apply], the numpy script computes the
      contract's [apply] with bounds [[241, 255]] (its [> 240]).
    - Safety and comparisons: the numpy script changes alpha only
      ([numpy_alpha_only]); the OpenCV and Pillow masks differ exactly on
      pixels with a channel equal to 240 ([masks_differ_only_at_240]); the
      two Pillow scripts agree on alpha everywhere and on unmasked pixels
      ([pillow_scripts_agree]).
    - Invariants: the two Pillow scripts are idempotent on images
      ([numpy_idempotent], [pure_idempotent]) and on files: a second run
      on the output file leaves it byte for byte as it is
      ([pillow_cli_idempotent]); the OpenCV script is not: on every
      image, a second run turns each transparent background pixel into
      opaque black ([cv2_not_idempotent]).
    - The Python loop of the pure script equals the list comprehension
      ([loop_spec]).
    - The report: a reader of the output recovers exactly the bytes of the
      saved file ([report_roundtrip], through [b64decode_encode]), and
      the encoding has [4 * ceil(n / 3)] characters ([b64encode_length]).
    - The command line, for every codec satisfying [ImageCodec]: on
      success each script exits 0, writes the PNG of the filtered image and
      prints the base64 block of exactly those bytes ([cv2_cli_success],
      [numpy_cli_success], [pure_cli_success]); decode failures and
      missing arguments exit 1 without touching a file
      ([cli_decode_failure], [main_usage]); the OpenCV script reports an
      older file and exits 0 when the output cannot be written
      ([cv2_stale_output]); the Pillow scripts exit 1 there
      ([pillow_unwritable_output]) and on a [.jpg] output
      ([numpy_jpeg_output]).  Whatever the arguments and files, a run
      changes only the file its second argument names and only appends
      to the output ([scripts_frame]), and ends with status 0 or 1
      ([scripts_exit_status]).  From a fresh process the printed text
      meets the specification's promise: its base64 block reads back to
      the bytes of the file written, which decode to the filtered image
      ([cli_reports_result]); the text itself is well-formed base64
      ([b64encode_shape]).
    - The pixel loop as a machine: on RGBA items every state reached
      from the start holds the comprehension over the items taken so far
      and none raises ([loop_invariant], by induction on the
      reachability relation).
    - Aliasing: in the model where [data.T], its planes and
      [data[..., 3]] are views of the one buffer of [np.array(img)] and
      line 22 writes through the view, the numpy script has the same
      per-pixel behaviour as in [numpy_filter_spec]: the stores land on the alpha byte of
      exactly the pixels whose R, G, B exceed 240
      ([numpy_views_filter_spec], proved on buffer addresses).
    - Composition: the two Pillow scripts are interchangeable for a
      caller that reads the exit status and the alpha channel of the
      files, on every path of the scripts, when the output is a [.png]
      ([pillow_scripts_interchangeable]); OpenCV and Pillow read the same
      output extension from every ordinary file name
      ([ext_readings_agree]), and differ outside them
      ([ext_readings_differ]: [out.png~]).
    - Divergences from spec.md, stated as theorems: every grey image is
      processed by the three scripts although the contract rejects it
      ([grey_image_accepted]); the OpenCV script blackens the background
      and makes every other pixel opaque ([cv2_filter_spec]).

    ** Bounds and recursion

    Channels are [Z] values; a decoded image is well formed when every
    channel is in [[0, 255]] ([px_u8]), which is what the decoders
    produce, and the theorems that depend on 8-bit ranges (the [> 240]
    test as the range [[241, 255]]) assume it.  No arithmetic of the
    transforms can overflow: they only compare channels and store the
    constants 0 and 255.  Every function is structurally recursive; no
    fuel is needed.  The loop machine of LoopMachine.v is a relation; its
    executable form is [next] ([lstep_next]).

    ** Not modelled

    - Standard error (Python's traceback text) and the text of exception
      messages: an uncaught exception is kept as its class and exit
      status 1.
    - The image codecs (PNG/JPEG decoding and encoding inside OpenCV and
      Pillow): library code the scripts only call, stated through the
      laws of [ImageCodec] the theorems need (decoded images are well
      formed, PNG is lossless, Pillow cannot write RGBA as JPEG), with
      [raw_codec] as a computable instance; the byte formats themselves
      are not modelled, and which formats other than PNG and JPEG an
      extension selects is left to the codec.
    - The [import] lines at the top of each script: every other line of
      the three scripts is translated by a definition of this
      development.
    - Lowercasing of non-ASCII characters in an extension ([str.lower]
      and [tolower] are modelled on ASCII letters).
    - Termination is not stated as a property: every step of the
      scripts is a total function of the world and the pixel loop runs
      over a finite list, so each run ends, and [scripts_exit_status]
      gives the status it ends with.
    - numpy's other memory layouts (Fortran order, negative strides):
      [np.array] of a Pillow image is always C-contiguous.
    - Pillow modes other than L, RGB and RGBA, and numpy broadcasting of
      length-1 axes (the scripts never rely on them). *)

From Stdlib Require Export ZArith Lia.
From stdpp Require Export base list.

Declare Scope py_scope.
Delimit Scope py_scope with py.
Open Scope Z_scope.

(** ** Python exceptions and the result monad

    The scripts call into numpy, OpenCV and Pillow; a call that fails raises
    an exception.  The ones the modelled lines can raise are listed here. *)
Inductive PyExc : Type :=
  | ValueError   (** tuple unpacking of the wrong length; a value of the wrong size in mask assignment; an unknown file extension *)
  | IndexError   (** tuple index or boolean mask of the wrong shape *)
  | TypeError    (** [Image.fromarray] on an array of unsupported shape; [putdata] with too many entries *)
  | Cv2Error     (** [cv2.error] from an OpenCV call given bad arguments *)
  | OSError.     (** [FileNotFoundError], [PermissionError], and Pillow's
                     errors for a file it cannot decode or a mode the
                     format cannot hold *)

#[export] Instance PyExc_eq_dec : EqDecision PyExc.
Proof. solve_decision. Defined.

Inductive result (A : Type) : Type :=
  | Ok (a : A)
  | Raise (e : PyExc).
Arguments Ok {A} a.
Arguments Raise {A} e.

Definition rbind {A B} (c : result A) (k : A -> result B) : result B :=
  match c with
  | Ok a => k a
  | Raise e => Raise e
  end.

Notation "x <- c ;; k" := (rbind c (fun x => k))
  (at level 60, c at next level, right associativity) : py_scope.

(** A Python [if not cond: raise e]. *)
Definition py_assert (b : bool) (e : PyExc) : result unit :=
  if b then Ok tt else Raise e.

(** ** Unsigned 8-bit values *)
Definition is_u8 (z : Z) : bool := (0 <=? z) && (z <=? 255).

Lemma is_u8_spec z : is_u8 z = true <-> 0 <= z <= 255.
Proof. unfold is_u8. rewrite andb_true_iff, Z.leb_le, Z.leb_le. lia. Qed.

(** [x << k | y] is [x * 2^k + y] when [y] fits in [k] bits. *)
Lemma lor_shiftl_small a b k :
  0 <= k -> 0 <= b < 2 ^ k -> Z.lor (Z.shiftl a k) b = a * 2 ^ k + b.
Proof.
  intros Hk Hb.
  assert (Hl : Z.land (Z.shiftl a k) b = 0).
  { apply Z.bits_inj'. intros i Hi. rewrite Z.land_spec, Z.bits_0.
    destruct (Z.lt_ge_cases i k).
    - rewrite Z.shiftl_spec_low by lia. reflexivity.
    - destruct (Z.eq_dec b 0) as [->|Hb0]; [rewrite Z.bits_0; apply andb_false_r|].
      rewrite (Z.bits_above_log2 b i); [apply andb_false_r|lia|].
      pose proof (Z.log2_lt_pow2 b k ltac:(lia)). lia. }
  rewrite <- Z.lxor_lor, <- Z.add_nocarry_lxor by exact Hl.
  rewrite Z.shiftl_mul_pow2; lia.
Qed.

(** Induction on a list three elements at a time, the way base64 consumes
    its input. *)
Lemma list_ind3 {A} (P : list A -> Prop) :
  P [] -> (forall a, P [a]) -> (forall a b, P [a; b]) ->
  (forall a b c l, P l -> P (a :: b :: c :: l)) -> forall l, P l.
Proof.
  intros H0 H1 H2 H3. fix IH 1. intros [|a [|b [|c l]]];
    [exact H0 | exact (H1 a) | exact (H2 a b) | exact (H3 a b c l (IH l))].
Qed.

(** ** Two-dimensional lists

    An [h x w] array is a list of [h] rows of length [w].  Indexing by row
    then column is [at2]. *)
Section TwoD.
Context {A B C : Type}.

Definition rect (h w : nat) (m : list (list A)) : Prop :=
  length m = h /\ Forall (fun r => length r = w) m.

Definition at2 (m : list (list A)) (i j : nat) : option A :=
  m !! i ≫= fun r => r !! j.

(** [transpose_n n m] is the transpose of a matrix whose rows have
    length [n]; [n] is the number of rows of the result, which keeps
    the shape also when [m] has no rows (numpy's [.T] keeps it). *)
Fixpoint transpose_n (n : nat) (m : list (list A)) : list (list A) :=
  match m with
  | [] => replicate n []
  | r :: m' => zip_with cons r (transpose_n n m')
  end.

(** The executable test for [rect]. *)
Definition rectb (h w : nat) (m : list (list A)) : bool :=
  (length m =? h)%nat && forallb (fun r => length r =? w)%nat m.

Lemma rectb_spec h w m : rectb h w m = true -> rect h w m.
Proof.
  unfold rectb. rewrite andb_true_iff, Nat.eqb_eq, forallb_forall.
  intros [L H]. split; [done|]. apply Forall_forall. intros r Hr.
  apply Nat.eqb_eq. apply H. by apply list_elem_of_In.
Qed.

Lemma rectb_complete h w m : rect h w m -> rectb h w m = true.
Proof.
  intros [L H]. unfold rectb. rewrite andb_true_iff, Nat.eqb_eq, forallb_forall.
  split; [done|]. intros r Hr. apply Nat.eqb_eq.
  rewrite Forall_forall in H. apply H. by apply list_elem_of_In.
Qed.

Lemma rect_lookup h w m i r :
  rect h w m -> m !! i = Some r -> length r = w.
Proof. intros [_ Hf] Hi. exact (proj1 (Forall_lookup _ _) Hf _ _ Hi). Qed.

Lemma rect_lookup_lt h w m i :
  rect h w m -> (i < h)%nat -> exists r, m !! i = Some r /\ length r = w.
Proof.
  intros Hr Hi. destruct (lookup_lt_is_Some_2 m i) as [r Hm].
  { destruct Hr as [-> _]. lia. }
  exists r. split; [done | exact (rect_lookup _ _ _ _ _ Hr Hm)].
Qed.

(** Two arrays of the same shape are equal when they agree at every
    index. *)
Lemma rect_eq h w (m1 m2 : list (list A)) :
  rect h w m1 -> rect h w m2 ->
  (forall i j, (i < h)%nat -> (j < w)%nat -> at2 m1 i j = at2 m2 i j) ->
  m1 = m2.
Proof.
  intros H1 H2 Hat. apply list_eq. intros i.
  destruct (decide (i < h)%nat) as [Hi|Hi].
  - destruct (rect_lookup_lt _ _ _ _ H1 Hi) as (r1 & E1 & L1).
    destruct (rect_lookup_lt _ _ _ _ H2 Hi) as (r2 & E2 & L2).
    rewrite E1, E2. f_equal. apply list_eq. intros j.
    destruct (decide (j < w)%nat) as [Hj|Hj].
    + specialize (Hat i j Hi Hj). unfold at2 in Hat.
      rewrite E1, E2 in Hat. exact Hat.
    + rewrite !lookup_ge_None_2 by lia. done.
  - destruct H1 as [L1 _], H2 as [L2 _].
    rewrite !lookup_ge_None_2 by lia. done.
Qed.

Lemma at2_out h w (m : list (list A)) i j :
  rect h w m -> (h <= i \/ w <= j)%nat -> at2 m i j = None.
Proof.
  intros Hr [Hi|Hj]; unfold at2.
  - destruct Hr as [L _]. rewrite lookup_ge_None_2 by lia. done.
  - destruct (m !! i) as [r|] eqn:E; [|done]. simpl.
    apply lookup_ge_None_2. rewrite (rect_lookup _ _ _ _ _ Hr E). lia.
Qed.

Lemma at2_in h w (m : list (list A)) i j :
  rect h w m -> (i < h)%nat -> (j < w)%nat -> exists x, at2 m i j = Some x.
Proof.
  intros Hr Hi Hj. destruct (rect_lookup_lt _ _ _ _ Hr Hi) as (r & Er & Lr).
  destruct (lookup_lt_is_Some_2 r j) as [x Hx]; [lia|].
  exists x. unfold at2. by rewrite Er.
Qed.

Lemma rect_transpose_n h w (m : list (list A)) :
  rect h w m -> rect w h (transpose_n w m).
Proof.
  revert h. induction m as [|r m IH]; intros h [Lm Hf]; simpl in *.
  - subst h. split; [apply length_replicate|].
    apply Forall_replicate. done.
  - apply Forall_cons in Hf as [Hr Hf]. destruct h as [|h]; [lia|].
    destruct (IH h (conj (eq_add_S _ _ Lm) Hf)) as [LT HT].
    split.
    + rewrite length_zip_with. lia.
    + apply Forall_lookup. intros k c Hk.
      rewrite lookup_zip_with in Hk.
      destruct (r !! k), (transpose_n w m !! k) as [t|] eqn:Et;
        simplify_eq/=.
      rewrite (proj1 (Forall_lookup _ _) HT k t Et). lia.
Qed.

(** Indexing the transpose swaps the indices. *)
Lemma at2_transpose_n h w (m : list (list A)) i j :
  rect h w m -> at2 (transpose_n w m) j i = at2 m i j.
Proof.
  revert h i. induction m as [|r m IH]; intros h i Hm.
  - unfold at2. simpl. destruct (replicate w [] !! j) as [c|] eqn:E;
      [|by destruct i].
    apply lookup_replicate in E as [-> _]. by destruct i.
  - destruct Hm as [Lm Hf]. simpl in Lm.
    apply Forall_cons in Hf as [Hr Hf].
    assert (Hm' : rect (length m) w m) by (split; auto).
    pose proof (rect_transpose_n _ _ _ Hm') as [LT _].
    unfold at2 in *. simpl. rewrite lookup_zip_with.
    destruct (r !! j) as [x|] eqn:Ej.
    + destruct (transpose_n w m !! j) as [t|] eqn:Et.
      * destruct i as [|i]; simpl; [done|].
        specialize (IH _ i Hm'). exact IH.
      * apply lookup_lt_Some in Ej. apply lookup_ge_None_1 in Et. lia.
    + simpl. destruct i as [|i]; simpl; [done|].
      apply lookup_ge_None_1 in Ej. destruct (m !! i) as [r'|] eqn:Em; [|done].
      simpl. symmetry. apply lookup_ge_None_2. rewrite (rect_lookup _ _ _ _ _ Hm' Em). lia.
Qed.


(** Elementwise maps and zips of arrays. *)
Definition map2d (f : A -> B) (m : list (list A)) : list (list B) :=
  (fun r : list A => f <$> r) <$> m.

Definition zip2d (f : A -> B -> C) (a : list (list A)) (b : list (list B))
  : list (list C) := zip_with (zip_with f) a b.
End TwoD.

Section TwoDLemmas.
Context {A B C : Type}.

Lemma rect_map2d h w (f : A -> B) m :
  rect h w m -> rect h w (map2d f m).
Proof.
  intros [L Hf]. unfold map2d. split; [by rewrite length_fmap|].
  apply Forall_fmap. eapply Forall_impl; [exact Hf|].
  intros r Hr. simpl. by rewrite length_fmap.
Qed.

Lemma at2_map2d (f : A -> B) m i j :
  at2 (map2d f m) i j = f <$> at2 m i j.
Proof.
  unfold at2, map2d. rewrite list_lookup_fmap.
  destruct (m !! i); simpl; [by rewrite list_lookup_fmap | done].
Qed.

Lemma rect_zip2d h w (f : A -> B -> C) a b :
  rect h w a -> rect h w b -> rect h w (zip2d f a b).
Proof.
  intros [La Ha] [Lb Hb]. unfold zip2d. split.
  - rewrite length_zip_with. lia.
  - apply Forall_lookup. intros k c Hk. rewrite lookup_zip_with in Hk.
    destruct (a !! k) as [x|] eqn:Ex, (b !! k) as [y|] eqn:Ey;
      simplify_eq/=.
    rewrite length_zip_with, (proj1 (Forall_lookup _ _) Ha _ _ Ex),
      (proj1 (Forall_lookup _ _) Hb _ _ Ey). lia.
Qed.

Lemma at2_zip2d (f : A -> B -> C) a b i j :
  at2 (zip2d f a b) i j =
    at2 a i j ≫= fun x => at2 b i j ≫= fun y => Some (f x y).
Proof.
  unfold at2, zip2d. rewrite lookup_zip_with.
  destruct (a !! i) as [x|], (b !! i) as [y|]; simpl; try done.
  - rewrite lookup_zip_with. done.
  - by destruct (x !! j).
Qed.

Lemma Forall2d_at2 (P : A -> Prop) (m : list (list A)) i j x :
  Forall (Forall P) m -> at2 m i j = Some x -> P x.
Proof.
  intros Hf Hat. unfold at2 in Hat.
  destruct (m !! i) as [r|] eqn:Er; [|done]. simpl in Hat.
  pose proof (proj1 (Forall_lookup _ _) Hf _ _ Er) as Hr.
  exact (proj1 (Forall_lookup _ _) Hr _ _ Hat).
Qed.

Lemma Forall2d_intro (P : A -> Prop) (m : list (list A)) :
  (forall i j x, at2 m i j = Some x -> P x) -> Forall (Forall P) m.
Proof.
  intros H. apply Forall_lookup. intros i r Hr.
  apply Forall_lookup. intros j x Hx. apply (H i j). unfold at2.
  by rewrite Hr.
Qed.


Lemma bind_lookup_ext {D D'} (l : list D) i (f g : D -> option D') :
  (forall x, l !! i = Some x -> f x = g x) -> l !! i ≫= f = l !! i ≫= g.
Proof. intros H. destruct (l !! i) eqn:El; simpl; [by apply H | done]. Qed.

Lemma zip2d_map2d_diag {D} (f : B -> C -> D) (g : A -> B) (h : A -> C) m :
  zip2d f (map2d g m) (map2d h m) = map2d (fun x => f (g x) (h x)) m.
Proof.
  unfold zip2d, map2d. induction m as [|r m IH]; [done|]. simpl.
  f_equal; [|exact IH]. induction r as [|x r IHr]; [done|]. simpl.
  f_equal. exact IHr.
Qed.

Lemma map2d_compose (f : A -> B) (g : B -> C) m :
  map2d g (map2d f m) = map2d (fun x => g (f x)) m.
Proof.
  unfold map2d. rewrite <- list_fmap_compose. apply list_fmap_ext.
  intros _ r _. simpl. by rewrite <- list_fmap_compose.
Qed.

Lemma map2d_ext (f g : A -> B) m :
  (forall i j x, at2 m i j = Some x -> f x = g x) -> map2d f m = map2d g m.
Proof.
  intros H. unfold map2d. apply list_fmap_ext. intros i r Hi.
  apply list_fmap_ext. intros j x Hj. apply (H i j).
  unfold at2. by rewrite Hi.
Qed.
End TwoDLemmas.


(** Case analysis on every [if] of the goal. *)
Ltac case_if :=
  repeat match goal with |- context [if ?c then _ else _] => destruct c end.

Create HintDb matte discriminated.
#[export] Hint Resolve rect_map2d rect_zip2d rect_transpose_n : matte.
Create Rewrite HintDb matte_rw.
#[export] Hint Rewrite @at2_map2d @at2_zip2d : matte_rw.
