(* ===== verification/Raster.v ===== *)
(** * Raster: decoded images as the three scripts receive them

    A Pillow [Image] is modelled by its mode, its size and its rows of
    pixels.  [convert_rgba] is [Image.open(input_path).convert("RGBA")]
    (src/process_bg_pillow.py line 8, src/process_bg_pillow_pure.py line 7)
    for the modes L, RGB and RGBA.  Every channel is an unsigned 8-bit
    value, kept as a [Z] in [0, 255]. *)

From S2P Require Import Prelude.

Module Raster.

(** Pillow image modes used by the decoded files. *)
Inductive Mode : Type := ModeL | ModeRGB | ModeRGBA.

#[export] Instance Mode_eq_dec : EqDecision Mode.
Proof. solve_decision. Defined.

(** One pixel, as [Image.getpixel] or an item of [getdata()] gives it:
    an int for L, a 3-tuple for RGB, a 4-tuple for RGBA. *)
Inductive px : Type :=
  | PxL (l : Z)
  | PxRGB (r g b : Z)
  | PxRGBA (r g b a : Z).

#[export] Instance px_eq_dec : EqDecision px.
Proof. solve_decision. Defined.

Definition px_mode (p : px) : Mode :=
  match p with PxL _ => ModeL | PxRGB _ _ _ => ModeRGB | PxRGBA _ _ _ _ => ModeRGBA end.

(** The channels of a pixel, in the order of the tuple (and of the last
    axis of [np.array(img)]). *)
Definition px_channels (p : px) : list Z :=
  match p with
  | PxL l => [l]
  | PxRGB r g b => [r; g; b]
  | PxRGBA r g b a => [r; g; b; a]
  end.

Definition px_u8 (p : px) : bool := forallb is_u8 (px_channels p).

(** Number of bands of a mode ([len(img.getbands())]). *)
Definition bands (m : Mode) : nat :=
  match m with ModeL => 1 | ModeRGB => 3 | ModeRGBA => 4 end.

(** A Pillow image: mode, [img.size = (width, height)], and the pixel
    rows, top to bottom. *)
Record image : Type := Image {
  im_mode : Mode;
  im_width : nat;
  im_height : nat;
  im_rows : list (list px)
}.

(** A decoded image is well formed when its rows form a
    [height x width] array of pixels of its mode with 8-bit channels. *)
Definition image_wf (img : image) : Prop :=
  rect (im_height img) (im_width img) (im_rows img) /\
  Forall (Forall (fun p => px_mode p = im_mode img /\ px_u8 p = true))
    (im_rows img).

(** [Image.convert("RGBA")]: L is replicated into R, G and B; RGB gains
    an opaque alpha; RGBA is unchanged. *)
Definition to_rgba (p : px) : px :=
  match p with
  | PxL l => PxRGBA l l l 255
  | PxRGB r g b => PxRGBA r g b 255
  | PxRGBA _ _ _ _ => p
  end.

Definition convert_rgba (img : image) : image :=
  Image ModeRGBA (im_width img) (im_height img) (map2d to_rgba (im_rows img)).

(** The alpha a pixel is displayed with: 255 for modes without alpha. *)
Definition px_alpha (p : px) : Z :=
  match p with PxRGBA _ _ _ a => a | _ => 255 end.

(** Red, green and blue as displayed. *)
Definition px_rgb (p : px) : Z * Z * Z :=
  match p with
  | PxL l => (l, l, l)
  | PxRGB r g b => (r, g, b)
  | PxRGBA r g b _ => (r, g, b)
  end.

(** The executable test for [image_wf]. *)
Definition image_wfb (img : image) : bool :=
  rectb (im_height img) (im_width img) (im_rows img) &&
  forallb (forallb (fun p => bool_decide (px_mode p = im_mode img) && px_u8 p))
    (im_rows img).

(** ** Lemmas on the data model *)

Lemma image_wfb_spec img : image_wfb img = true -> image_wf img.
Proof.
  unfold image_wfb. rewrite andb_true_iff. intros [Hr Hf].
  split; [by apply rectb_spec|].
  apply Forall_forall. intros r Hin. apply Forall_forall. intros p Hp.
  rewrite forallb_forall in Hf. apply list_elem_of_In in Hin.
  specialize (Hf r Hin). rewrite forallb_forall in Hf.
  apply list_elem_of_In in Hp. specialize (Hf p Hp).
  apply andb_true_iff in Hf as [Hm Hu]. split; [|done].
  by apply bool_decide_eq_true in Hm.
Qed.

Lemma image_wfb_complete img : image_wf img -> image_wfb img = true.
Proof.
  intros [Hr Hf]. unfold image_wfb. rewrite rectb_complete by done. simpl.
  apply forallb_forall. intros r Hin. apply list_elem_of_In in Hin.
  rewrite Forall_forall in Hf. specialize (Hf r Hin).
  apply forallb_forall. intros p Hp. apply list_elem_of_In in Hp.
  rewrite Forall_forall in Hf. destruct (Hf p Hp) as [-> ->].
  by rewrite bool_decide_eq_true_2.
Qed.

Lemma image_wf_at2 img i j p :
  image_wf img -> at2 (im_rows img) i j = Some p ->
  px_mode p = im_mode img /\ px_u8 p = true.
Proof. intros [_ Hf] Hat. exact (Forall2d_at2 _ _ _ _ _ Hf Hat). Qed.

Lemma px_u8_rgba r g b a :
  px_u8 (PxRGBA r g b a) = true <->
    0 <= r <= 255 /\ 0 <= g <= 255 /\ 0 <= b <= 255 /\ 0 <= a <= 255.
Proof.
  unfold px_u8. simpl. rewrite !andb_true_iff, !is_u8_spec. tauto.
Qed.

Lemma px_u8_to_rgba p : px_u8 p = true -> px_u8 (to_rgba p) = true.
Proof.
  destruct p; unfold px_u8; simpl; rewrite ?andb_true_iff, ?is_u8_spec;
    intuition lia.
Qed.

Lemma px_mode_to_rgba p : px_mode (to_rgba p) = ModeRGBA.
Proof. by destruct p. Qed.

(** [convert("RGBA")] keeps the size and yields a well-formed RGBA
    image. *)
Lemma convert_rgba_wf img :
  image_wf img -> image_wf (convert_rgba img) /\ im_mode (convert_rgba img) = ModeRGBA.
Proof.
  intros [Hr Hf]. split; [|done]. split; [exact (rect_map2d _ _ _ _ Hr)|].
  apply Forall2d_intro. intros i j x Hx. simpl in Hx.
  rewrite at2_map2d in Hx.
  destruct (at2 (im_rows img) i j) as [p|] eqn:Ep; simplify_eq/=.
  destruct (Forall2d_at2 _ _ _ _ _ Hf Ep) as [_ Hu].
  split; [apply px_mode_to_rgba | by apply px_u8_to_rgba].
Qed.

Lemma to_rgba_u8 p :
  px_u8 p = true ->
  exists r g b a, to_rgba p = PxRGBA r g b a /\ px_rgb p = (r, g, b) /\
    0 <= r <= 255 /\ 0 <= g <= 255 /\ 0 <= b <= 255 /\ 0 <= a <= 255.
Proof.
  destruct p as [l|r g b|r g b a]; unfold px_u8; simpl;
    rewrite ?andb_true_iff, ?is_u8_spec; intros H; do 4 eexists;
    (split; [reflexivity|]); (split; [reflexivity|]); lia.
Qed.

Lemma px_rgb_to_rgba p : px_rgb (to_rgba p) = px_rgb p.
Proof. by destruct p. Qed.

Lemma px_alpha_to_rgba p : px_alpha (to_rgba p) = px_alpha p.
Proof. by destruct p. Qed.

Lemma to_rgba_rgba p : px_mode p = ModeRGBA -> to_rgba p = p.
Proof. by destruct p. Qed.

End Raster.

#[export] Hint Resolve Raster.px_u8_to_rgba : matte.
