(* ===== verification/NdArray.v ===== *)
(** * NdArray: the numpy operations the scripts apply to pixel arrays

    A numpy array carries its shape; [nd3] is an array of shape
    [(n0, n1, n2)] of 8-bit values (an image as [np.array(img)] or
    [cv2.imread] returns it: rows, columns, channels) and [nd2 A] an array
    of shape [(n0, n1)].  The operations are those of
    src/process_bg_pillow.py lines 13-22 ([np.array], [.T], unpacking,
    [>], [&], boolean-mask assignment) and src/process_bg.py line 26
    ([rgba[mask > 0] = ...]).  Boolean-mask assignment writes through a
    view into the same buffer; the model returns the updated array, which
    is what the script reads afterwards. *)

From S2P Require Import Prelude.

Module Np.

Record nd3 : Type := ND3 { shape3 : nat * nat * nat; buf3 : list (list (list Z)) }.
Record nd2 (A : Type) : Type := ND2 { shape2 : nat * nat; buf2 : list (list A) }.
Arguments ND2 {A} _ _.
Arguments shape2 {A} _.
Arguments buf2 {A} _.

(** The buffer has the shape the array declares. *)
Definition nd3_wf (a : nd3) : Prop :=
  let '(n0, n1, n2) := shape3 a in
  rect n0 n1 (buf3 a) /\ Forall (Forall (fun c => length c = n2)) (buf3 a).

Definition nd2_wf {A} (a : nd2 A) : Prop :=
  let '(n0, n1) := shape2 a in rect n0 n1 (buf2 a).

Definition at3 (m : list (list (list Z))) (i j k : nat) : option Z :=
  at2 m i j ≫= fun c => c !! k.

(** [a.T] of a 3-d array reverses its axes:
    [a.T[k][j][i] = a[i][j][k]]. *)
Definition T3 (a : nd3) : nd3 :=
  let '(n0, n1, n2) := shape3 a in
  ND3 (n2, n1, n0)
    (transpose_n n1 <$> transpose_n n2 (transpose_n n2 <$> buf3 a)).

(** [a.T] of a 2-d array. *)
Definition T2 {A} (a : nd2 A) : nd2 A :=
  let '(n0, n1) := shape2 a in ND2 (n1, n0) (transpose_n n1 (buf2 a)).

(** [x0, x1, x2, x3 = a]: unpacking iterates over the first axis and
    raises [ValueError] unless there are exactly four items. *)
Definition unpack4 (a : nd3) : result (nd2 Z * nd2 Z * nd2 Z * nd2 Z) :=
  let '(n0, n1, n2) := shape3 a in
  match buf3 a with
  | [p0; p1; p2; p3] =>
      Ok (ND2 (n1, n2) p0, ND2 (n1, n2) p1, ND2 (n1, n2) p2, ND2 (n1, n2) p3)
  | _ => Raise ValueError
  end.

(** [a > k] for an integer array and a scalar. *)
Definition gt_scalar (a : nd2 Z) (k : Z) : nd2 bool :=
  ND2 (shape2 a) (map2d (fun v => k <? v) (buf2 a)).

(** [x & y] on two boolean arrays.  The arrays combined by the scripts
    always have one shape; arrays of different shapes raise
    [ValueError] (broadcasting of a length-1 axis is not modelled). *)
Definition and2 (x y : nd2 bool) : result (nd2 bool) :=
  if decide (shape2 x = shape2 y)
  then Ok (ND2 (shape2 x) (zip2d andb (buf2 x) (buf2 y)))
  else Raise ValueError.

(** [a[..., k][mask] = v]: [a[..., k]] is a view of channel [k]
    ([IndexError] when [k] is not a channel); assigning through the
    boolean mask, which must have the shape of the first two axes
    ([IndexError] otherwise), sets channel [k] of the selected pixels
    of [a] itself. *)
Definition set_channel_where (a : nd3) (k : nat) (mask : nd2 bool) (v : Z)
  : result nd3 :=
  let '(n0, n1, n2) := shape3 a in
  if decide (k < n2)%nat then
    if decide (shape2 mask = (n0, n1)) then
      Ok (ND3 (n0, n1, n2)
            (zip2d (fun c (m : bool) => if m then <[k := v]> c else c)
               (buf3 a) (buf2 mask)))
    else Raise IndexError
  else Raise IndexError.

(** [a[mask] = vec] with a 2-d boolean mask: every selected pixel is
    replaced by [vec], which must have one entry per channel or a single
    entry ([ValueError] otherwise); the mask must have the shape of the
    first two axes ([IndexError] otherwise). *)
Definition set_pixels_where (a : nd3) (mask : nd2 bool) (vec : list Z)
  : result nd3 :=
  let '(n0, n1, n2) := shape3 a in
  if decide (shape2 mask = (n0, n1)) then
    let fill :=
      if decide (length vec = n2) then Some vec
      else match vec with [v] => Some (replicate n2 v) | _ => None end in
    match fill with
    | Some row =>
        Ok (ND3 (n0, n1, n2)
              (zip2d (fun c (m : bool) => if m then row else c)
                 (buf3 a) (buf2 mask)))
    | None => Raise ValueError
    end
  else Raise IndexError.

(** ** Shapes and indexing *)

Lemma at3_alt m i j k : at3 m i j k = m !! i ≫= fun r => at2 r j k.
Proof. unfold at3, at2. by destruct (m !! i). Qed.

Section Transpose3.
Variables (n0 n1 n2 : nat) (buf : list (list (list Z))).
Hypothesis Hrect : rect n0 n1 buf.
Hypothesis Hcells : Forall (Forall (fun c => length c = n2)) buf.

Let A1 := transpose_n n2 <$> buf.
Let A2 := transpose_n n2 A1.

Lemma row_rect y row : buf !! y = Some row -> rect n1 n2 row.
Proof.
  intros Hy. split; [exact (rect_lookup _ _ _ _ _ Hrect Hy)|].
  exact (proj1 (Forall_lookup _ _) Hcells _ _ Hy).
Qed.

Lemma A1_rect : rect n0 n2 A1.
Proof.
  subst A1. split; [by rewrite length_fmap; destruct Hrect|].
  apply Forall_lookup. intros y q Hq.
  rewrite list_lookup_fmap in Hq.
  destruct (buf !! y) as [row|] eqn:Hy; simplify_eq/=.
  by destruct (rect_transpose_n _ _ _ (row_rect y row Hy)).
Qed.

Lemma A1_cells : Forall (Forall (fun c => length c = n1)) A1.
Proof.
  apply Forall_lookup. intros y q Hq. subst A1.
  rewrite list_lookup_fmap in Hq.
  destruct (buf !! y) as [row|] eqn:Hy; simplify_eq/=.
  by destruct (rect_transpose_n _ _ _ (row_rect y row Hy)).
Qed.

Lemma A2_rows c p : A2 !! c = Some p -> rect n0 n1 p.
Proof.
  intros Hc. pose proof (rect_transpose_n _ _ _ A1_rect) as HT.
  split; [exact (rect_lookup _ _ _ _ _ HT Hc)|].
  apply Forall_lookup. intros y e He.
  assert (Hat : at2 A2 c y = Some e) by (unfold at2; by rewrite Hc).
  subst A2. rewrite (at2_transpose_n _ _ _ _ _ A1_rect) in Hat.
  exact (Forall2d_at2 _ _ _ _ _ A1_cells Hat).
Qed.

Lemma at3_transpose3 c x y :
  at3 ((transpose_n n1) <$> A2) c x y = at3 buf y x c.
Proof.
  rewrite at3_alt, list_lookup_fmap.
  transitivity (A2 !! c ≫= fun p => at2 p y x).
  { destruct (A2 !! c) as [p|] eqn:Hc; simpl; [|done].
    exact (at2_transpose_n _ _ _ _ _ (A2_rows c p Hc)). }
  rewrite <- at3_alt. unfold at3 at 1. subst A2.
  rewrite (at2_transpose_n _ _ _ _ _ A1_rect).
  change (at3 A1 y c x = at3 buf y x c).
  rewrite at3_alt. subst A1. rewrite list_lookup_fmap, at3_alt.
  destruct (buf !! y) as [row|] eqn:Hy; simpl; [|done].
  exact (at2_transpose_n _ _ _ _ _ (row_rect y row Hy)).
Qed.

Lemma transpose3_rect :
  rect n2 n1 ((transpose_n n1) <$> A2) /\
  Forall (Forall (fun c => length c = n0)) ((transpose_n n1) <$> A2).
Proof.
  pose proof (rect_transpose_n _ _ _ A1_rect) as [LA2 _].
  split; [split|].
  - by rewrite length_fmap.
  - apply Forall_lookup. intros c q Hq. rewrite list_lookup_fmap in Hq.
    destruct (A2 !! c) as [p|] eqn:Hc; simplify_eq/=.
    by destruct (rect_transpose_n _ _ _ (A2_rows c p Hc)).
  - apply Forall_lookup. intros c q Hq. rewrite list_lookup_fmap in Hq.
    destruct (A2 !! c) as [p|] eqn:Hc; simplify_eq/=.
    by destruct (rect_transpose_n _ _ _ (A2_rows c p Hc)).
Qed.
End Transpose3.

Lemma T3_wf_at a :
  nd3_wf a ->
  nd3_wf (T3 a) /\
  forall c x y, at3 (buf3 (T3 a)) c x y = at3 (buf3 a) y x c.
Proof.
  destruct a as [[[n0 n1] n2] buf]. unfold nd3_wf, T3. simpl.
  intros [Hr Hc]. split.
  - exact (transpose3_rect _ _ _ _ Hr Hc).
  - intros. exact (at3_transpose3 _ _ _ _ Hr Hc c x y).
Qed.



Lemma T2_spec {A} (a : nd2 A) :
  nd2_wf a ->
  nd2_wf (T2 a) /\ forall i j, at2 (buf2 (T2 a)) j i = at2 (buf2 a) i j.
Proof.
  destruct a as [[n0 n1] m]. unfold nd2_wf, T2. simpl. intros Hr.
  split; [exact (rect_transpose_n _ _ _ Hr)|].
  intros. exact (at2_transpose_n _ _ _ _ _ Hr).
Qed.

Lemma gt_scalar_spec a k :
  nd2_wf a -> nd2_wf (gt_scalar a k) /\ shape2 (gt_scalar a k) = shape2 a /\
  forall i j, at2 (buf2 (gt_scalar a k)) i j = (fun v => k <? v) <$> at2 (buf2 a) i j.
Proof.
  destruct a as [[n0 n1] m]. unfold nd2_wf, gt_scalar. simpl. intros Hr.
  split; [exact (rect_map2d _ _ _ _ Hr)|]. split; [done|].
  intros. apply at2_map2d.
Qed.

(** Unpacking the transpose of an [(n0, n1, 4)] array yields its four
    channel planes, each of shape [(n1, n0)]. *)
Lemma unpack4_T3 a n0 n1 :
  nd3_wf a -> shape3 a = (n0, n1, 4%nat) ->
  exists p0 p1 p2 p3,
    unpack4 (T3 a) =
      Ok (ND2 (n1, n0) p0, ND2 (n1, n0) p1, ND2 (n1, n0) p2, ND2 (n1, n0) p3) /\
    Forall (rect n1 n0) [p0; p1; p2; p3] /\
    forall c x y, at2 ([p0; p1; p2; p3] !!! c) x y = at3 (buf3 a) y x c.
Proof.
  intros Hwf Hsh. destruct (T3_wf_at a Hwf) as [HT Hat].
  destruct a as [sh buf]; simpl in Hsh; subst sh.
  unfold T3, nd3_wf in *; simpl in *. destruct HT as [[L Hr] Hc].
  set (B := transpose_n n1 <$> _) in *.
  destruct B as [|p0 [|p1 [|p2 [|p3 [|? ?]]]]]; simpl in L; try lia.
  exists p0, p1, p2, p3. split; [done|]. split.
  - apply Forall_lookup. intros c q Hq. split.
    + exact (proj1 (Forall_lookup _ _) Hr _ _ Hq).
    + exact (proj1 (Forall_lookup _ _) Hc _ _ Hq).
  - intros c x y. rewrite <- Hat, at3_alt.
    destruct c as [|[|[|[|c]]]]; simpl; try done.
Qed.

Lemma and2_same (x y : nd2 bool) :
  shape2 x = shape2 y ->
  and2 x y = Ok (ND2 (shape2 x) (zip2d andb (buf2 x) (buf2 y))).
Proof. intros H. unfold and2. by rewrite decide_True. Qed.

Lemma set_channel_where_ok a k mask v n0 n1 n2 :
  shape3 a = (n0, n1, n2) -> (k < n2)%nat -> shape2 mask = (n0, n1) ->
  set_channel_where a k mask v =
    Ok (ND3 (n0, n1, n2)
          (zip2d (fun c (m : bool) => if m then <[k := v]> c else c)
             (buf3 a) (buf2 mask))).
Proof.
  intros Hs Hk Hm. unfold set_channel_where. rewrite Hs.
  rewrite decide_True by done. by rewrite decide_True.
Qed.
End Np.
