(* ===== verification/Filter.v ===== *)
(** * Filter: what a background filter promises its caller

    The command-line wrapper of each script decodes an image, passes it to
    the image transform, and saves the result.  The typeclass
    [MatteFilter] is the interface between the two: on a well-formed
    decoded image the transform returns, without raising, the RGBA image
    of the same size whose pixel at each place is a fixed function
    [mf_px] of the input pixel at that place, and [mf_px] maps 8-bit
    pixels to 8-bit RGBA pixels.

    Section [PixelMap] proves the consequences for a transform [run] and a
    pixel map [f] given as variables, so that each script file can use
    them with its own lemmas; the class-level statements follow.  The
    instances for the three scripts are declared in MatteSpec.v. *)

From S2P Require Import Prelude Raster.

Module Filter.
Import Raster.

Class MatteFilter (run : image -> result image) : Type := {
  mf_px : px -> px;
  mf_run : forall img, image_wf img ->
    run img = Ok (Image ModeRGBA (im_width img) (im_height img)
                    (map2d mf_px (im_rows img)));
  mf_px_wf : forall p, px_u8 p = true ->
    px_mode (mf_px p) = ModeRGBA /\ px_u8 (mf_px p) = true
}.

Section PixelMap.
Variables (run : image -> result image) (f : px -> px).
Hypothesis Hrun : forall img, image_wf img ->
  run img = Ok (Image ModeRGBA (im_width img) (im_height img) (map2d f (im_rows img))).
Hypothesis Hf : forall p, px_u8 p = true -> px_mode (f p) = ModeRGBA /\ px_u8 (f p) = true.

(** The output is a well-formed RGBA image of the input's size. *)
Lemma map_output_wf img out :
  image_wf img -> run img = Ok out ->
  image_wf out /\ im_mode out = ModeRGBA /\
  im_width out = im_width img /\ im_height out = im_height img.
Proof.
  intros Hwf Hr. rewrite Hrun in Hr by done. injection Hr as <-.
  cbn [im_mode im_width im_height im_rows]. split; [|done].
  split; [exact (rect_map2d _ _ _ _ (proj1 Hwf))|].
  apply Forall2d_intro. intros i j q Hq. cbn [im_rows im_mode] in *.
  rewrite at2_map2d in Hq.
  destruct (at2 (im_rows img) i j) as [p|] eqn:Hp; simplify_eq/=.
  apply Hf. exact (proj2 (image_wf_at2 _ _ _ _ Hwf Hp)).
Qed.

(** A pixel map that is idempotent on 8-bit pixels gives an idempotent
    transform. *)
Lemma map_idempotent img out :
  (forall p, px_u8 p = true -> f (f p) = f p) ->
  image_wf img -> run img = Ok out -> run out = Ok out.
Proof.
  intros Hid Hwf Hr.
  destruct (map_output_wf img out Hwf Hr) as (Hwf' & _).
  rewrite Hrun by done. rewrite Hrun in Hr by done.
  injection Hr as <-. simpl. do 2 f_equal.
  rewrite map2d_compose. apply map2d_ext. intros i j p Hp.
  apply Hid. exact (proj2 (image_wf_at2 _ _ _ _ Hwf Hp)).
Qed.

End PixelMap.


Lemma filter_output_wf (run : image -> result image) `{!MatteFilter run} img out :
  image_wf img -> run img = Ok out ->
  image_wf out /\ im_mode out = ModeRGBA /\
  im_width out = im_width img /\ im_height out = im_height img.
Proof. exact (map_output_wf run mf_px mf_run mf_px_wf img out). Qed.
End Filter.
