(* ===== verification/PillowNumpy.v ===== *)
(** * PillowNumpy: src/process_bg_pillow.py

    [remove_background] is the image transform of
    [remove_background_and_convert] (lines 6-24): convert to RGBA, build
    the numpy array, split the transposed array into its four channel
    planes, mask the pixels whose R, G and B are all [> 240], set their
    alpha to 0 through the transposed mask, and rebuild the image.  The
    main theorem [numpy_filter_spec] says that on every decoded image
    this computes, without raising, the per-pixel map [matte_px]: pixels
    with R, G, B all above 240 keep their colour and get alpha 0, every
    other pixel is its RGBA conversion unchanged. *)

From S2P Require Import Prelude Raster NdArray Filter.

Module PillowNumpy.
Import Raster Np.
Local Open Scope py_scope.

(** [data = np.array(img)] (line 13): shape [(height, width, bands)],
    the last axis holding the channels of each pixel.  The script
    applies it to the RGBA image of line 8, so the array is 3-d. *)
Definition np_array (img : image) : nd3 :=
  ND3 (im_height img, im_width img, bands (im_mode img))
    (map2d px_channels (im_rows img)).

(** The pixel [Image.fromarray] reads from the channels of an array
    cell (only the channel counts it accepts reach this function). *)
Definition px_of_channels (c : list Z) : px :=
  match c with
  | [r; g; b; a] => PxRGBA r g b a
  | [r; g; b] => PxRGB r g b
  | [l] => PxL l
  | _ => PxL 0
  end.

(** [Image.fromarray(data)] (line 24) for a 3-d uint8 array: 4 channels
    give an RGBA image, 3 an RGB image; other shapes raise [TypeError]. *)
Definition fromarray (a : nd3) : result image :=
  let '(h, w, c) := shape3 a in
  match c with
  | 4%nat => Ok (Image ModeRGBA w h (map2d px_of_channels (buf3 a)))
  | 3%nat => Ok (Image ModeRGB w h (map2d px_of_channels (buf3 a)))
  | _ => Raise TypeError
  end.

(** [white_areas = (r > 240) & (g > 240) & (b > 240)] (line 19). *)
Definition white_areas_of (r g b : nd2 Z) : result (nd2 bool) :=
  rg <- and2 (gt_scalar r 240) (gt_scalar g 240) ;;
  and2 rg (gt_scalar b 240).

(** Lines 8-24 without the file input and output. *)
Definition remove_background (img : image) : result image :=
  let data := np_array (convert_rgba img) in
  planes <- unpack4 (T3 data) ;;
  let '(r, g, b, _) := planes in
  white_areas <- white_areas_of r g b ;;
  data' <- set_channel_where data 3 (T2 white_areas) 0 ;;
  fromarray data'.

(** The per-pixel effect of [remove_background] on an RGBA pixel. *)
Definition matte_px (p : px) : px :=
  match p with
  | PxRGBA r g b a =>
      if (240 <? r) && (240 <? g) && (240 <? b) then PxRGBA r g b 0 else p
  | _ => p
  end.


(** ** Proofs *)

Lemma np_array_wf img :
  image_wf img -> im_mode img = ModeRGBA ->
  nd3_wf (np_array img) /\
  shape3 (np_array img) = (im_height img, im_width img, 4%nat).
Proof.
  intros [Hr Hf] Hm. unfold nd3_wf, np_array. rewrite Hm. simpl.
  split; [split|done].
  - exact (rect_map2d _ _ _ _ Hr).
  - apply Forall2d_intro. intros i j c Hc. rewrite at2_map2d in Hc.
    destruct (at2 (im_rows img) i j) as [p|] eqn:Ep; simplify_eq/=.
    destruct (Forall2d_at2 _ _ _ _ _ Hf Ep) as [Hpm _].
    rewrite Hm in Hpm. by destruct p.
Qed.

(** A pixel of a well-formed RGBA image is a 4-tuple. *)
Lemma rgba_at img y x :
  image_wf img -> im_mode img = ModeRGBA ->
  (y < im_height img)%nat -> (x < im_width img)%nat ->
  exists r g b a, at2 (im_rows img) y x = Some (PxRGBA r g b a).
Proof.
  intros Hwf Hm Hy Hx. destruct (at2_in _ _ _ _ _ (proj1 Hwf) Hy Hx) as [p Hp].
  destruct (image_wf_at2 _ _ _ _ Hwf Hp) as [Hpm _]. rewrite Hm in Hpm.
  destruct p; try discriminate. eauto.
Qed.

(** The white mask of line 19, read at column [x] and row [y]. *)
Lemma white_areas_at p0 p1 p2 x y :
  at2 (zip2d andb (zip2d andb (map2d (fun v => 240 <? v) p0)
                              (map2d (fun v => 240 <? v) p1))
                  (map2d (fun v => 240 <? v) p2)) x y =
    at2 p0 x y ≫= fun r => at2 p1 x y ≫= fun g => at2 p2 x y ≫= fun b =>
      Some ((240 <? r) && (240 <? g) && (240 <? b)).
Proof.
  rewrite !at2_zip2d, !at2_map2d.
  destruct (at2 p0 x y), (at2 p1 x y), (at2 p2 x y); done.
Qed.

(** The transform is the map [matte_px] over the RGBA conversion. *)
Lemma numpy_remove_background_map img :
  image_wf img ->
  remove_background img =
    Ok (Image ModeRGBA (im_width img) (im_height img)
          (map2d matte_px (im_rows (convert_rgba img)))).
Proof.
  intros Hwf. destruct (convert_rgba_wf img Hwf) as [Hwf' Hm'].
  unfold remove_background.
  change (im_width img) with (im_width (convert_rgba img)).
  change (im_height img) with (im_height (convert_rgba img)).
  set (img' := convert_rgba img) in *. clearbody img'.
  destruct (np_array_wf img' Hwf' Hm') as [Hd Hsh].
  destruct (unpack4_T3 _ _ _ Hd Hsh) as (p0 & p1 & p2 & p3 & Hu & Hr & Hat).
  rewrite Hu. simpl. unfold white_areas_of.
  rewrite and2_same by reflexivity. simpl.
  rewrite and2_same by reflexivity. unfold T2. simpl.
  rewrite (set_channel_where_ok _ _ _ _ _ _ 4 Hsh) by (simpl; lia || done).
  unfold fromarray. simpl. do 2 f_equal.
  apply Forall_cons in Hr as [H0 Hr]. apply Forall_cons in Hr as [H1 Hr].
  apply Forall_cons in Hr as [H2 _].
  assert (HW : rect (im_width img') (im_height img')
     (zip2d andb (zip2d andb (map2d (fun v => 240 <? v) p0)
                             (map2d (fun v => 240 <? v) p1))
                 (map2d (fun v => 240 <? v) p2))).
  { apply rect_zip2d; [apply rect_zip2d|]; apply rect_map2d; assumption. }
  destruct Hd as [Hdr _].
  apply (rect_eq (im_height img') (im_width img')).
  - apply rect_map2d, rect_zip2d; [exact Hdr | exact (rect_transpose_n _ _ _ HW)].
  - exact (rect_map2d _ _ _ _ (proj1 Hwf')).
  - intros y x Hy Hx.
    destruct (rgba_at _ _ _ Hwf' Hm' Hy Hx) as (r & g & b & a & Hp).
    pose proof (Hat 0%nat) as A0; pose proof (Hat 1%nat) as A1;
      pose proof (Hat 2%nat) as A2; cbn in A0, A1, A2.
    rewrite at2_map2d, at2_zip2d, (at2_transpose_n _ _ _ _ _ HW),
      white_areas_at, A0, A1, A2, at2_map2d.
    unfold at3. change (buf3 (np_array img')) with (map2d px_channels (im_rows img')).
    rewrite !at2_map2d, Hp. simpl.
    by destruct ((240 <? r) && (240 <? g) && (240 <? b)).
Qed.

(** C1: on every well-formed decoded image the script raises nothing and
    returns an RGBA image of the same size in which the pixel at each
    place is [matte_px] of the RGBA conversion of the input pixel there:
    alpha 0 when R, G and B all exceed 240, R, G, B and every other pixel
    unchanged. *)
Theorem numpy_filter_spec img :
  image_wf img ->
  exists out, remove_background img = Ok out /\
    rect (im_height img) (im_width img) (im_rows out) /\
    im_mode out = ModeRGBA /\
    forall i j p, at2 (im_rows img) i j = Some p ->
      at2 (im_rows out) i j = Some (matte_px (to_rgba p)).
Proof.
  intros Hwf. eexists. split; [exact (numpy_remove_background_map img Hwf)|].
  simpl. split; [exact (rect_map2d _ _ _ _ (rect_map2d _ _ _ _ (proj1 Hwf)))|].
  split; [done|]. intros i j p Hp. by rewrite !at2_map2d, Hp.
Qed.

(** ** Concrete runs *)

(** Scenario A of the specification: a 2x1 RGB image, one white and one
    black pixel. *)
Definition scenario_a : image :=
  Image ModeRGB 2 1 [[PxRGB 255 255 255; PxRGB 0 0 0]].

(** C1 on scenario A: the white pixel becomes transparent, the black one
    stays opaque. *)
Lemma numpy_filter_spec_witness :
  exists out, remove_background scenario_a = Ok out /\
    rect 1 2 (im_rows out) /\ im_mode out = ModeRGBA /\
    at2 (im_rows out) 0 0 = Some (PxRGBA 255 255 255 0) /\
    at2 (im_rows out) 0 1 = Some (PxRGBA 0 0 0 255).
Proof.
  destruct (numpy_filter_spec scenario_a) as (out & Hrun & Hr & Hm & Hat).
  - apply image_wfb_spec. vm_compute. reflexivity.
  - exists out. split; [exact Hrun|]. split; [exact Hr|]. split; [exact Hm|].
    split; [apply (Hat 0%nat 0%nat (PxRGB 255 255 255))
           | apply (Hat 0%nat 1%nat (PxRGB 0 0 0))]; reflexivity.
Defined.
(** ** The script as a filter *)

Import Filter.

Lemma matte_px_wf p :
  px_u8 p = true ->
  px_mode (matte_px (to_rgba p)) = ModeRGBA /\
  px_u8 (matte_px (to_rgba p)) = true.
Proof.
  intros Hu. destruct (to_rgba_u8 p Hu) as (r & g & b & a & -> & _ & H).
  unfold matte_px.
  destruct ((240 <? r) && (240 <? g) && (240 <? b)); rewrite px_u8_rgba; split; lia || done.
Qed.

(** The transform as a map over the decoded pixels. *)
Lemma numpy_remove_background_px img :
  image_wf img ->
  remove_background img =
    Ok (Image ModeRGBA (im_width img) (im_height img)
          (map2d (fun p => matte_px (to_rgba p)) (im_rows img))).
Proof.
  intros Hwf. rewrite numpy_remove_background_map by done.
  simpl. by rewrite map2d_compose.
Qed.

Lemma matte_px_idem p :
  matte_px (to_rgba (matte_px (to_rgba p))) =
  matte_px (to_rgba p).
Proof.
  destruct p; simpl;
    match goal with |- context [if ?c then _ else _] => destruct c eqn:W end;
    simpl; rewrite ?W; done.
Qed.

(** C8: running the numpy script on its own output changes nothing
    (spec.md section 8, idempotence). *)
Theorem numpy_idempotent img out :
  image_wf img -> remove_background img = Ok out ->
  remove_background out = Ok out.
Proof.
  apply (map_idempotent _ _ numpy_remove_background_px matte_px_wf).
  intros p _. apply matte_px_idem.
Qed.

Lemma numpy_idempotent_witness :
  remove_background (Image ModeRGBA 2 1 [[PxRGBA 255 255 255 0; PxRGBA 0 0 0 255]]) =
    Ok (Image ModeRGBA 2 1 [[PxRGBA 255 255 255 0; PxRGBA 0 0 0 255]]).
Proof.
  apply (numpy_idempotent scenario_a).
  - apply image_wfb_spec. vm_compute. reflexivity.
  - vm_compute. reflexivity.
Defined.

End PillowNumpy.
