(* ===== verification/Cv2Filter.v ===== *)
(** * Cv2Filter: src/process_bg.py

    [remove_background] is the image transform of
    [remove_background_and_convert] (lines 7-29): read the file as a
    3-channel BGR array ([cv2.imread] with its default flag, which drops
    an alpha channel), add an opaque alpha ([cv2.cvtColor] with
    [COLOR_BGR2BGRA]), build the mask of pixels inside the inclusive box
    [[240, 255]] on every channel ([cv2.inRange]; the alpha bound is
    [[255, 255]]), overwrite the masked pixels with [[0, 0, 0, 0]], and
    write the BGRA array, which the PNG file stores as RGBA.

    [cv2_filter_spec] shows it computes the per-pixel map
    [cv2_px]: a pixel whose R, G, B all lie in [[240, 255]] becomes
    transparent black, every other pixel keeps its colour and becomes
    opaque, whatever alpha the input had. *)

From S2P Require Import Prelude Raster NdArray Filter.

Module Cv2.
Import Raster Np.
Local Open Scope py_scope.

(** The BGR triple [cv2.imread(path)] (line 9) decodes for a pixel of the
    file: grey is replicated, the alpha of an RGBA file is dropped. *)
Definition imread_px (p : px) : list Z :=
  match p with
  | PxL l => [l; l; l]
  | PxRGB r g b => [b; g; r]
  | PxRGBA r g b _ => [b; g; r]
  end.

(** [cv2.imread(input_path)] for a file that decodes (line 9). *)
Definition imread_color (img : image) : nd3 :=
  ND3 (im_height img, im_width img, 3%nat) (map2d imread_px (im_rows img)).

(** [cv2.cvtColor(img, cv2.COLOR_BGR2BGRA)] (line 15): a 3-channel input
    gains an alpha of 255, a 4-channel input is copied, any other channel
    count is rejected with [cv2.error]. *)
Definition cvtColor_BGR2BGRA (a : nd3) : result nd3 :=
  let '(h, w, c) := shape3 a in
  match c with
  | 3%nat => Ok (ND3 (h, w, 4%nat) (map2d (fun v => v ++ [255]) (buf3 a)))
  | 4%nat => Ok a
  | _ => Raise Cv2Error
  end.

(** Every channel of [v] lies between the bounds of its position. *)
Fixpoint in_bounds (lo hi v : list Z) : bool :=
  match lo, hi, v with
  | l :: lo', u :: hi', x :: v' => (l <=? x) && (x <=? u) && in_bounds lo' hi' v'
  | [], [], [] => true
  | _, _, _ => false
  end.

(** [cv2.inRange(src, lowerb, upperb)] (line 23): a one-channel array with
    255 where every channel of the pixel lies in its inclusive range and 0
    elsewhere; bounds with a channel count other than the image's raise
    [cv2.error]. *)
Definition inRange (a : nd3) (lo hi : list Z) : result (nd2 Z) :=
  let '(h, w, c) := shape3 a in
  if decide (length lo = c /\ length hi = c) then
    Ok (ND2 (h, w) (map2d (fun v => if in_bounds lo hi v then 255 else 0) (buf3 a)))
  else Raise Cv2Error.

(** [lower_white] and [upper_white] (lines 19-20). *)
Definition lower_white : list Z := [240; 240; 240; 255].
Definition upper_white : list Z := [255; 255; 255; 255].

(** The pixel a PNG written by [cv2.imwrite] (line 29) stores for an array
    cell: OpenCV's channel order is B, G, R, A. *)
Definition px_of_bgra (c : list Z) : px :=
  match c with
  | [b; g; r; a] => PxRGBA r g b a
  | [b; g; r] => PxRGB r g b
  | [l] => PxL l
  | _ => PxL 0
  end.

(** The image [cv2.imwrite(output_path, rgba)] (line 29) stores, for a
    1-, 3- or 4-channel array; other channel counts raise [cv2.error]. *)
Definition imwrite_image (a : nd3) : result image :=
  let '(h, w, c) := shape3 a in
  match c with
  | 4%nat => Ok (Image ModeRGBA w h (map2d px_of_bgra (buf3 a)))
  | 3%nat => Ok (Image ModeRGB w h (map2d px_of_bgra (buf3 a)))
  | 1%nat => Ok (Image ModeL w h (map2d px_of_bgra (buf3 a)))
  | _ => Raise Cv2Error
  end.

(** Lines 9-29 without the file input and output. *)
Definition remove_background (img : image) : result image :=
  rgba <- cvtColor_BGR2BGRA (imread_color img) ;;
  mask <- inRange rgba lower_white upper_white ;;
  rgba' <- set_pixels_where rgba (gt_scalar mask 0) [0; 0; 0; 0] ;;
  imwrite_image rgba'.

(** The per-pixel effect of [remove_background]. *)
Definition cv2_px (p : px) : px :=
  let '(r, g, b) := px_rgb p in
  if (240 <=? r) && (r <=? 255) && (240 <=? g) && (g <=? 255) &&
     (240 <=? b) && (b <=? 255)
  then PxRGBA 0 0 0 0
  else PxRGBA r g b 255.

(** ** Proofs *)

Lemma cv2_px_bgra p :
  px_of_bgra
    (if 0 <? (if in_bounds lower_white upper_white (imread_px p ++ [255])
              then 255 else 0)
     then [0; 0; 0; 0] else imread_px p ++ [255]) = cv2_px p.
Proof.
  unfold cv2_px. destruct p as [l|r g b|r g b a]; simpl;
    repeat match goal with |- context [?x <=? ?y] =>
      lazymatch x with 255 => fail | _ => destruct (x <=? y) end end;
    reflexivity.
Qed.

(** The transform is the map [cv2_px] over the decoded pixels. *)
Lemma cv2_remove_background_map img :
  remove_background img =
    Ok (Image ModeRGBA (im_width img) (im_height img) (map2d cv2_px (im_rows img))).
Proof.
  unfold remove_background, imread_color, cvtColor_BGR2BGRA, inRange. simpl.
  unfold set_pixels_where, gt_scalar. simpl.
  rewrite decide_True by done. simpl. unfold imwrite_image. simpl.
  rewrite !map2d_compose, zip2d_map2d_diag, map2d_compose.
  do 2 f_equal. apply map2d_ext. intros _ _ p _. apply cv2_px_bgra.
Qed.

(** C2: on every decoded image the OpenCV script raises nothing and
    returns an RGBA image of the same size whose pixel at each place is
    [cv2_px] of the input pixel there: transparent black when R, G and B
    all lie in [[240, 255]], the input colour with alpha 255 otherwise. *)
Theorem cv2_filter_spec img :
  exists out, remove_background img = Ok out /\
    im_mode out = ModeRGBA /\ im_width out = im_width img /\
    im_height out = im_height img /\
    forall i j, at2 (im_rows out) i j = cv2_px <$> at2 (im_rows img) i j.
Proof.
  eexists. split; [apply cv2_remove_background_map|].
  do 3 (split; [done|]). intros i j. apply at2_map2d.
Qed.

(** ** The script as a filter *)

Import Filter.

Lemma cv2_px_wf p :
  px_u8 p = true -> px_mode (cv2_px p) = ModeRGBA /\ px_u8 (cv2_px p) = true.
Proof.
  intros Hu. destruct (to_rgba_u8 p Hu) as (r & g & b & a & _ & Hp & H).
  unfold cv2_px. rewrite Hp.
  destruct (_ && _); rewrite px_u8_rgba; split; lia || done.
Qed.


(** A pixel whose R, G and B lie in [[240, 255]] becomes transparent
    black. *)
Lemma cv2_px_box p r g b :
  px_rgb p = (r, g, b) -> 240 <= r <= 255 -> 240 <= g <= 255 -> 240 <= b <= 255 ->
  cv2_px p = PxRGBA 0 0 0 0.
Proof.
  intros E Hr Hg Hb. unfold cv2_px. rewrite E.
  assert (H : ((240 <=? r) && (r <=? 255) && (240 <=? g) && (g <=? 255) &&
               (240 <=? b) && (b <=? 255)) = true).
  { rewrite !andb_true_iff, !Z.leb_le. lia. }
  by rewrite H.
Qed.

(** C11: the OpenCV script is not idempotent, although spec.md section 8
    says the filter is.  On every image, each pixel whose R, G and B lie
    in [[240, 255]] is transparent black in the output, and running the
    script on that output makes it opaque black, because [cv2.imread]
    (line 9) drops the alpha channel the first run wrote; so the second
    run changes every image that has such a pixel. *)
Theorem cv2_not_idempotent img out i j p r g b :
  remove_background img = Ok out -> at2 (im_rows img) i j = Some p ->
  px_rgb p = (r, g, b) -> 240 <= r <= 255 -> 240 <= g <= 255 -> 240 <= b <= 255 ->
  at2 (im_rows out) i j = Some (PxRGBA 0 0 0 0) /\
  exists out2, remove_background out = Ok out2 /\
    at2 (im_rows out2) i j = Some (PxRGBA 0 0 0 255) /\ out2 <> out.
Proof.
  intros H1 Hp E Hr Hg Hb. pose proof (cv2_px_box p r g b E Hr Hg Hb) as Hbg.
  rewrite cv2_remove_background_map in H1. injection H1 as <-.
  assert (Hout : at2 (map2d cv2_px (im_rows img)) i j = Some (PxRGBA 0 0 0 0)).
  { rewrite at2_map2d, Hp. change (cv2_px <$> Some p) with (Some (cv2_px p)). by rewrite Hbg. }
  split; [exact Hout|]. eexists. split; [apply cv2_remove_background_map|]. cbn [im_rows].
  rewrite at2_map2d, Hout. split; [reflexivity|].
  intros Heq. apply (f_equal (fun o => at2 (im_rows o) i j)) in Heq. cbn [im_rows] in Heq.
  rewrite at2_map2d, Hout in Heq. discriminate.
Qed.

Lemma cv2_not_idempotent_witness :
  at2 (im_rows (Image ModeRGBA 1 1 [[PxRGBA 0 0 0 0]])) 0 0 = Some (PxRGBA 0 0 0 0) /\
  exists out2, remove_background (Image ModeRGBA 1 1 [[PxRGBA 0 0 0 0]]) = Ok out2 /\
    at2 (im_rows out2) 0 0 = Some (PxRGBA 0 0 0 255) /\
    out2 <> Image ModeRGBA 1 1 [[PxRGBA 0 0 0 0]].
Proof.
  apply (cv2_not_idempotent (Image ModeRGB 1 1 [[PxRGB 255 255 255]]) _ 0 0 (PxRGB 255 255 255) 255 255 255);
    [vm_compute; reflexivity | reflexivity | reflexivity | lia..].
Defined.

End Cv2.
