(* ===== verification/PillowPure.v ===== *)
(** * PillowPure: src/process_bg_pillow_pure.py

    [remove_background] is the image transform of
    [remove_background_and_convert] (lines 5-21): convert to RGBA, read
    the pixels row by row ([getdata]), build [newData] by appending, for
    each item, transparent white [(255, 255, 255, 0)] when its first three
    channels are all [> 240] and the item itself otherwise, and write the
    list back ([putdata]).

    [loop_spec] shows the accumulating loop equals the list comprehension
    [pure_px <$> datas]; [pure_filter_spec] shows the transform maps
    every pixel of the RGBA conversion by [pure_px] and raises nothing. *)

From S2P Require Import Prelude Raster Filter.

Module PillowPure.
Import Raster.
Local Open Scope py_scope.

(** [img.getdata()] (line 12): the pixels, row after row. *)
Definition getdata (img : image) : list px := concat (im_rows img).

(** [item[k]] on a pixel: tuples are indexed, out of range is an
    [IndexError]; the pixel of an L image is an int, not subscriptable. *)
Definition item_at (p : px) (k : nat) : result Z :=
  match p with
  | PxL _ => Raise TypeError
  | _ => match px_channels p !! k with Some v => Ok v | None => Raise IndexError end
  end.

(** The test of line 16, [item[0] > 240 and item[1] > 240 and
    item[2] > 240], with Python's short-circuit [and]. *)
Definition is_white (item : px) : result bool :=
  c0 <- item_at item 0 ;;
  if 240 <? c0 then
    c1 <- item_at item 1 ;;
    if 240 <? c1 then
      c2 <- item_at item 2 ;;
      Ok (240 <? c2)
    else Ok false
  else Ok false.

(** One iteration of the loop (lines 16-19). *)
Definition loop_step (newData : list px) (item : px) : result (list px) :=
  w <- is_white item ;;
  if w then Ok (newData ++ [PxRGBA 255 255 255 0])
  else Ok (newData ++ [item]).

(** [for item in datas: ...] (lines 15-19), from the list built so far. *)
Fixpoint loop (newData : list px) (datas : list px) : result (list px) :=
  match datas with
  | [] => Ok newData
  | item :: rest => nd <- loop_step newData item ;; loop nd rest
  end.

(** The first [h] rows of width [w] of a flat pixel sequence. *)
Fixpoint unflatten (w h : nat) (l : list px) : list (list px) :=
  match h with
  | O => []
  | S h' => take w l :: unflatten w h' (drop w l)
  end.

(** [img.putdata(data)] (line 21): the pixels are overwritten row by row
    from [data]; pixels past the end of [data] keep their value; more
    entries than pixels raise [TypeError] ("too many data entries"). *)
Definition putdata (img : image) (data : list px) : result image :=
  if decide (im_width img * im_height img < length data)%nat then Raise TypeError
  else Ok (Image (im_mode img) (im_width img) (im_height img)
             (unflatten (im_width img) (im_height img)
                (data ++ drop (length data) (getdata img)))).

(** Lines 7-21 without the file input and output. *)
Definition remove_background (img : image) : result image :=
  let rgba := convert_rgba img in
  newData <- loop [] (getdata rgba) ;;
  putdata rgba newData.

(** The per-pixel effect of the loop on an RGBA pixel. *)
Definition pure_px (p : px) : px :=
  match p with
  | PxRGBA r g b _ =>
      if (240 <? r) && (240 <? g) && (240 <? b) then PxRGBA 255 255 255 0 else p
  | _ => p
  end.

(** ** Proofs *)

Lemma is_white_rgba r g b a :
  is_white (PxRGBA r g b a) = Ok ((240 <? r) && (240 <? g) && (240 <? b)).
Proof.
  unfold is_white. simpl.
  destruct (240 <? r), (240 <? g), (240 <? b); reflexivity.
Qed.

Lemma loop_step_rgba acc p :
  px_mode p = ModeRGBA -> loop_step acc p = Ok (acc ++ [pure_px p]).
Proof.
  destruct p as [|?|r g b a]; intros Hm; try discriminate.
  unfold loop_step. rewrite is_white_rgba. simpl.
  by destruct ((240 <? r) && (240 <? g) && (240 <? b)).
Qed.

Lemma loop_rgba datas acc :
  Forall (fun p => px_mode p = ModeRGBA) datas ->
  loop acc datas = Ok (acc ++ (pure_px <$> datas)).
Proof.
  revert acc. induction datas as [|p datas IH]; intros acc Hf.
  - by rewrite app_nil_r.
  - apply Forall_cons in Hf as [Hp Hf]. simpl.
    rewrite loop_step_rgba by done. simpl. rewrite IH by done.
    by rewrite <- app_assoc.
Qed.

(** C12: over RGBA pixels the accumulating loop of lines 14-19 computes
    the list comprehension [[pure_px item for item in datas]], appended to
    what was built before. *)
Theorem loop_spec datas acc :
  Forall (fun p => px_mode p = ModeRGBA) datas ->
  loop acc datas = Ok (acc ++ (pure_px <$> datas)).
Proof. exact (loop_rgba datas acc). Qed.

Lemma length_concat_rect h w (rows : list (list px)) :
  rect h w rows -> length (concat rows) = (h * w)%nat.
Proof.
  revert h. induction rows as [|r rows IH]; intros h [L Hf]; simpl in *.
  - lia.
  - apply Forall_cons in Hf as [Hr Hf]. rewrite length_app.
    rewrite (IH (length rows)) by (split; auto). lia.
Qed.

Lemma loop_spec_witness :
  loop [] [PxRGBA 241 242 243 9; PxRGBA 0 0 0 9] =
    Ok ([] ++ (pure_px <$> [PxRGBA 241 242 243 9; PxRGBA 0 0 0 9])).
Proof. apply loop_spec. repeat constructor. Defined.

Lemma unflatten_rect h w (rows : list (list px)) :
  rect h w rows -> unflatten w h (concat rows) = rows.
Proof.
  revert h. induction rows as [|r rows IH]; intros h [L Hf]; simpl in *.
  - by subst h.
  - apply Forall_cons in Hf as [Hr Hf]. subst h w. simpl.
    rewrite take_app_length, drop_app_length.
    f_equal. apply IH. by split.
Qed.



Lemma concat_map2d (f : px -> px) (rows : list (list px)) :
  concat (map2d f rows) = f <$> concat rows.
Proof.
  induction rows as [|r rows IH]; [done|].
  change (concat (map2d f (r :: rows))) with ((f <$> r) ++ concat (map2d f rows)).
  change (concat (r :: rows)) with (r ++ concat rows).
  by rewrite IH, fmap_app.
Qed.

(** The transform is the map [pure_px] over the RGBA conversion. *)
Lemma pure_remove_background_map img :
  image_wf img ->
  remove_background img =
    Ok (Image ModeRGBA (im_width img) (im_height img)
          (map2d pure_px (im_rows (convert_rgba img)))).
Proof.
  intros Hwf. destruct (convert_rgba_wf img Hwf) as [[Hr Hf] Hm].
  unfold remove_background, putdata, getdata.
  set (c := convert_rgba img) in *.
  rewrite loop_rgba.
  2: { apply Forall_concat. eapply Forall_impl; [exact Hf|].
       intros r Hrow. eapply Forall_impl; [exact Hrow|]. simpl.
       intros p [Hp _]. exact Hp. }
  cbn [rbind app]. rewrite <- concat_map2d.
  pose proof (length_concat_rect _ _ _ Hr) as L1.
  pose proof (length_concat_rect _ _ _ (rect_map2d _ _ pure_px _ Hr)) as L2.
  rewrite decide_False by lia. rewrite drop_ge by lia.
  rewrite app_nil_r, unflatten_rect by (apply rect_map2d; exact Hr).
  by rewrite Hm.
Qed.

(** C3: on every well-formed decoded image the pure-Python script raises
    nothing and returns an RGBA image of the same size whose pixel at each
    place is [pure_px] of the RGBA conversion of the input pixel there:
    transparent white when R, G and B all exceed 240, unchanged otherwise. *)
Theorem pure_filter_spec img :
  image_wf img ->
  exists out, remove_background img = Ok out /\
    im_mode out = ModeRGBA /\ im_width out = im_width img /\
    im_height out = im_height img /\
    forall i j, at2 (im_rows out) i j = (fun p => pure_px (to_rgba p)) <$> at2 (im_rows img) i j.
Proof.
  intros Hwf. eexists. split; [exact (pure_remove_background_map img Hwf)|].
  do 3 (split; [done|]). intros i j. simpl. rewrite !at2_map2d.
  by destruct (at2 (im_rows img) i j).
Qed.

(** Scenario B of the specification: a 1x1 image (241, 241, 241). *)
Definition scenario_b : image := Image ModeRGB 1 1 [[PxRGB 241 241 241]].

Lemma pure_filter_spec_witness :
  exists out, remove_background scenario_b = Ok out /\
    at2 (im_rows out) 0 0 = Some (PxRGBA 255 255 255 0).
Proof.
  destruct (pure_filter_spec scenario_b) as (out & Hrun & _ & _ & _ & Hat).
  - apply image_wfb_spec. vm_compute. reflexivity.
  - exists out. split; [exact Hrun|]. rewrite Hat. reflexivity.
Defined.

(** ** The script as a filter *)

Import Filter.

Lemma pure_px_wf p :
  px_u8 p = true ->
  px_mode (pure_px (to_rgba p)) = ModeRGBA /\
  px_u8 (pure_px (to_rgba p)) = true.
Proof.
  intros Hu. destruct (to_rgba_u8 p Hu) as (r & g & b & a & -> & _ & H).
  unfold pure_px.
  destruct ((240 <? r) && (240 <? g) && (240 <? b)); rewrite px_u8_rgba; split; lia || done.
Qed.

(** The transform as a map over the decoded pixels. *)
Lemma pure_remove_background_px img :
  image_wf img ->
  remove_background img =
    Ok (Image ModeRGBA (im_width img) (im_height img)
          (map2d (fun p => pure_px (to_rgba p)) (im_rows img))).
Proof.
  intros Hwf. rewrite pure_remove_background_map by done.
  simpl. by rewrite map2d_compose.
Qed.

Lemma pure_px_idem p :
  pure_px (to_rgba (pure_px (to_rgba p))) =
  pure_px (to_rgba p).
Proof.
  destruct p; simpl;
    match goal with |- context [if ?c then _ else _] => destruct c eqn:W end;
    simpl; rewrite ?W; done.
Qed.

(** C9: the pure-Python script is idempotent as well. *)
Theorem pure_idempotent img out :
  image_wf img -> remove_background img = Ok out ->
  remove_background out = Ok out.
Proof.
  apply (map_idempotent _ _ pure_remove_background_px pure_px_wf).
  intros p _. apply pure_px_idem.
Qed.

Lemma pure_idempotent_witness :
  remove_background (Image ModeRGBA 1 1 [[PxRGBA 255 255 255 0]]) =
    Ok (Image ModeRGBA 1 1 [[PxRGBA 255 255 255 0]]).
Proof.
  apply (pure_idempotent scenario_b).
  - apply image_wfb_spec. vm_compute. reflexivity.
  - vm_compute. reflexivity.
Defined.

End PillowPure.
