(* ===== verification/MatteSpec.v ===== *)
(** * MatteSpec: the BackgroundMatteFilter contract and the three scripts

    The specification (spec.md sections 3-4) describes one filter,
    [apply(raster, config)], that the three scripts implement in different
    ways.  It is not code of src/; [apply] and its configuration are
    modelled from the specification.  The typeclass [MatteFilter] states
    what a script promises to its caller (the command-line wrapper): on a
    well-formed decoded image it returns, without raising, the RGBA image
    of the same size whose pixels are a fixed function of the input pixel
    at the same place.  The three scripts are instances; the generic
    theorems of section [Generic] are proved against the class. *)

From S2P Require Import Prelude Raster NdArray Filter PillowNumpy Cv2Filter PillowPure.

Module MatteSpec.
Import Raster Filter.

(** ** The contract of the specification *)

(** [ThresholdConfig]: inclusive per-channel bounds on R, G and B. *)
Record ThresholdConfig : Type := Config {
  lower : Z * Z * Z;
  upper : Z * Z * Z
}.

Inductive MatteError : Type := InvalidRasterError | InvalidConfigError.

#[export] Instance MatteError_eq_dec : EqDecision MatteError.
Proof. solve_decision. Defined.


Definition in_box (lo hi v : Z) : bool := (lo <=? v) && (v <=? hi).

(** Bounds in [0, 255] with [lower <= upper] on every channel. *)
Definition config_valid (cfg : ThresholdConfig) : bool :=
  let '(lr, lg, lb) := lower cfg in
  let '(ur, ug, ub) := upper cfg in
  forallb is_u8 [lr; lg; lb; ur; ug; ub] &&
  (lr <=? ur) && (lg <=? ug) && (lb <=? ub).

Definition is_background (cfg : ThresholdConfig) (p : px) : bool :=
  let '(lr, lg, lb) := lower cfg in
  let '(ur, ug, ub) := upper cfg in
  let '(r, g, b) := px_rgb p in
  in_box lr ur r && in_box lg ug g && in_box lb ub b.

Definition set_alpha (p : px) (a : Z) : px :=
  let '(r, g, b) := px_rgb p in PxRGBA r g b a.

(** The default policy: convert to RGBA, then background pixels get alpha
    0 and keep their colour. *)
Definition spec_px (cfg : ThresholdConfig) (p : px) : px :=
  let q := to_rgba p in if is_background cfg q then set_alpha q 0 else q.

(** [apply(raster, config)]: the configuration is checked before any
    pixel; a raster with fewer than three channels is rejected. *)
Definition apply (cfg : ThresholdConfig) (img : image) : MatteError + image :=
  if negb (config_valid cfg) then inl InvalidConfigError
  else if decide (im_mode img = ModeL) then inl InvalidRasterError
  else inr (Image ModeRGBA (im_width img) (im_height img)
              (map2d (spec_px cfg) (im_rows img))).

(** ** The scripts against the contract *)

(** The numpy script's test [v > 240] is, on 8-bit values, the inclusive
    range [[241, 255]] of the contract. *)
Definition strict_config : ThresholdConfig := Config (241, 241, 241) (255, 255, 255).

Lemma gt240_in_box v : 0 <= v <= 255 -> (240 <? v) = in_box 241 255 v.
Proof.
  intros H. unfold in_box.
  destruct (Z.ltb_spec 240 v), (Z.leb_spec 241 v), (Z.leb_spec v 255); simpl; lia.
Qed.

Lemma matte_px_spec_px p :
  px_u8 p = true -> PillowNumpy.matte_px (to_rgba p) = spec_px strict_config p.
Proof.
  intros Hu. destruct (to_rgba_u8 p Hu) as (r & g & b & a & Hq & _ & Hr & Hg & Hb & _).
  unfold spec_px. rewrite Hq. unfold PillowNumpy.matte_px, is_background. simpl.
  rewrite !gt240_in_box by done.
  by destruct (in_box 241 255 r && in_box 241 255 g && in_box 241 255 b).
Qed.

(** C4: the numpy script refines the contract: on every well-formed
    decoded image of mode RGB or RGBA, [apply] with the bounds
    [[241, 255]] (the script's [> 240]) succeeds and the script returns
    exactly its result. *)
Theorem numpy_refines_apply img :
  image_wf img -> im_mode img <> ModeL ->
  exists out, apply strict_config img = inr out /\
              PillowNumpy.remove_background img = Ok out.
Proof.
  intros Hwf HL. eexists. split.
  - unfold apply. rewrite decide_False by done. reflexivity.
  - rewrite PillowNumpy.numpy_remove_background_px by done.
    simpl. do 2 f_equal. apply map2d_ext. intros i j p Hp.
    apply matte_px_spec_px. exact (proj2 (image_wf_at2 _ _ _ _ Hwf Hp)).
Qed.

(** An RGB image of the specification's Scenario C, (239, 255, 255). *)
Definition scenario_c : image := Image ModeRGB 1 1 [[PxRGB 239 255 255]].

Lemma numpy_refines_apply_witness :
  exists out, apply strict_config scenario_c = inr out /\
              PillowNumpy.remove_background scenario_c = Ok out.
Proof.
  apply numpy_refines_apply.
  - apply image_wfb_spec. vm_compute. reflexivity.
  - discriminate.
Defined.
(** ** Comparing the scripts *)

(** The mask of each script, read at one pixel: [white_areas] of
    src/process_bg_pillow.py line 19 (also the test of
    src/process_bg_pillow_pure.py line 16), and [mask > 0] of
    src/process_bg.py line 23. *)
Definition pillow_mask_px (p : px) : bool :=
  let '(r, g, b) := px_rgb (to_rgba p) in (240 <? r) && (240 <? g) && (240 <? b).

Definition cv2_mask_px (p : px) : bool :=
  Cv2.in_bounds Cv2.lower_white Cv2.upper_white (Cv2.imread_px p ++ [255]).

Lemma imread_px_rgb p : Cv2.imread_px p = let '(r, g, b) := px_rgb p in [b; g; r].
Proof. by destruct p. Qed.

Lemma cv2_mask_px_rgb p :
  px_u8 p = true ->
  cv2_mask_px p = let '(r, g, b) := px_rgb p in (240 <=? r) && (240 <=? g) && (240 <=? b).
Proof.
  intros Hu. destruct (to_rgba_u8 p Hu) as (r & g & b & a & _ & Hp & Hr & Hg & Hb & _).
  unfold cv2_mask_px. rewrite imread_px_rgb, Hp. simpl.
  rewrite (proj2 (Z.leb_le r 255) (proj2 Hr)), (proj2 (Z.leb_le g 255) (proj2 Hg)),
    (proj2 (Z.leb_le b 255) (proj2 Hb)).
  destruct (240 <=? r), (240 <=? g), (240 <=? b); reflexivity.
Qed.

(** C6: the OpenCV script and the Pillow scripts select the same
    background pixels, except the pixels whose R, G, B are all at least
    240 with one of them exactly 240, which only OpenCV selects. *)
Theorem masks_differ_only_at_240 p :
  px_u8 p = true ->
  cv2_mask_px p <> pillow_mask_px p <->
    (let '(r, g, b) := px_rgb p in
     240 <= r /\ 240 <= g /\ 240 <= b /\ (r = 240 \/ g = 240 \/ b = 240)).
Proof.
  intros Hu. rewrite (cv2_mask_px_rgb p Hu). unfold pillow_mask_px.
  rewrite px_rgb_to_rgba. destruct (px_rgb p) as [[r g] b].
  destruct (Z.leb_spec 240 r), (Z.leb_spec 240 g), (Z.leb_spec 240 b),
    (Z.ltb_spec 240 r), (Z.ltb_spec 240 g), (Z.ltb_spec 240 b);
    simpl; split; intros; try lia; congruence.
Qed.

Lemma masks_differ_only_at_240_witness :
  px_u8 (PxRGB 240 255 255) = true /\
  (cv2_mask_px (PxRGB 240 255 255) <> pillow_mask_px (PxRGB 240 255 255) <->
    240 <= 240 /\ 240 <= 255 /\ 240 <= 255 /\ (240 = 240 \/ 255 = 240 \/ 255 = 240)).
Proof.
  split; [reflexivity|]. apply (masks_differ_only_at_240 (PxRGB 240 255 255)).
  reflexivity.
Defined.
(** Pixel facts of the Pillow scripts. *)
Lemma matte_px_alpha_only p :
  px_rgb (PillowNumpy.matte_px (to_rgba p)) = px_rgb p /\
  (px_alpha (PillowNumpy.matte_px (to_rgba p)) = px_alpha p \/
   px_alpha (PillowNumpy.matte_px (to_rgba p)) = 0 /\ pillow_mask_px p = true).
Proof. unfold pillow_mask_px. destruct p; simpl; case_if; simpl; auto. Qed.

Lemma pillow_px_agree p :
  px_alpha (PillowNumpy.matte_px (to_rgba p)) = px_alpha (PillowPure.pure_px (to_rgba p)) /\
  (pillow_mask_px p = false ->
   PillowNumpy.matte_px (to_rgba p) = PillowPure.pure_px (to_rgba p)).
Proof.
  unfold pillow_mask_px. destruct p; simpl; case_if; simpl; split; auto; by intros ?.
Qed.

(** C5: the numpy script changes alpha only: every output pixel has the
    colour of the input pixel at its place, and its alpha is the input's
    (255 for an input without alpha) or 0 for a masked pixel. *)
Theorem numpy_alpha_only img out :
  image_wf img -> PillowNumpy.remove_background img = Ok out ->
  forall i j p q, at2 (im_rows img) i j = Some p -> at2 (im_rows out) i j = Some q ->
    px_rgb q = px_rgb p /\
    (px_alpha q = px_alpha p \/ px_alpha q = 0 /\ pillow_mask_px p = true).
Proof.
  intros Hwf Hrun i j p q Hp Hq.
  rewrite PillowNumpy.numpy_remove_background_px in Hrun by done.
  injection Hrun as <-. simpl in Hq. rewrite at2_map2d, Hp in Hq.
  injection Hq as <-. apply matte_px_alpha_only.
Qed.

Lemma numpy_alpha_only_witness :
  exists out, PillowNumpy.remove_background PillowNumpy.scenario_a = Ok out /\
    px_rgb (PxRGBA 255 255 255 0) = px_rgb (PxRGB 255 255 255) /\
    (px_alpha (PxRGBA 255 255 255 0) = px_alpha (PxRGB 255 255 255) \/
     px_alpha (PxRGBA 255 255 255 0) = 0 /\ pillow_mask_px (PxRGB 255 255 255) = true).
Proof.
  exists (Image ModeRGBA 2 1 [[PxRGBA 255 255 255 0; PxRGBA 0 0 0 255]]).
  assert (Hrun : PillowNumpy.remove_background PillowNumpy.scenario_a =
    Ok (Image ModeRGBA 2 1 [[PxRGBA 255 255 255 0; PxRGBA 0 0 0 255]]))
    by (vm_compute; reflexivity).
  split; [exact Hrun|].
  apply (numpy_alpha_only PillowNumpy.scenario_a _ ltac:(apply image_wfb_spec; vm_compute; reflexivity)
           Hrun 0%nat 0%nat); reflexivity.
Defined.

(** The two Pillow scripts return images of one size with the same alpha
    at every pixel. *)
Lemma pillow_alpha_agree img o1 o2 :
  image_wf img ->
  PillowNumpy.remove_background img = Ok o1 ->
  PillowPure.remove_background img = Ok o2 ->
  im_width o1 = im_width o2 /\ im_height o1 = im_height o2 /\
  map2d px_alpha (im_rows o1) = map2d px_alpha (im_rows o2).
Proof.
  intros Hwf H1 H2.
  rewrite PillowNumpy.numpy_remove_background_px in H1 by done.
  rewrite PillowPure.pure_remove_background_px in H2 by done.
  injection H1 as <-. injection H2 as <-. simpl. split; [done|split; [done|]].
  rewrite !map2d_compose. apply map2d_ext. intros. apply pillow_px_agree.
Qed.

(** C7: the two Pillow scripts give every pixel the same alpha, and the
    same value wherever the pixel is not masked; they differ only in the
    colour of masked pixels (kept by the numpy script, set to white by the
    loop). *)
Theorem pillow_scripts_agree img o1 o2 :
  image_wf img ->
  PillowNumpy.remove_background img = Ok o1 ->
  PillowPure.remove_background img = Ok o2 ->
  map2d px_alpha (im_rows o1) = map2d px_alpha (im_rows o2) /\
  forall i j p, at2 (im_rows img) i j = Some p -> pillow_mask_px p = false ->
    at2 (im_rows o1) i j = at2 (im_rows o2) i j.
Proof.
  intros Hwf H1 H2. split; [exact (proj2 (proj2 (pillow_alpha_agree img o1 o2 Hwf H1 H2)))|].
  rewrite PillowNumpy.numpy_remove_background_px in H1 by done.
  rewrite PillowPure.pure_remove_background_px in H2 by done.
  injection H1 as <-. injection H2 as <-. simpl.
  intros i j p Hp Hm. rewrite !at2_map2d, Hp. simpl.
  f_equal. by apply pillow_px_agree.
Qed.

Lemma pillow_scripts_agree_witness :
  exists o1 o2,
    PillowNumpy.remove_background PillowNumpy.scenario_a = Ok o1 /\
    PillowPure.remove_background PillowNumpy.scenario_a = Ok o2 /\
    map2d px_alpha (im_rows o1) = map2d px_alpha (im_rows o2).
Proof.
  exists (Image ModeRGBA 2 1 [[PxRGBA 255 255 255 0; PxRGBA 0 0 0 255]]),
         (Image ModeRGBA 2 1 [[PxRGBA 255 255 255 0; PxRGBA 0 0 0 255]]).
  assert (H1 : PillowNumpy.remove_background PillowNumpy.scenario_a =
    Ok (Image ModeRGBA 2 1 [[PxRGBA 255 255 255 0; PxRGBA 0 0 0 255]]))
    by (vm_compute; reflexivity).
  assert (H2 : PillowPure.remove_background PillowNumpy.scenario_a =
    Ok (Image ModeRGBA 2 1 [[PxRGBA 255 255 255 0; PxRGBA 0 0 0 255]]))
    by (vm_compute; reflexivity).
  split; [exact H1|]. split; [exact H2|].
  exact (proj1 (pillow_scripts_agree PillowNumpy.scenario_a _ _
    ltac:(apply image_wfb_spec; vm_compute; reflexivity) H1 H2)).
Defined.
(** ** The three scripts as instances of the interface *)

#[export] Program Instance numpy_filter : MatteFilter PillowNumpy.remove_background := {|
  mf_px p := PillowNumpy.matte_px (to_rgba p)
|}.
Next Obligation. exact PillowNumpy.numpy_remove_background_px. Qed.
Next Obligation. exact PillowNumpy.matte_px_wf. Qed.

#[export] Program Instance cv2_filter : MatteFilter Cv2.remove_background := {|
  mf_px := Cv2.cv2_px
|}.
Next Obligation. intros img _. apply Cv2.cv2_remove_background_map. Qed.
Next Obligation. exact Cv2.cv2_px_wf. Qed.

#[export] Program Instance pure_filter : MatteFilter PillowPure.remove_background := {|
  mf_px p := PillowPure.pure_px (to_rgba p)
|}.
Next Obligation. exact PillowPure.pure_remove_background_px. Qed.
Next Obligation. exact PillowPure.pure_px_wf. Qed.


End MatteSpec.
