(* ===== verification/Base64.v ===== *)
(** * Base64: the report every script prints

    After saving, each script reads the output file back and prints
    [base64.b64encode(data).decode('utf-8')] between the lines
    [BASE64_START] and [BASE64_END] (src/process_bg.py lines 33-39,
    src/process_bg_pillow.py lines 28-32, src/process_bg_pillow_pure.py
    lines 24-28).  [b64encode] is the standard encoding of RFC 4648 with
    the standard alphabet, padding and no line breaks, computed as
    CPython's [binascii] does it, three bytes (24 bits) at a time with
    shifts and masks.  The decoder [b64decode] and the block reader
    [read_report] are what a consumer of the output runs; they are
    modelled from the specification (spec.md section 6: a standard,
    reversible encoding). *)

From S2P Require Import Prelude.
From Stdlib Require Import Bool.
From Stdlib Require String Ascii.
Import (notations) String.

Module Base64.

(** ** Encoding *)

(** The character of a 6-bit index: [A-Z], [a-z], [0-9], [+], [/]. *)
Definition b64_char (i : Z) : Z :=
  if i <? 26 then 65 + i
  else if i <? 52 then 71 + i
  else if i <? 62 then i - 4
  else if i =? 62 then 43
  else 47.

(** The padding character ['=']. *)
Definition pad : Z := 61.

(** The 6-bit group of [n] starting at bit [k]. *)
Definition sextet (n k : Z) : Z := Z.land (Z.shiftr n k) 63.

(** [base64.b64encode(data)] on the bytes [bs]. *)
Fixpoint b64encode (bs : list Z) : list Z :=
  match bs with
  | b0 :: b1 :: b2 :: rest =>
      let n := Z.lor (Z.shiftl b0 16) (Z.lor (Z.shiftl b1 8) b2) in
      [b64_char (sextet n 18); b64_char (sextet n 12);
       b64_char (sextet n 6); b64_char (sextet n 0)] ++ b64encode rest
  | [b0; b1] =>
      let n := Z.lor (Z.shiftl b0 16) (Z.shiftl b1 8) in
      [b64_char (sextet n 18); b64_char (sextet n 12); b64_char (sextet n 6); pad]
  | [b0] =>
      let n := Z.shiftl b0 16 in
      [b64_char (sextet n 18); b64_char (sextet n 12); pad; pad]
  | [] => []
  end.

(** ** Decoding *)

(** The index of an alphabet character. *)
Definition b64_index (c : Z) : option Z :=
  if (65 <=? c) && (c <=? 90) then Some (c - 65)
  else if (97 <=? c) && (c <=? 122) then Some (c - 71)
  else if (48 <=? c) && (c <=? 57) then Some (c + 4)
  else if c =? 43 then Some 62
  else if c =? 47 then Some 63
  else None.

(** The 24-bit group of four indices. *)
Definition group (i0 i1 i2 i3 : Z) : Z :=
  Z.lor (Z.shiftl i0 18) (Z.lor (Z.shiftl i1 12) (Z.lor (Z.shiftl i2 6) i3)).

(** The byte of [n] starting at bit [k]. *)
Definition byte_at (n k : Z) : Z := Z.land (Z.shiftr n k) 255.

(** Decoding of a padded base64 text; [None] on a character outside the
    alphabet, on a length that is not a multiple of four, or on padding
    before the last group. *)
Fixpoint b64decode (cs : list Z) : option (list Z) :=
  match cs with
  | [] => Some []
  | c0 :: c1 :: c2 :: c3 :: rest =>
      i0 ← b64_index c0; i1 ← b64_index c1;
      if c2 =? pad then
        (if (c3 =? pad) && bool_decide (rest = []) then
           Some [byte_at (group i0 i1 0 0) 16] else None)
      else
        i2 ← b64_index c2;
        if c3 =? pad then
          (if bool_decide (rest = []) then
             let n := group i0 i1 i2 0 in Some [byte_at n 16; byte_at n 8]
           else None)
        else
          i3 ← b64_index c3;
          let n := group i0 i1 i2 i3 in
          r ← b64decode rest;
          Some (byte_at n 16 :: byte_at n 8 :: byte_at n 0 :: r)
  | _ => None
  end.

(** ** Arithmetic of the groups *)

Definition is_byte (b : Z) : Prop := 0 <= b < 256.

Lemma sextet_spec n k : 0 <= k -> sextet n k = (n / 2 ^ k) mod 64.
Proof.
  intros Hk. unfold sextet. change 63 with (Z.ones 6).
  rewrite Z.land_ones, Z.shiftr_div_pow2 by lia. reflexivity.
Qed.

Lemma sextet_range n k : 0 <= k -> 0 <= sextet n k < 64.
Proof. intros Hk. rewrite sextet_spec by done. apply Z.mod_pos_bound. lia. Qed.

Lemma byte_at_spec n k : 0 <= k -> byte_at n k = (n / 2 ^ k) mod 256.
Proof.
  intros Hk. unfold byte_at. change 255 with (Z.ones 8).
  rewrite Z.land_ones, Z.shiftr_div_pow2 by lia. reflexivity.
Qed.

Lemma group_spec i0 i1 i2 i3 :
  0 <= i1 < 64 -> 0 <= i2 < 64 -> 0 <= i3 < 64 ->
  group i0 i1 i2 i3 = i0 * 2 ^ 18 + i1 * 2 ^ 12 + i2 * 2 ^ 6 + i3.
Proof.
  intros H1 H2 H3. unfold group.
  rewrite (lor_shiftl_small i2 i3 6) by (simpl; lia).
  rewrite (lor_shiftl_small i1 _ 12) by (simpl; lia).
  rewrite (lor_shiftl_small i0 _ 18) by (simpl; lia). lia.
Qed.

Lemma b64_index_char i : 0 <= i < 64 -> b64_index (b64_char i) = Some i.
Proof.
  intros Hi. unfold b64_char, b64_index.
  destruct (Z.ltb_spec i 26); [|destruct (Z.ltb_spec i 52);
    [|destruct (Z.ltb_spec i 62); [|destruct (Z.eqb_spec i 62)]]];
  repeat match goal with
  | |- context [?x <=? ?y] => destruct (Z.leb_spec x y)
  | |- context [?x =? ?y] => destruct (Z.eqb_spec x y)
  end; simpl; f_equal; lia.
Qed.

Lemma b64_char_not_pad i : 0 <= i < 64 -> (b64_char i =? pad) = false.
Proof.
  intros Hi. apply Z.eqb_neq. unfold b64_char, pad.
  destruct (Z.ltb_spec i 26); [|destruct (Z.ltb_spec i 52);
    [|destruct (Z.ltb_spec i 62); [|destruct (Z.eqb_spec i 62)]]]; lia.
Qed.

(** Splitting a 24-bit value into four sextets and joining them back. *)
Lemma split24 n :
  0 <= n < 2 ^ 24 ->
  (n / 2 ^ 18) mod 64 * 2 ^ 18 + (n / 2 ^ 12) mod 64 * 2 ^ 12 +
  (n / 2 ^ 6) mod 64 * 2 ^ 6 + n mod 64 = n.
Proof. intros H. simpl in *. Z.div_mod_to_equations. nia. Qed.

Lemma bytes_of_24 b0 b1 b2 :
  is_byte b0 -> is_byte b1 -> is_byte b2 ->
  ((b0 * 2 ^ 16 + b1 * 2 ^ 8 + b2) / 2 ^ 16) mod 256 = b0 /\
  ((b0 * 2 ^ 16 + b1 * 2 ^ 8 + b2) / 2 ^ 8) mod 256 = b1 /\
  (b0 * 2 ^ 16 + b1 * 2 ^ 8 + b2) mod 256 = b2.
Proof. unfold is_byte. intros. simpl. repeat split; Z.div_mod_to_equations; nia. Qed.

Ltac sextets :=
  rewrite ?b64_index_char, ?b64_char_not_pad by (apply sextet_range; lia).

Lemma group_sextets n :
  0 <= n < 2 ^ 24 ->
  group (sextet n 18) (sextet n 12) (sextet n 6) (sextet n 0) = n.
Proof.
  intros Hn. rewrite group_spec by (apply sextet_range; lia).
  rewrite !sextet_spec by lia. change (2 ^ 0) with 1. rewrite Z.div_1_r.
  assert (E : (n / 2 ^ 18) mod 64 = n / 2 ^ 18).
  { apply Z.mod_small. split; [apply Z.div_pos; lia|].
    apply Z.div_lt_upper_bound; simpl in *; lia. }
  pose proof (split24 n Hn) as S. lia.
Qed.

Lemma join3 b0 b1 b2 :
  is_byte b1 -> is_byte b2 ->
  Z.lor (Z.shiftl b0 16) (Z.lor (Z.shiftl b1 8) b2) = b0 * 2 ^ 16 + b1 * 2 ^ 8 + b2.
Proof.
  unfold is_byte. intros H1 H2.
  rewrite (lor_shiftl_small b1 b2 8) by (simpl; lia).
  rewrite (lor_shiftl_small b0 _ 16) by (simpl; lia). lia.
Qed.

(** Decoding the four characters of a full group gives its three bytes
    back. *)
Lemma decode_block b0 b1 b2 rest :
  is_byte b0 -> is_byte b1 -> is_byte b2 ->
  b64decode (b64encode (b0 :: b1 :: b2 :: rest)) =
    (fun r => b0 :: b1 :: b2 :: r) <$> b64decode (b64encode rest).
Proof.
  intros H0 H1 H2. cbn [b64encode app b64decode].
  rewrite (join3 b0 b1 b2 H1 H2). set (n := b0 * 2 ^ 16 + b1 * 2 ^ 8 + b2).
  assert (Hn : 0 <= n < 2 ^ 24) by (unfold is_byte in *; subst n; simpl; lia).
  sextets. simpl. rewrite group_sextets by done.
  destruct (bytes_of_24 b0 b1 b2 H0 H1 H2) as (E0 & E1 & E2). fold n in E0, E1, E2.
  rewrite !byte_at_spec by lia. change (2 ^ 0) with 1. rewrite Z.div_1_r.
  rewrite E0, E1, E2. by destruct (b64decode (b64encode rest)).
Qed.

Lemma decode_tail2 b0 b1 :
  is_byte b0 -> is_byte b1 -> b64decode (b64encode [b0; b1]) = Some [b0; b1].
Proof.
  intros H0 H1. cbn [b64encode b64decode].
  rewrite (lor_shiftl_small b0 (Z.shiftl b1 8) 16);
    [|lia|rewrite Z.shiftl_mul_pow2 by lia; unfold is_byte in *; simpl; lia].
  rewrite Z.shiftl_mul_pow2 by lia. set (n := b0 * 2 ^ 16 + b1 * 2 ^ 8).
  assert (Hn : 0 <= n < 2 ^ 24) by (unfold is_byte in *; subst n; simpl; lia).
  assert (H0n : sextet n 0 = 0).
  { rewrite sextet_spec by lia. subst n. simpl. Z.div_mod_to_equations. lia. }
  sextets. simpl. rewrite <- H0n, group_sextets by done.
  destruct (bytes_of_24 b0 b1 0 H0 H1 ltac:(unfold is_byte; lia)) as (E0 & E1 & _).
  rewrite Z.add_0_r in E0, E1. fold n in E0, E1.
  rewrite !byte_at_spec by lia. by rewrite E0, E1.
Qed.

Lemma decode_tail1 b0 :
  is_byte b0 -> b64decode (b64encode [b0]) = Some [b0].
Proof.
  intros H0. cbn [b64encode b64decode].
  rewrite Z.shiftl_mul_pow2 by lia. set (n := b0 * 2 ^ 16).
  assert (Hn : 0 <= n < 2 ^ 24) by (unfold is_byte in *; subst n; simpl; lia).
  assert (H0n : sextet n 0 = 0 /\ sextet n 6 = 0).
  { rewrite !sextet_spec by lia. subst n. simpl. split; Z.div_mod_to_equations; lia. }
  destruct H0n as [Z0 Z6].
  pose proof (group_sextets n Hn) as G. rewrite Z6, Z0 in G.
  sextets. simpl. rewrite G.
  rewrite byte_at_spec by lia. subst n. f_equal. f_equal.
  unfold is_byte in H0. simpl. Z.div_mod_to_equations. lia.
Qed.

(** Decoding what [b64encode] produces gives the bytes back. *)
Lemma b64decode_encode bs :
  Forall is_byte bs -> b64decode (b64encode bs) = Some bs.
Proof.
  induction bs as [|b0|b0 b1|b0 b1 b2 rest IH] using list_ind3;
    intros Hb; repeat (apply Forall_cons in Hb as [? Hb]).
  - reflexivity.
  - by apply decode_tail1.
  - by apply decode_tail2.
  - rewrite decode_block by done. by rewrite IH.
Qed.

(** C15: the text has four characters for every three bytes, the last
    group padded. *)
Theorem b64encode_length bs :
  length (b64encode bs) = (4 * ((length bs + 2) / 3))%nat.
Proof.
  induction bs as [|b0|b0 b1|b0 b1 b2 rest IH] using list_ind3; [done..|].
  assert (E : forall n, ((S (S (S n)) + 2) / 3 = (n + 2) / 3 + 1)%nat).
  { intros n. replace (S (S (S n)) + 2)%nat with (n + 2 + 1 * 3)%nat by lia.
    apply Nat.div_add. lia. }
  cbn [b64encode length app]. rewrite IH, E. lia.
Qed.

(** Every character of the text is in the alphabet or is the padding. *)
Lemma b64encode_alphabet bs :
  Forall (fun c => b64_index c <> None \/ c = pad) (b64encode bs).
Proof.
  assert (Hc : forall n k, 0 <= k -> b64_index (b64_char (sextet n k)) <> None).
  { intros n k Hk. rewrite b64_index_char by (apply sextet_range; lia). done. }
  induction bs as [|b0|b0 b1|b0 b1 b2 rest IH] using list_ind3;
    cbn [b64encode app];
    repeat match goal with |- Forall _ (_ :: _) => constructor | |- Forall _ [] => constructor end;
    first [left; apply Hc; lia | right; reflexivity | exact IH].
Qed.

(** C26: the text is well-formed base64: characters of the alphabet,
    then one ['='] for each byte the last group of three lacks. *)
Theorem b64encode_shape bs :
  exists body, b64encode bs = body ++ replicate ((3 - length bs mod 3) mod 3) pad /\
    Forall (fun c => b64_index c <> None) body.
Proof.
  assert (Hc : forall n k, 0 <= k -> b64_index (b64_char (sextet n k)) <> None).
  { intros n k Hk. rewrite b64_index_char by (apply sextet_range; lia). done. }
  induction bs as [|b0|b0 b1|b0 b1 b2 rest (body & E & F)] using list_ind3.
  - by exists [].
  - exists (take 2 (b64encode [b0])). split; [reflexivity|].
    cbn. repeat constructor; apply Hc; lia.
  - exists (take 3 (b64encode [b0; b1])). split; [reflexivity|].
    cbn. repeat constructor; apply Hc; lia.
  - eexists. split.
    + cbn [b64encode]. rewrite E, app_assoc.
      replace (length (b0 :: b1 :: b2 :: rest) `mod` 3)%nat with (length rest `mod` 3)%nat;
        [done|].
      replace (length (b0 :: b1 :: b2 :: rest)) with (length rest + 1 * 3)%nat
        by (simpl; lia).
      by rewrite Nat.Div0.mod_add.
    + apply Forall_app. split; [|exact F]. repeat constructor; apply Hc; lia.
Qed.

(** ** The printed block *)

(** [.decode('utf-8')] of an ASCII byte string: one character per byte. *)
Definition string_of_codes (cs : list Z) : String.string :=
  String.string_of_list_ascii ((fun c => Ascii.ascii_of_N (Z.to_N c)) <$> cs).

Definition codes_of_string (s : String.string) : list Z :=
  (fun a => Z.of_N (Ascii.N_of_ascii a)) <$> String.list_ascii_of_string s.

Definition start_line : String.string := "BASE64_START"%string.
Definition end_line : String.string := "BASE64_END"%string.

(** The three [print] calls of the report (src/process_bg.py lines
    37-39): one output line each. *)
Definition report (data : list Z) : list String.string :=
  [start_line; string_of_codes (b64encode data); end_line].

(** What a reader of the output does: find the first [BASE64_START]
    line, decode the next line, and check that [BASE64_END] follows. *)
Fixpoint read_report (out : list String.string) : option (list Z) :=
  match out with
  | l :: rest =>
      if String.eqb l start_line then
        match rest with
        | p :: e :: _ => if String.eqb e end_line then b64decode (codes_of_string p) else None
        | _ => None
        end
      else read_report rest
  | [] => None
  end.

Lemma codes_of_string_of_codes cs :
  Forall (fun c => 0 <= c < 256) cs -> codes_of_string (string_of_codes cs) = cs.
Proof.
  intros Hc. unfold codes_of_string, string_of_codes.
  rewrite String.list_ascii_of_string_of_list_ascii.
  induction Hc as [|c cs Hc _ IH]; [done|]. cbn [fmap list_fmap]. rewrite IH. f_equal.
  rewrite Ascii.N_ascii_embedding by lia. lia.
Qed.

Lemma b64encode_ascii bs : Forall (fun c => 0 <= c < 256) (b64encode bs).
Proof.
  eapply Forall_impl; [apply b64encode_alphabet|]. intros c [Hc | ->]; [|unfold pad; lia].
  unfold b64_index in Hc.
  repeat match goal with
  | H : context [?x <=? ?y] |- _ => destruct (Z.leb_spec x y)
  | H : context [?x =? ?y] |- _ => destruct (Z.eqb_spec x y)
  end; simpl in Hc; lia || congruence.
Qed.

Lemma read_report_after pre data :
  Forall (fun l => l <> start_line) pre -> Forall is_byte data ->
  read_report (pre ++ report data) = Some data.
Proof.
  intros Hpre Hd. induction Hpre as [|l pre Hl _ IH].
  - cbn [app read_report report]. rewrite !String.eqb_refl.
    rewrite codes_of_string_of_codes by apply b64encode_ascii.
    by apply b64decode_encode.
  - simpl. apply String.eqb_neq in Hl. by rewrite Hl.
Qed.

(** C14: a reader of the script's output gets back exactly the bytes of the
    saved file, whatever lines were printed before the block (as long as
    none of them is [BASE64_START]). *)
Theorem report_roundtrip pre data :
  Forall (fun l => l <> start_line) pre -> Forall is_byte data ->
  read_report (pre ++ report data) = Some data.
Proof. exact (read_report_after pre data). Qed.

Lemma report_roundtrip_witness :
  read_report (["Saved transparent image to out.png"%string] ++ report [137; 80; 78; 71]) =
    Some [137; 80; 78; 71].
Proof.
  apply report_roundtrip.
  - repeat constructor. discriminate.
  - repeat constructor; unfold is_byte; lia.
Defined.

End Base64.
