(* ===== verification/Codec.v ===== *)
(** * Codec: what the scripts rely on from the image codecs

    The scripts read and write image files through OpenCV ([cv2.imread],
    [cv2.imwrite]) and Pillow ([Image.open], [Image.save]); the codecs
    themselves (libpng, zlib, libjpeg) are library code, not modelled.
    The typeclass [ImageCodec] is the interface: [decode] turns a file's
    bytes into a well-formed image or fails; [ext_format] is the format
    the extension of a file name selects; [pil_encode] and [cv_encode]
    are Pillow's and OpenCV's encoders.  Its laws: PNG is lossless (what
    is encoded decodes back to the same image, as bytes), and Pillow
    cannot write an RGBA image as JPEG.

    [raw_codec] is an instance of the interface with a simple lossless
    format (a mode tag, width and height in unary, then the channels),
    computable, so that the theorems of Cli.v can be applied to concrete
    files. *)

From S2P Require Import Prelude Raster Base64.
From stdpp Require Import strings.

Module Codec.
Import Raster.
Local Open Scope Z_scope.

Inductive Format : Type := PNG | JPEG | OtherFormat (ext : string).

(** [decode]: a file's bytes to an image ([None]: not an image);
    [ext_format]: the format a (lowercased) extension selects ([None]: no
    writer for it); [pil_encode], [cv_encode]: the bytes Pillow's and
    OpenCV's encoders produce ([None]: the format cannot hold the
    image). *)
Class ImageCodec : Type := {
  decode : list Z -> option image;
  ext_format : string -> option Format;
  pil_encode : Format -> image -> option (list Z);
  cv_encode : Format -> image -> option (list Z);
  decode_wf : forall bs img, decode bs = Some img -> image_wf img;
  ext_png : ext_format "png" = Some PNG;
  ext_jpg : ext_format "jpg" = Some JPEG;
  pil_encode_png : forall img, image_wf img ->
    exists bs, pil_encode PNG img = Some bs /\ Forall Base64.is_byte bs /\ decode bs = Some img;
  cv_encode_png : forall img, image_wf img ->
    exists bs, cv_encode PNG img = Some bs /\ Forall Base64.is_byte bs /\ decode bs = Some img;
  pil_encode_jpeg_rgba : forall img, im_mode img = ModeRGBA -> pil_encode JPEG img = None
}.

(** ** A lossless example format *)

Definition mode_tag (m : Mode) : Z :=
  match m with ModeL => 0 | ModeRGB => 1 | ModeRGBA => 2 end.

Definition mode_of_tag (t : Z) : option Mode :=
  if t =? 0 then Some ModeL
  else if t =? 1 then Some ModeRGB
  else if t =? 2 then Some ModeRGBA
  else None.

Definition raw_encode (img : image) : list Z :=
  mode_tag (im_mode img) :: replicate (im_width img) 1 ++ 0 ::
  replicate (im_height img) 1 ++ 0 :: concat (concat (map2d px_channels (im_rows img))).

(** The number of leading [1]s and what follows them. *)
Fixpoint count_ones (bs : list Z) : nat * list Z :=
  match bs with
  | c :: r => if c =? 1 then let '(n, r') := count_ones r in (S n, r') else (O, bs)
  | [] => (O, [])
  end.

Definition dec_px (m : Mode) (bs : list Z) : option (px * list Z) :=
  match m, bs with
  | ModeL, l :: rest => Some (PxL l, rest)
  | ModeRGB, r :: g :: b :: rest => Some (PxRGB r g b, rest)
  | ModeRGBA, r :: g :: b :: a :: rest => Some (PxRGBA r g b a, rest)
  | _, _ => None
  end.

Fixpoint dec_pxs (m : Mode) (w : nat) (bs : list Z) : option (list px * list Z) :=
  match w with
  | O => Some ([], bs)
  | S w' =>
      match dec_px m bs with
      | Some (p, r) =>
          match dec_pxs m w' r with Some (ps, r') => Some (p :: ps, r') | None => None end
      | None => None
      end
  end.

Fixpoint dec_rows (m : Mode) (w h : nat) (bs : list Z) : option (list (list px) * list Z) :=
  match h with
  | O => Some ([], bs)
  | S h' =>
      match dec_pxs m w bs with
      | Some (row, r) =>
          match dec_rows m w h' r with Some (rows, r') => Some (row :: rows, r') | None => None end
      | None => None
      end
  end.

Definition raw_decode (bs : list Z) : option image :=
  match bs with
  | t :: rest =>
      match mode_of_tag t, count_ones rest with
      | Some m, (w, 0 :: r1) =>
          match count_ones r1 with
          | (h, 0 :: r2) =>
              match dec_rows m w h r2 with
              | Some (rows, []) =>
                  let img := Image m w h rows in
                  if image_wfb img then Some img else None
              | _ => None
              end
          | _ => None
          end
      | _, _ => None
      end
  | [] => None
  end.

Definition raw_ext_format (e : string) : option Format :=
  if String.eqb e "png" then Some PNG
  else if String.eqb e "jpg" || String.eqb e "jpeg" then Some JPEG
  else None.

(** Pillow's JPEG writer rejects RGBA; the example's "JPEG" is the same
    lossless layout. *)
Definition raw_pil_encode (f : Format) (img : image) : option (list Z) :=
  match f with
  | PNG => Some (raw_encode img)
  | JPEG => if decide (im_mode img = ModeRGBA) then None else Some (raw_encode img)
  | OtherFormat _ => None
  end.

Definition raw_cv_encode (f : Format) (img : image) : option (list Z) :=
  match f with
  | PNG | JPEG => Some (raw_encode img)
  | OtherFormat _ => None
  end.

(** ** The example format is lossless *)

Lemma count_ones_replicate n r :
  count_ones (replicate n 1 ++ 0 :: r) = (n, 0 :: r).
Proof. induction n as [|n IH]; [done|]. simpl. by rewrite IH. Qed.

Lemma dec_px_channels m p rest :
  px_mode p = m -> dec_px m (px_channels p ++ rest) = Some (p, rest).
Proof. intros <-. by destruct p. Qed.

Lemma dec_pxs_concat m r rest :
  Forall (fun p => px_mode p = m) r ->
  dec_pxs m (length r) (concat (px_channels <$> r) ++ rest) = Some (r, rest).
Proof.
  induction 1 as [|p r Hp _ IH]; [done|].
  change (concat (px_channels <$> p :: r)) with (px_channels p ++ concat (px_channels <$> r)).
  rewrite <- app_assoc. cbn [length dec_pxs].
  rewrite dec_px_channels by done. by rewrite IH.
Qed.

Lemma dec_rows_concat m w rows rest :
  Forall (fun r => length r = w /\ Forall (fun p => px_mode p = m) r) rows ->
  dec_rows m w (length rows) (concat (concat (map2d px_channels rows)) ++ rest) = Some (rows, rest).
Proof.
  induction 1 as [|r rows [<- Hr] _ IH]; [done|].
  assert (E : concat (concat (map2d px_channels (r :: rows))) =
    concat (px_channels <$> r) ++ concat (concat (map2d px_channels rows)))
    by apply concat_app.
  rewrite E, <- app_assoc. cbn [length dec_rows].
  rewrite dec_pxs_concat by done. by rewrite IH.
Qed.

Lemma raw_decode_encode img : image_wf img -> raw_decode (raw_encode img) = Some img.
Proof.
  intros Hwf. pose proof (image_wfb_complete img Hwf) as Hb.
  destruct img as [m w h rows]. destruct Hwf as [[L Hl] Hf]. simpl in *.
  unfold raw_encode. simpl. rewrite count_ones_replicate.
  replace (mode_of_tag (mode_tag m)) with (Some m) by (by destruct m).
  rewrite count_ones_replicate, <- (app_nil_r (concat _)), <- L, dec_rows_concat.
  - by rewrite L, Hb.
  - rewrite Forall_forall in Hl, Hf |- *. intros r Hr. split; [by apply Hl|].
    eapply Forall_impl; [by apply Hf|]. by intros p [].
Qed.

Lemma raw_decode_wf bs img : raw_decode bs = Some img -> image_wf img.
Proof.
  unfold raw_decode. repeat case_match; intros; simplify_eq.
  by apply image_wfb_spec.
Qed.

Lemma raw_encode_bytes img : image_wf img -> Forall Base64.is_byte (raw_encode img).
Proof.
  intros [_ Hf]. unfold raw_encode, Base64.is_byte.
  constructor; [destruct (im_mode img); simpl; lia|].
  apply Forall_app; split; [apply Forall_replicate; lia|]. constructor; [lia|].
  apply Forall_app; split; [apply Forall_replicate; lia|]. constructor; [lia|].
  apply Forall_concat, Forall_concat. unfold map2d. apply Forall_fmap.
  eapply Forall_impl; [exact Hf|]. intros r Hr. apply Forall_fmap.
  eapply Forall_impl; [exact Hr|]. intros p [_ Hu]. unfold px_u8 in Hu.
  apply Forall_forall. intros c Hc. apply list_elem_of_In in Hc.
  rewrite forallb_forall in Hu. apply Hu, is_u8_spec in Hc. lia.
Qed.

Lemma raw_encode_png img : image_wf img ->
  exists bs, Some (raw_encode img) = Some bs /\ Forall Base64.is_byte bs /\ raw_decode bs = Some img.
Proof.
  intros Hwf. exists (raw_encode img). split; [done|].
  split; [by apply raw_encode_bytes|]. by apply raw_decode_encode.
Qed.

Lemma raw_pil_encode_jpeg_rgba img : im_mode img = ModeRGBA -> raw_pil_encode JPEG img = None.
Proof. intros Hm. simpl. by rewrite decide_True. Qed.

#[export] Instance raw_codec : ImageCodec := {|
  decode := raw_decode;
  ext_format := raw_ext_format;
  pil_encode := raw_pil_encode;
  cv_encode := raw_cv_encode;
  decode_wf := raw_decode_wf;
  ext_png := eq_refl;
  ext_jpg := eq_refl;
  pil_encode_png := raw_encode_png;
  cv_encode_png := raw_encode_png;
  pil_encode_jpeg_rgba := raw_pil_encode_jpeg_rgba
|}.

End Codec.
