(* ===== verification/Io.v ===== *)
(** * Io: the effects of the scripts as explicit state

    A [world] holds what the scripts read and change: the files (a map
    from path to bytes), the paths that cannot be written, and the lines
    printed so far.  A step [io A] maps a world to the next world and
    either a value or the reason the process stops: [sys.exit(code)] or
    an exception nobody catches (Python then prints a traceback and exits
    with status 1).  [run] gives the world a script leaves and its exit
    status.

    The frame invariant [frames p m]: a step changes no file but [p],
    never changes which paths are writable, and only appends to standard
    output.  It is closed under [io_bind] and holds for every primitive
    step, so the hint database [frames] proves it for whole scripts. *)

From S2P Require Import Prelude.
From stdpp Require Import strings gmap.

Module Io.
Local Open Scope Z_scope.

(** ** Output lines and the world *)

(** The lines the scripts print.  The text of an exception is kept as the
    exception. *)
Inductive line : Type :=
  | Usage                   (** ["Usage: python script.py <input_path> <output_path>"] *)
  | CouldNotRead (p : string)  (** [f"Error: Could not read image at {input_path}"] *)
  | ErrorOpening (e : PyExc)   (** [f"Error opening image: {e}"] *)
  | Saved (p : string)         (** [f"Saved transparent image to {output_path}"] *)
  | Text (s : string).         (** a line of the base64 block *)

Record world : Type := World {
  files : gmap string (list Z);
  readonly : gset string;
  stdout : list line
}.

(** Why a script stops before its end. *)
Inductive stop : Type :=
  | SysExit (code : Z)
  | Uncaught (e : PyExc).

Definition io (A : Type) : Type := world -> world * (stop + A).

Definition io_ret {A} (a : A) : io A := fun w => (w, inr a).

Definition io_bind {A B} (m : io A) (k : A -> io B) : io B :=
  fun w => match m w with
           | (w', inl s) => (w', inl s)
           | (w', inr a) => k a w'
           end.

Declare Scope io_scope.
Delimit Scope io_scope with io.
Notation "x <- m ;; k" := (io_bind m (fun x => k))
  (at level 60, m at next level, right associativity) : io_scope.
Local Open Scope io_scope.

(** [raise e] *)
Definition io_raise {A} (e : PyExc) : io A := fun w => (w, inl (Uncaught e)).

(** [sys.exit(code)] *)
Definition sys_exit {A} (code : Z) : io A := fun w => (w, inl (SysExit code)).

(** A call of the modelled Python code: its exception propagates. *)
Definition lift {A} (r : result A) : io A :=
  match r with Ok a => io_ret a | Raise e => io_raise e end.

(** [print(l)] *)
Definition print (l : line) : io unit :=
  fun w => (World (files w) (readonly w) (stdout w ++ [l]), inr tt).

Fixpoint print_lines (ls : list string) : io unit :=
  match ls with
  | [] => io_ret tt
  | l :: ls' => _ <- print (Text l) ;; print_lines ls'
  end.

(** [open(path, "rb").read()]: [FileNotFoundError] when there is no file. *)
Definition read_file (p : string) : io (list Z) :=
  fun w => match files w !! p with
           | Some bs => (w, inr bs)
           | None => (w, inl (Uncaught OSError))
           end.

(** Writing [bs] to [p]: [false], and nothing written, when the path
    cannot be written (a missing directory, no permission). *)
Definition write_file (p : string) (bs : list Z) : io bool :=
  fun w => if decide (p ∈ readonly w) then (w, inr false)
           else (World (<[p := bs]> (files w)) (readonly w) (stdout w), inr true).

(** The exit status of a finished run. *)
Definition exit_status (r : stop + unit) : Z :=
  match r with
  | inr _ => 0
  | inl (SysExit c) => c
  | inl (Uncaught _) => 1
  end.

(** [os.path.exists(p)] *)
Definition file_exists (p : string) : io bool :=
  fun w => (w, inr (bool_decide (is_Some (files w !! p)))).

(** [os.remove(p)] *)
Definition remove_file (p : string) : io unit :=
  fun w => (World (delete p (files w)) (readonly w) (stdout w), inr tt).


(** Running a script from a world: the world it leaves and its exit
    status. *)
Definition run (m : io unit) (w : world) : world * Z :=
  let '(w', r) := m w in (w', exit_status r).

(** ** Running the steps *)

Lemma bind_step {A B} (m : io A) (k : A -> io B) w w' a :
  m w = (w', inr a) -> io_bind m k w = k a w'.
Proof. intros E. unfold io_bind. by rewrite E. Qed.

Lemma bind_stop {A B} (m : io A) (k : A -> io B) w w' s :
  m w = (w', inl s) -> io_bind m k w = (w', inl s).
Proof. intros E. unfold io_bind. by rewrite E. Qed.

Lemma print_lines_run ls w :
  print_lines ls w = (World (files w) (readonly w) (stdout w ++ (Text <$> ls)), inr tt).
Proof.
  revert w. induction ls as [|l ls IH]; intros [fs ro out]; simpl.
  - by rewrite app_nil_r.
  - rewrite (bind_step _ _ _ _ tt eq_refl), IH. simpl. by rewrite <- app_assoc.
Qed.

Lemma run_fst m w : fst (run m w) = fst (m w).
Proof. unfold run. by destruct (m w). Qed.

(** ** The printed text *)

Section Render.
(** [str(e)], the message of an exception: library text, left open. *)
Variable exc_str : PyExc -> string.

(** The text of a printed line. *)
Definition render (l : line) : string :=
  match l with
  | Usage => "Usage: python script.py <input_path> <output_path>"
  | CouldNotRead p => "Error: Could not read image at " +:+ p
  | ErrorOpening e => "Error opening image: " +:+ exc_str e
  | Saved p => "Saved transparent image to " +:+ p
  | Text s => s
  end.
End Render.

(** ** The frame of a step *)

(** [w'] follows [w] without changing any file but [p] or which paths
    are writable, and by printing only. *)
Definition frame (p : string) (w w' : world) : Prop :=
  (forall q, q <> p -> files w' !! q = files w !! q) /\
  readonly w' = readonly w /\ stdout w `prefix_of` stdout w'.

(** A step [m] keeps to the frame of [p] from every world. *)
Definition frames {A} (p : string) (m : io A) : Prop :=
  forall w, frame p w (fst (m w)).

#[export] Instance frame_preorder p : PreOrder (frame p).
Proof.
  split.
  - intros w. split; [done|]. split; [done|]. reflexivity.
  - intros w1 w2 w3 (F1 & R1 & O1) (F2 & R2 & O2). split; [|split].
    + intros q Hq. rewrite F2, F1 by done. done.
    + by rewrite R2.
    + by transitivity (stdout w2).
Qed.

Lemma frames_bind {A B} p (m : io A) (k : A -> io B) :
  frames p m -> (forall a, frames p (k a)) -> frames p (io_bind m k).
Proof.
  intros Hm Hk w. unfold io_bind. specialize (Hm w).
  destruct (m w) as [w1 [s|a]] eqn:E; [exact Hm|].
  etransitivity; [exact Hm|]. apply Hk.
Qed.

Lemma frames_still {A} p (m : io A) : (forall w, fst (m w) = w) -> frames p m.
Proof. intros H w. rewrite H. reflexivity. Qed.

Lemma frames_ret {A} p (a : A) : frames p (io_ret a).
Proof. by apply frames_still. Qed.

Lemma frames_raise {A} p e : frames p (@io_raise A e).
Proof. by apply frames_still. Qed.

Lemma frames_exit {A} p c : frames p (@sys_exit A c).
Proof. by apply frames_still. Qed.

Lemma frames_lift {A} p (r : result A) : frames p (lift r).
Proof. apply frames_still. by destruct r. Qed.

Lemma frames_read_file p q : frames p (read_file q).
Proof. apply frames_still. intros w. unfold read_file. by destruct (files w !! q). Qed.

Lemma frames_file_exists p q : frames p (file_exists q).
Proof. by apply frames_still. Qed.

Lemma frames_print p l : frames p (print l).
Proof.
  intros w. split; [done|]. split; [done|]. by exists [l].
Qed.

Lemma frames_print_lines p ls : frames p (print_lines ls).
Proof.
  induction ls as [|l ls IH]; simpl; [apply frames_ret|].
  apply frames_bind; [apply frames_print|]. intros _. exact IH.
Qed.

Lemma frames_write_file p bs : frames p (write_file p bs).
Proof.
  intros w. unfold write_file. case_decide; [reflexivity|].
  split; [|done]. intros q Hq. simpl. by rewrite lookup_insert_ne.
Qed.

Lemma frames_remove_file p : frames p (remove_file p).
Proof.
  intros w. split; [|done]. intros q Hq. simpl. by rewrite lookup_delete_ne.
Qed.

(** ** The exit status *)

(** A step stops with [sys.exit] only with status 1. *)
Definition exits_1 {A} (m : io A) : Prop :=
  forall w c, snd (m w) = inl (SysExit c) -> c = 1.

Lemma exits_bind {A B} (m : io A) (k : A -> io B) :
  exits_1 m -> (forall a, exits_1 (k a)) -> exits_1 (io_bind m k).
Proof.
  intros Hm Hk w c. unfold io_bind.
  destruct (m w) as [w1 [s|a]] eqn:E; [|apply Hk].
  intros H. apply (Hm w c). rewrite E. simpl in *. by simplify_eq.
Qed.

Lemma exits_ret {A} (a : A) : exits_1 (io_ret a).
Proof. by intros w c. Qed.

Lemma exits_raise {A} e : exits_1 (@io_raise A e).
Proof. by intros w c. Qed.

Lemma exits_exit {A} : exits_1 (@sys_exit A 1).
Proof. by intros w c [= <-]. Qed.

Lemma exits_lift {A} (r : result A) : exits_1 (lift r).
Proof. by destruct r; intros w c. Qed.

Lemma exits_read_file q : exits_1 (read_file q).
Proof. intros w c. unfold read_file. by destruct (files w !! q). Qed.

Lemma exits_file_exists q : exits_1 (file_exists q).
Proof. by intros w c. Qed.

Lemma exits_print l : exits_1 (print l).
Proof. by intros w c. Qed.

Lemma exits_print_lines ls : exits_1 (print_lines ls).
Proof.
  induction ls as [|l ls IH]; simpl; [apply exits_ret|].
  apply exits_bind; [apply exits_print|]. intros _. exact IH.
Qed.

Lemma exits_write_file p bs : exits_1 (write_file p bs).
Proof. intros w c. unfold write_file. by case_decide. Qed.

Lemma exits_remove_file p : exits_1 (remove_file p).
Proof. by intros w c. Qed.

Create HintDb io_steps discriminated.
#[export] Hint Resolve frames_ret frames_raise frames_exit frames_lift frames_read_file
  frames_file_exists frames_print frames_print_lines frames_write_file frames_remove_file
  exits_ret exits_raise exits_exit exits_lift exits_read_file exits_file_exists
  exits_print exits_print_lines exits_write_file exits_remove_file : io_steps.

(** Proves [frames p m] or [exits_1 m] for a step built with [io_bind],
    [if] and [match] from steps the database [io_steps] knows. *)
Ltac solve_steps :=
  repeat first
    [ apply frames_bind; intros
    | apply exits_bind; intros
    | progress case_match
    | solve [eauto with io_steps] ].

End Io.
