(* ===== verification/Paths.v ===== *)
(** * Paths: the extension of a file name, as the libraries read it

    [cv2.imwrite] and [Image.save] choose the output format from the
    extension of the output path, by different rules:
    - OpenCV ([findEncoder] in imgcodecs/src/loadsave.cpp) takes what
      follows the last ["."] of the whole path ([strrchr]), keeps its
      leading letters and digits (at most 128), and compares them without
      case; a path of at most one character has no encoder: [cv_ext];
    - Pillow ([Image.save]) takes [os.path.splitext(filename)[1].lower()]:
      the part from the last ["."] of the last path component, unless
      that component is only dots up to there (["dir/.png"] has no
      extension): [pil_ext].  Lowercasing is modelled on ASCII letters.
    [ext_readings_agree] proves that the two rules give the same
    extension on every path whose last component is a stem, a dot and at
    most 128 letters and digits; [ext_readings_differ] shows a path
    outside that case where they do not. *)

From S2P Require Import Prelude.
From stdpp Require Import strings.
From Stdlib Require Ascii.

Module Paths.

Definition code (c : Ascii.ascii) : nat := Ascii.nat_of_ascii c.

Definition is_dot (c : Ascii.ascii) : bool := (code c =? 46)%nat.
Definition is_slash (c : Ascii.ascii) : bool := (code c =? 47)%nat.

(** C's [isalnum] in the C locale. *)
Definition is_alnum (c : Ascii.ascii) : bool :=
  ((48 <=? code c) && (code c <=? 57) || (65 <=? code c) && (code c <=? 90) ||
   (97 <=? code c) && (code c <=? 122))%nat.

(** [tolower] / [str.lower] on ASCII letters. *)
Definition lower (c : Ascii.ascii) : Ascii.ascii :=
  if ((65 <=? code c) && (code c <=? 90))%nat then Ascii.ascii_of_nat (code c + 32) else c.

(** The longest prefix of letters and digits. *)
Fixpoint alnum_prefix (l : list Ascii.ascii) : list Ascii.ascii :=
  match l with
  | c :: l' => if is_alnum c then c :: alnum_prefix l' else []
  | [] => []
  end.

(** What follows the last dot, read on the reversed path ([strrchr]). *)
Fixpoint after_last_dot_rev (r : list Ascii.ascii) : option (list Ascii.ascii) :=
  match r with
  | [] => None
  | c :: r' => if is_dot c then Some [] else cons c <$> after_last_dot_rev r'
  end.

(** The extension OpenCV matches against its encoders, lowercased;
    [None] when it finds none. *)
Definition cv_ext (p : string) : option string :=
  let l := String.list_ascii_of_string p in
  if (length l <=? 1)%nat then None
  else (fun suf => String.string_of_list_ascii (lower <$> take 128 (alnum_prefix (rev suf))))
         <$> after_last_dot_rev (rev l).

(** Whether the last path component has a character other than ["."]
    before the dot, read backwards from the dot. *)
Fixpoint has_stem_rev (r : list Ascii.ascii) : bool :=
  match r with
  | [] => false
  | c :: r' => if is_slash c then false else if is_dot c then has_stem_rev r' else true
  end.

(** [os.path.splitext(p)[1]] without its dot, read on the reversed path. *)
Fixpoint splitext_rev (r : list Ascii.ascii) : option (list Ascii.ascii) :=
  match r with
  | [] => None
  | c :: r' =>
      if is_dot c then (if has_stem_rev r' then Some [] else None)
      else if is_slash c then None
      else cons c <$> splitext_rev r'
  end.

(** [os.path.splitext(p)[1].lower()] without its dot; [""] when there is
    no extension. *)
Definition pil_ext (p : string) : string :=
  match splitext_rev (rev (String.list_ascii_of_string p)) with
  | Some e => String.string_of_list_ascii (lower <$> rev e)
  | None => ""
  end.

(** ** Lemmas *)

Lemma list_ascii_of_string_app s t :
  String.list_ascii_of_string (s +:+ t) =
    String.list_ascii_of_string s ++ String.list_ascii_of_string t.
Proof. induction s as [|c s IH]; simpl; [done|]. by rewrite IH. Qed.

(** OpenCV reads ["png"] from every path ending in [".png"]. *)
Lemma cv_ext_png s : cv_ext (s +:+ ".png") = Some "png".
Proof.
  unfold cv_ext. rewrite list_ascii_of_string_app, length_app, rev_app_distr.
  simpl. by rewrite Nat.add_comm.
Qed.

(** Pillow reads ["png"] from a path ending in [".png"] when the last
    character before it is neither a dot nor a slash. *)
Lemma pil_ext_png s c :
  is_dot c = false -> is_slash c = false ->
  pil_ext (s +:+ String.String c ".png") = "png".
Proof.
  intros Hd Hs. unfold pil_ext.
  rewrite list_ascii_of_string_app, rev_app_distr. simpl.
  by rewrite Hs, Hd.
Qed.

(** ** Where the two readings agree *)

Lemma alnum_not_sep c : is_alnum c = true -> is_dot c = false /\ is_slash c = false.
Proof.
  unfold is_alnum, is_dot, is_slash. intros H.
  rewrite !Nat.eqb_neq. repeat rewrite ?orb_true_iff, ?andb_true_iff, ?Nat.leb_le in H. lia.
Qed.

Lemma alnum_prefix_all l : Forall (fun c => is_alnum c = true) l -> alnum_prefix l = l.
Proof. induction 1 as [|c l Hc _ IH]; simpl; [done|]. by rewrite Hc, IH. Qed.

(** [strrchr] stops at the first dot of the reversed path. *)
Lemma after_last_dot_rev_app l d r :
  Forall (fun c => is_dot c = false) l -> is_dot d = true ->
  after_last_dot_rev (l ++ d :: r) = Some l.
Proof.
  intros Hl Hd. induction Hl as [|c l Hc _ IH]; simpl; [by rewrite Hd|]. by rewrite Hc, IH.
Qed.

(** [splitext] likewise, then asks whether the name has a stem. *)
Lemma splitext_rev_app l d r :
  Forall (fun c => is_dot c = false /\ is_slash c = false) l -> is_dot d = true ->
  splitext_rev (l ++ d :: r) = if has_stem_rev r then Some l else None.
Proof.
  intros Hl Hd. induction Hl as [|c l [Hc Hs] _ IH]; simpl; [by rewrite Hd|].
  rewrite Hc, Hs, IH. by destruct (has_stem_rev r).
Qed.

(** A last component with no slash and a character other than a dot
    has a stem, whatever comes before it. *)
Lemma has_stem_rev_app l r :
  Forall (fun c => is_slash c = false) l -> Exists (fun c => is_dot c = false) l ->
  has_stem_rev (l ++ r) = true.
Proof.
  intros Hl He. induction Hl as [|c l Hs _ IH]; [inversion He|]. simpl. rewrite Hs.
  destruct (is_dot c) eqn:Hd; [|done]. apply IH. inversion He; congruence.
Qed.

(** C31: on an output path whose last component is a stem (no slash, not
    only dots) then a dot and an extension of at most 128 letters and
    digits, OpenCV ([cv2.imwrite]) and Pillow ([Image.save]) read the
    same extension: the extension lowercased. *)
Theorem ext_readings_agree (dir stem e : list Ascii.ascii) :
  Forall (fun c => is_slash c = false) stem -> Exists (fun c => is_dot c = false) stem ->
  Forall (fun c => is_alnum c = true) e -> (length e <= 128)%nat ->
  let p := String.string_of_list_ascii (dir ++ stem ++ Ascii.ascii_of_nat 46 :: e) in
  cv_ext p = Some (pil_ext p) /\ pil_ext p = String.string_of_list_ascii (lower <$> e).
Proof.
  intros Hs Hd He Hl p.
  assert (Hsep : Forall (fun c => is_dot c = false /\ is_slash c = false) (rev e)).
  { apply Forall_rev. eapply Forall_impl; [exact He|]. intros c. apply alnum_not_sep. }
  assert (Hrev : rev (String.list_ascii_of_string p) =
                 rev e ++ Ascii.ascii_of_nat 46 :: (rev stem ++ rev dir)).
  { unfold p. rewrite String.list_ascii_of_string_of_list_ascii, !rev_app_distr. simpl.
    by rewrite <- !app_assoc. }
  assert (Hpil : pil_ext p = String.string_of_list_ascii (lower <$> e)).
  { unfold pil_ext. rewrite Hrev, (splitext_rev_app _ _ _ Hsep) by reflexivity.
    by rewrite (has_stem_rev_app _ _ (Forall_rev Hs) (Exists_rev Hd)), rev_involutive. }
  split; [|exact Hpil]. rewrite Hpil. unfold cv_ext.
  assert (Hlen : (1 < length (String.list_ascii_of_string p))%nat).
  { rewrite <- length_rev, Hrev. rewrite !length_app, !length_rev. simpl.
    destruct stem; [inversion Hd|]. simpl. rewrite !length_app. simpl. lia. }
  destruct (Nat.leb_spec (length (String.list_ascii_of_string p)) 1); [lia|].
  rewrite Hrev, after_last_dot_rev_app by (done || (eapply Forall_impl; [exact Hsep|]; intros c [Hc _]; exact Hc)).
  simpl. by rewrite rev_involutive, alnum_prefix_all, take_ge.
Qed.

(** Where they differ: a path ending in [".png~"] is written as PNG by
    OpenCV, which stops at the first character that is not a letter or a
    digit, and is refused by Pillow, which reads the extension
    [".png~"]. *)
Lemma ext_readings_differ : cv_ext "out.png~" = Some "png" /\ pil_ext "out.png~" = "png~".
Proof. split; reflexivity. Qed.

Lemma ext_readings_agree_witness :
  cv_ext "tmp/out.PNG" = Some (pil_ext "tmp/out.PNG") /\ pil_ext "tmp/out.PNG" = "png".
Proof.
  exact (ext_readings_agree (String.list_ascii_of_string "tmp/")
           (String.list_ascii_of_string "out") (String.list_ascii_of_string "PNG")
           ltac:(repeat constructor) ltac:(repeat constructor) ltac:(repeat constructor)
           ltac:(simpl; lia)).
Defined.

End Paths.
