(* ===== verification/Cli.v ===== *)
(** * Cli: the command-line scripts around the transforms

    Each script is run as [python script.py <input_path> <output_path>].
    Its [if __name__ == "__main__"] block checks [sys.argv] and calls
    [remove_background_and_convert], which reads and decodes the input
    file, applies the image transform (PillowNumpy.v, Cv2Filter.v,
    PillowPure.v), saves the result, reads the saved file back and prints
    it base64-encoded (Base64.v).

    The scripts are steps of Io.v over a world of files and printed
    lines; OpenCV's and Pillow's file operations ([imread], [imwrite],
    [pil_open], [pil_save]) are modelled down to the codec interface of
    Codec.v and the extension rules of Paths.v.  The theorems give each
    script's run from a world: exit status, files written and lines
    printed, on success and on every error path. *)

From S2P Require Import Prelude Raster Filter PillowNumpy Cv2Filter PillowPure MatteSpec Base64 Codec Io Paths.
From stdpp Require Import strings gmap.

Module Cli.
Local Open Scope Z_scope.
Import Raster Codec Io Paths.
Local Open Scope io_scope.
Import (hints) MatteSpec.MatteSpec.

Section Scripts.
Context {codec : ImageCodec}.

(** ** OpenCV and Pillow file operations *)

(** [cv2.imread(path)]: [None] when the file is missing or does not
    decode. *)
Definition imread (p : string) : io (option image) :=
  fun w => (w, inr (files w !! p ≫= decode)).

(** [cv2.imwrite(path, img)]: the encoder is chosen by the extension, and
    [cv2.error] is raised when there is none or it rejects the image; the
    result tells whether the file could be written. *)
Definition imwrite (p : string) (img : image) : io bool :=
  match cv_ext p ≫= ext_format with
  | None => io_raise Cv2Error
  | Some f =>
      match cv_encode f img with
      | None => io_raise Cv2Error
      | Some bs => write_file p bs
      end
  end.

(** [Image.open(path)]: a missing file ([FileNotFoundError]) and a file
    that does not decode ([UnidentifiedImageError]) are [OSError]s. *)
Definition pil_open (p : string) : io (result image) :=
  fun w => (w, inr (match files w !! p ≫= decode with
                    | Some img => Ok img
                    | None => Raise OSError
                    end)).

(** [img.save(path, format)]: without a format the extension chooses it
    ([ValueError] for an unknown one); the file is opened with ["w+b"]
    ([OSError] if it cannot be), then encoded; when the encoder fails the
    file is removed if [save] created it, and the error is raised. *)
Definition pil_save (p : string) (format : option Format) (img : image) : io unit :=
  f <- lift (match format with
             | Some f => Ok f
             | None => match ext_format (pil_ext p) with
                       | Some f => Ok f
                       | None => Raise ValueError
                       end
             end) ;;
  existed <- file_exists p ;;
  opened <- write_file p [] ;;
  if negb opened then io_raise OSError else
  match pil_encode f img with
  | Some bs => _ <- write_file p bs ;; io_ret tt
  | None => _ <- (if existed then io_ret tt else remove_file p) ;; io_raise OSError
  end.

(** The end of each [remove_background_and_convert]: read the saved file
    back and print it between the sentinel lines. *)
Definition report_file (p : string) : io unit :=
  data <- read_file p ;;
  print_lines (Base64.report data).

(** ** The three scripts *)

(** src/process_bg.py, [remove_background_and_convert] (lines 7-39). *)
Definition cv2_convert (input_path output_path : string) : io unit :=
  img <- imread input_path ;;
  match img with
  | None => _ <- print (CouldNotRead input_path) ;; sys_exit 1
  | Some img =>
      rgba <- lift (Cv2.remove_background img) ;;
      _ <- imwrite output_path rgba ;;
      _ <- print (Saved output_path) ;;
      report_file output_path
  end.

(** src/process_bg_pillow.py, [remove_background_and_convert] (lines
    6-32). *)
Definition numpy_convert (input_path output_path : string) : io unit :=
  r <- pil_open input_path ;;
  match r with
  | Raise e => _ <- print (ErrorOpening e) ;; sys_exit 1
  | Ok img =>
      result_img <- lift (PillowNumpy.remove_background img) ;;
      _ <- pil_save output_path None result_img ;;
      report_file output_path
  end.

(** src/process_bg_pillow_pure.py, [remove_background_and_convert]
    (lines 5-28): the file is saved as PNG whatever its name. *)
Definition pure_convert (input_path output_path : string) : io unit :=
  r <- pil_open input_path ;;
  match r with
  | Raise e => _ <- print (ErrorOpening e) ;; sys_exit 1
  | Ok img =>
      img' <- lift (PillowPure.remove_background img) ;;
      _ <- pil_save output_path (Some PNG) img' ;;
      report_file output_path
  end.

End Scripts.

(** The [if __name__ == "__main__"] block shared by the three scripts
    (src/process_bg.py lines 41-49). *)
Definition main (convert : string -> string -> io unit) (argv : list string) : io unit :=
  if decide (length argv < 3)%nat then _ <- print Usage ;; sys_exit 1
  else match argv !! 1%nat, argv !! 2%nat with
       | Some input_file, Some output_file => convert input_file output_file
       | _, _ => io_raise IndexError
       end.

Section Mains.
Context {codec : ImageCodec}.

(** src/process_bg.py lines 41-49. *)
Definition cv2_main (argv : list string) : io unit := main cv2_convert argv.

(** src/process_bg_pillow.py lines 34-42. *)
Definition numpy_main (argv : list string) : io unit := main numpy_convert argv.

(** src/process_bg_pillow_pure.py lines 30-38. *)
Definition pure_main (argv : list string) : io unit := main pure_convert argv.

End Mains.

Lemma report_file_run p bs w :
  files w !! p = Some bs ->
  report_file p w =
    (World (files w) (readonly w) (stdout w ++ (Text <$> Base64.report bs)), inr tt).
Proof.
  intros E. unfold report_file. rewrite (bind_step _ _ _ w bs); [|by unfold read_file; rewrite E].
  apply print_lines_run.
Qed.

Lemma main_args convert prog i o rest :
  main convert (prog :: i :: o :: rest) = convert i o.
Proof. unfold main. rewrite decide_False by (simpl; lia). reflexivity. Qed.

(** A filter returns a well-formed image on a well-formed one. *)
Lemma filter_ok (f : image -> result image) `{!Filter.MatteFilter f} img :
  image_wf img -> exists out, f img = Ok out /\ image_wf out.
Proof.
  intros Hwf. eexists. split; [exact (@Filter.mf_run f _ img Hwf)|].
  exact (proj1 (Filter.filter_output_wf f img _ Hwf (@Filter.mf_run f _ img Hwf))).
Qed.

Section ScriptRuns.
Context {codec : ImageCodec}.

Lemma pil_open_run {A} (k : result image -> io A) p w :
  io_bind (pil_open p) k w =
    k (match files w !! p ≫= decode with Some img => Ok img | None => Raise OSError end) w.
Proof. reflexivity. Qed.

Lemma imread_run {A} (k : option image -> io A) p w :
  io_bind (imread p) k w = k (files w !! p ≫= decode) w.
Proof. reflexivity. Qed.

Lemma imwrite_png p img w :
  cv_ext p = Some "png" -> image_wf img -> p ∉ readonly w ->
  exists bs, Forall Base64.is_byte bs /\ decode bs = Some img /\
    imwrite p img w = (World (<[p := bs]> (files w)) (readonly w) (stdout w), inr true).
Proof.
  intros He Hwf Hro. destruct (cv_encode_png img Hwf) as (bs & Henc & Hb & Hd).
  exists bs. do 2 (split; [done|]).
  unfold imwrite. rewrite He. cbn [mbind option_bind]. rewrite ext_png, Henc. unfold write_file. by rewrite decide_False.
Qed.

Lemma pil_save_png p format img w :
  (format = Some PNG \/ format = None /\ pil_ext p = "png") ->
  image_wf img -> p ∉ readonly w ->
  exists bs, pil_encode PNG img = Some bs /\ Forall Base64.is_byte bs /\ decode bs = Some img /\
    pil_save p format img w = (World (<[p := bs]> (files w)) (readonly w) (stdout w), inr tt).
Proof.
  intros Hf Hwf Hro. destruct (pil_encode_png img Hwf) as (bs & Henc & Hb & Hd).
  exists bs. do 3 (split; [done|]).
  unfold pil_save. rewrite (bind_step _ _ _ w PNG).
  2: { destruct Hf as [-> | [-> He]]; [done|]. simpl. by rewrite He, ext_png. }
  erewrite bind_step; [|reflexivity].
  erewrite bind_step; [|unfold write_file; rewrite decide_False by done; reflexivity].
  simpl. rewrite Henc.
  erewrite bind_step; [|unfold write_file; simpl; rewrite decide_False by done; reflexivity].
  unfold io_ret. by rewrite insert_insert_eq.
Qed.

(** What a Pillow script does once the input is open. *)
Lemma pil_tail_run (f : image -> result image) `{!Filter.MatteFilter f} format outp img w :
  image_wf img -> (format = Some PNG \/ format = None /\ pil_ext outp = "png") ->
  outp ∉ readonly w ->
  exists out bs', f img = Ok out /\ pil_encode PNG out = Some bs' /\ decode bs' = Some out /\
    Forall Base64.is_byte bs' /\
    (x <- lift (f img) ;; _ <- pil_save outp format x ;; report_file outp) w =
      (World (<[outp := bs']> (files w)) (readonly w)
         (stdout w ++ (Text <$> Base64.report bs')), inr tt).
Proof.
  intros Hwf Hf Hro. destruct (filter_ok f img Hwf) as (out & Hrun & Hwf').
  destruct (pil_save_png outp format out w Hf Hwf' Hro) as (bs' & He & Hb & Hd & Hs).
  exists out, bs'. do 4 (split; [done|]).
  rewrite (bind_step _ _ w w out) by (by rewrite Hrun).
  rewrite (bind_step _ _ _ _ tt Hs).
  by rewrite (report_file_run outp bs') by (simpl; apply lookup_insert_eq).
Qed.

Lemma cv2_convert_ok w inp outp bs img :
  files w !! inp = Some bs -> decode bs = Some img ->
  cv_ext outp = Some "png" -> outp ∉ readonly w ->
  exists out bs', Cv2.remove_background img = Ok out /\ decode bs' = Some out /\ Forall Base64.is_byte bs' /\
    cv2_convert inp outp w =
      (World (<[outp := bs']> (files w)) (readonly w)
         (stdout w ++ Saved outp :: (Text <$> Base64.report bs')), inr tt).
Proof.
  intros Hin Hdec He Hro.
  destruct (filter_ok Cv2.remove_background img) as (out & Hrun & Hwf');
    [exact (decode_wf _ _ Hdec)|].
  destruct (imwrite_png outp out w He Hwf' Hro) as (bs' & Hb & Hd & Hw).
  exists out, bs'. do 3 (split; [done|]). unfold cv2_convert.
  rewrite imread_run, Hin. simpl. rewrite Hdec. cbv beta iota.
  rewrite (bind_step _ _ w w out) by (by rewrite Hrun).
  rewrite (bind_step _ _ _ _ true Hw).
  erewrite bind_step; [|reflexivity].
  rewrite (report_file_run outp bs') by (simpl; apply lookup_insert_eq).
  simpl. by rewrite <- app_assoc.
Qed.

Lemma numpy_convert_ok w inp outp bs img :
  files w !! inp = Some bs -> decode bs = Some img ->
  pil_ext outp = "png" -> outp ∉ readonly w ->
  exists out bs', PillowNumpy.remove_background img = Ok out /\ pil_encode PNG out = Some bs' /\
    decode bs' = Some out /\ Forall Base64.is_byte bs' /\
    numpy_convert inp outp w =
      (World (<[outp := bs']> (files w)) (readonly w)
         (stdout w ++ (Text <$> Base64.report bs')), inr tt).
Proof.
  intros Hin Hdec He Hro.
  destruct (pil_tail_run PillowNumpy.remove_background None outp img w)
    as (out & bs' & Hrun & He' & Hd & Hb & Ht); [exact (decode_wf _ _ Hdec)|by right|done|].
  exists out, bs'. do 4 (split; [done|]). unfold numpy_convert.
  rewrite pil_open_run, Hin. simpl. rewrite Hdec. cbv beta iota. by rewrite Ht.
Qed.

Lemma pure_convert_ok w inp outp bs img :
  files w !! inp = Some bs -> decode bs = Some img -> outp ∉ readonly w ->
  exists out bs', PillowPure.remove_background img = Ok out /\ pil_encode PNG out = Some bs' /\
    decode bs' = Some out /\ Forall Base64.is_byte bs' /\
    pure_convert inp outp w =
      (World (<[outp := bs']> (files w)) (readonly w)
         (stdout w ++ (Text <$> Base64.report bs')), inr tt).
Proof.
  intros Hin Hdec Hro.
  destruct (pil_tail_run PillowPure.remove_background (Some PNG) outp img w)
    as (out & bs' & Hrun & He & Hd & Hb & Ht); [exact (decode_wf _ _ Hdec)|by left|done|].
  exists out, bs'. do 4 (split; [done|]). unfold pure_convert.
  rewrite pil_open_run, Hin. simpl. rewrite Hdec. cbv beta iota. by rewrite Ht.
Qed.

(** The exit status and world of a run whose conversion returned. *)
Lemma run_main_ok convert prog inp outp w w' :
  convert inp outp w = (w', inr tt) ->
  run (main convert [prog; inp; outp]) w = (w', 0).
Proof. intros E. unfold run. rewrite main_args, E. reflexivity. Qed.

(** C16: src/process_bg.py run with an input file that decodes and an
    output path ending in [.png] that can be written exits with status 0;
    it writes the PNG encoding of the filtered image to the output path
    and prints the confirmation line and then the base64 block of exactly
    the bytes written. *)
Theorem cv2_cli_success w prog inp outp bs img :
  files w !! inp = Some bs -> decode bs = Some img ->
  cv_ext outp = Some "png" -> outp ∉ readonly w ->
  exists out bs', Cv2.remove_background img = Ok out /\ decode bs' = Some out /\
    run (cv2_main [prog; inp; outp]) w =
      (World (<[outp := bs']> (files w)) (readonly w)
         (stdout w ++ Saved outp :: (Text <$> Base64.report bs')), 0).
Proof.
  intros Hin Hdec He Hro.
  destruct (cv2_convert_ok w inp outp bs img Hin Hdec He Hro) as (out & bs' & Hr & Hd & _ & E).
  exists out, bs'. split; [done|]. split; [done|]. exact (run_main_ok _ _ _ _ _ _ E).
Qed.

(** C17: src/process_bg_pillow.py run with an input file that decodes and
    an output path ending in [.png] that can be written exits with status
    0; it writes the PNG encoding of the filtered image and prints the
    base64 block of exactly the bytes written, with no confirmation line
    before it. *)
Theorem numpy_cli_success w prog inp outp bs img :
  files w !! inp = Some bs -> decode bs = Some img ->
  pil_ext outp = "png" -> outp ∉ readonly w ->
  exists out bs', PillowNumpy.remove_background img = Ok out /\ decode bs' = Some out /\
    run (numpy_main [prog; inp; outp]) w =
      (World (<[outp := bs']> (files w)) (readonly w)
         (stdout w ++ (Text <$> Base64.report bs')), 0).
Proof.
  intros Hin Hdec He Hro.
  destruct (numpy_convert_ok w inp outp bs img Hin Hdec He Hro) as (out & bs' & Hr & _ & Hd & _ & E).
  exists out, bs'. split; [done|]. split; [done|]. exact (run_main_ok _ _ _ _ _ _ E).
Qed.

(** C18: src/process_bg_pillow_pure.py run with an input file that
    decodes and an output path that can be written exits with status 0;
    whatever the output path's extension, it writes the PNG encoding of
    the filtered image there and prints the base64 block of exactly the
    bytes written, with no confirmation line before it. *)
Theorem pure_cli_success w prog inp outp bs img :
  files w !! inp = Some bs -> decode bs = Some img -> outp ∉ readonly w ->
  exists out bs', PillowPure.remove_background img = Ok out /\ decode bs' = Some out /\
    run (pure_main [prog; inp; outp]) w =
      (World (<[outp := bs']> (files w)) (readonly w)
         (stdout w ++ (Text <$> Base64.report bs')), 0).
Proof.
  intros Hin Hdec Hro.
  destruct (pure_convert_ok w inp outp bs img Hin Hdec Hro) as (out & bs' & Hr & _ & Hd & _ & E).
  exists out, bs'. split; [done|]. split; [done|]. exact (run_main_ok _ _ _ _ _ _ E).
Qed.

(** What spec.md section 6 promises of a successful run: exit status 0,
    a file at the output path that decodes to the filtered image, and a
    base64 block in the printed text that gives back exactly its bytes.
    [exc_str] is the text of exception messages. *)
Definition reports_result (exc_str : PyExc -> string) (f : image -> result image)
    (img : image) (outp : string) (w : world) (m : io unit) : Prop :=
  let '(w', code) := run m w in
  code = 0 /\ exists out bs', f img = Ok out /\ files w' !! outp = Some bs' /\
    decode bs' = Some out /\ Base64.read_report (render exc_str <$> stdout w') = Some bs'.

Lemma render_text exc_str (ls : list string) : render exc_str <$> (Text <$> ls) = ls.
Proof. rewrite <- list_fmap_compose. apply list_fmap_id. Qed.

Lemma reports_result_intro exc_str f img outp w m pre out bs' :
  f img = Ok out -> decode bs' = Some out -> Forall Base64.is_byte bs' ->
  Forall (fun l => render exc_str l <> Base64.start_line) pre ->
  run m w = (World (<[outp := bs']> (files w)) (readonly w)
               (pre ++ (Text <$> Base64.report bs')), 0) ->
  reports_result exc_str f img outp w m.
Proof.
  intros Hf Hd Hb Hpre E. unfold reports_result. rewrite E.
  split; [done|]. exists out, bs'. split; [done|]. split; [apply lookup_insert_eq|].
  split; [done|]. cbn [stdout]. rewrite fmap_app, render_text.
  apply Base64.read_report_after; [|done]. by apply Forall_fmap.
Qed.

Lemma imwrite_readonly p img w :
  cv_ext p = Some "png" -> image_wf img -> p ∈ readonly w -> imwrite p img w = (w, inr false).
Proof.
  intros He Hwf Hro. destruct (cv_encode_png img Hwf) as (bs & Henc & _).
  unfold imwrite. rewrite He. cbn [mbind option_bind]. rewrite ext_png, Henc. unfold write_file. by rewrite decide_True.
Qed.

Lemma pil_save_readonly p format img w :
  p ∈ readonly w -> exists e, pil_save p format img w = (w, inl (Uncaught e)).
Proof.
  intros Hro. unfold pil_save, io_bind, lift.
  destruct format as [f|]; [|destruct (ext_format (pil_ext p))];
    simpl; unfold write_file; rewrite ?decide_True by done; by eexists.
Qed.

(** Pillow refuses to write an RGBA image as JPEG: the file it opened is
    left empty if it was there before, and removed otherwise. *)
Lemma pil_save_jpeg_rgba p img w :
  pil_ext p = "jpg" -> im_mode img = ModeRGBA -> p ∉ readonly w ->
  pil_save p None img w =
    (World (if bool_decide (is_Some (files w !! p)) then <[p := []]> (files w) else files w)
       (readonly w) (stdout w), inl (Uncaught OSError)).
Proof.
  intros He Hm Hro. unfold pil_save.
  rewrite (bind_step _ _ w w JPEG) by (simpl; by rewrite He, ext_jpg).
  erewrite bind_step; [|reflexivity].
  erewrite bind_step; [|unfold write_file; rewrite decide_False by done; reflexivity].
  simpl. rewrite pil_encode_jpeg_rgba by done.
  destruct (bool_decide (is_Some (files w !! p))) eqn:Ex; [reflexivity|].
  apply bool_decide_eq_false, eq_None_not_Some in Ex.
  unfold io_bind, remove_file. simpl. by rewrite delete_insert_id.
Qed.

(** C19: when the input file is missing or does not decode, each script
    prints its error line and exits with status 1, and no file changes. *)
Theorem cli_decode_failure w prog inp outp :
  files w !! inp ≫= decode = None ->
  run (cv2_main [prog; inp; outp]) w =
    (World (files w) (readonly w) (stdout w ++ [CouldNotRead inp]), 1) /\
  run (numpy_main [prog; inp; outp]) w =
    (World (files w) (readonly w) (stdout w ++ [ErrorOpening OSError]), 1) /\
  run (pure_main [prog; inp; outp]) w =
    (World (files w) (readonly w) (stdout w ++ [ErrorOpening OSError]), 1).
Proof.
  intros H. unfold run, cv2_main, numpy_main, pure_main. rewrite !main_args.
  unfold cv2_convert, numpy_convert, pure_convert.
  rewrite imread_run, !pil_open_run, H. repeat split.
Qed.

(** C20: when the output path cannot be written but an older file is
    there, src/process_bg.py ignores the [False] that [cv2.imwrite]
    returns: it prints the confirmation line and the base64 block of the
    older file, and exits with status 0. *)
Theorem cv2_stale_output w prog inp outp bs img old :
  files w !! inp = Some bs -> decode bs = Some img -> cv_ext outp = Some "png" ->
  outp ∈ readonly w -> files w !! outp = Some old ->
  run (cv2_main [prog; inp; outp]) w =
    (World (files w) (readonly w) (stdout w ++ Saved outp :: (Text <$> Base64.report old)), 0).
Proof.
  intros Hin Hdec He Hro Hold.
  destruct (filter_ok Cv2.remove_background img) as (out & Hrun & Hwf');
    [exact (decode_wf _ _ Hdec)|].
  unfold run, cv2_main, numpy_main, pure_main. rewrite main_args. unfold cv2_convert.
  rewrite imread_run, Hin. simpl. rewrite Hdec. cbv beta iota.
  rewrite (bind_step _ _ w w out) by (by rewrite Hrun).
  rewrite (bind_step _ _ _ _ false (imwrite_readonly outp out w He Hwf' Hro)).
  erewrite bind_step; [|reflexivity].
  rewrite (report_file_run outp old) by done.
  simpl. by rewrite <- app_assoc.
Qed.

(** With an input that decodes and an output path that cannot be
    written, each Pillow script stops with the exception [Image.save]
    raises, the world unchanged. *)
Lemma pil_convert_readonly w inp outp bs img :
  files w !! inp = Some bs -> decode bs = Some img -> outp ∈ readonly w ->
  (exists e1, numpy_convert inp outp w = (w, inl (Uncaught e1))) /\
  (exists e2, pure_convert inp outp w = (w, inl (Uncaught e2))).
Proof.
  intros Hin Hdec Hro. pose proof (decode_wf _ _ Hdec) as Hwf.
  destruct (filter_ok PillowNumpy.remove_background img Hwf) as (o1 & H1 & _).
  destruct (filter_ok PillowPure.remove_background img Hwf) as (o2 & H2 & _).
  unfold numpy_convert, pure_convert. rewrite !pil_open_run, Hin. simpl. rewrite Hdec. cbv beta iota.
  rewrite (bind_step _ _ w w o1) by (by rewrite H1).
  rewrite (bind_step _ _ w w o2) by (by rewrite H2).
  split; match goal with |- exists e, io_bind (pil_save ?p ?f ?x) ?k w = _ =>
    destruct (pil_save_readonly p f x w Hro) as (e & S); exists e; exact (bind_stop _ _ _ _ _ S) end.
Qed.

(** C21: when the output path cannot be written, both Pillow scripts stop
    with an uncaught exception, exit status 1: nothing is printed and no
    file changes. *)
Theorem pillow_unwritable_output w prog inp outp bs img :
  files w !! inp = Some bs -> decode bs = Some img -> outp ∈ readonly w ->
  run (numpy_main [prog; inp; outp]) w = (w, 1) /\
  run (pure_main [prog; inp; outp]) w = (w, 1).
Proof.
  intros Hin Hdec Hro.
  destruct (pil_convert_readonly w inp outp bs img Hin Hdec Hro) as [[e1 E1] [e2 E2]].
  unfold run, numpy_main, pure_main. by rewrite !main_args, E1, E2.
Qed.

(** C22: src/process_bg_pillow.py with an output path ending in [.jpg]
    exits with status 1 and prints nothing: Pillow cannot write the RGBA
    result as JPEG.  An older file at that path is left empty. *)
Theorem numpy_jpeg_output w prog inp outp bs img :
  files w !! inp = Some bs -> decode bs = Some img ->
  pil_ext outp = "jpg" -> outp ∉ readonly w ->
  run (numpy_main [prog; inp; outp]) w =
    (World (if bool_decide (is_Some (files w !! outp)) then <[outp := []]> (files w) else files w)
       (readonly w) (stdout w), 1).
Proof.
  intros Hin Hdec He Hro. pose proof (decode_wf _ _ Hdec) as Hwf.
  unfold run, cv2_main, numpy_main, pure_main. rewrite main_args. unfold numpy_convert.
  rewrite pil_open_run, Hin. simpl. rewrite Hdec. cbv beta iota.
  rewrite (PillowNumpy.numpy_remove_background_map img Hwf).
  erewrite bind_step; [|reflexivity].
  by rewrite (bind_stop _ _ _ _ _ (pil_save_jpeg_rgba outp (Image ModeRGBA _ _ _) w He eq_refl Hro)).
Qed.

End ScriptRuns.

(** C23: a script run with fewer than two arguments prints the usage line
    and exits with status 1, and no file changes. *)
Theorem main_usage convert argv w :
  (length argv < 3)%nat ->
  run (main convert argv) w = (World (files w) (readonly w) (stdout w ++ [Usage]), 1).
Proof. intros H. unfold run, main. by rewrite decide_True. Qed.

(** ** What a run may change *)

Section Frames.
Context {codec : ImageCodec}.

Lemma frames_imread p q : frames p (imread q).
Proof. by apply frames_still. Qed.

Lemma frames_pil_open p q : frames p (pil_open q).
Proof. by apply frames_still. Qed.

Lemma frames_imwrite p img : frames p (imwrite p img).
Proof. unfold imwrite. solve_steps. Qed.

Lemma frames_pil_save p format img : frames p (pil_save p format img).
Proof. unfold pil_save. solve_steps. Qed.

Lemma frames_report_file p q : frames p (report_file q).
Proof. unfold report_file. solve_steps. Qed.

#[local] Hint Resolve frames_imread frames_pil_open frames_imwrite frames_pil_save
  frames_report_file : io_steps.

Lemma frames_cv2_convert i o : frames o (cv2_convert i o).
Proof. unfold cv2_convert. solve_steps. Qed.

Lemma frames_numpy_convert i o : frames o (numpy_convert i o).
Proof. unfold numpy_convert. solve_steps. Qed.

Lemma frames_pure_convert i o : frames o (pure_convert i o).
Proof. unfold pure_convert. solve_steps. Qed.

Lemma exits_imread q : exits_1 (imread q).
Proof. by intros w c. Qed.

Lemma exits_pil_open q : exits_1 (pil_open q).
Proof. by intros w c. Qed.

Lemma exits_imwrite p img : exits_1 (imwrite p img).
Proof. unfold imwrite. solve_steps. Qed.

Lemma exits_pil_save p format img : exits_1 (pil_save p format img).
Proof. unfold pil_save. solve_steps. Qed.

Lemma exits_report_file q : exits_1 (report_file q).
Proof. unfold report_file. solve_steps. Qed.

#[local] Hint Resolve exits_imread exits_pil_open exits_imwrite exits_pil_save
  exits_report_file : io_steps.

Lemma exits_cv2_convert i o : exits_1 (cv2_convert i o).
Proof. unfold cv2_convert. solve_steps. Qed.

Lemma exits_numpy_convert i o : exits_1 (numpy_convert i o).
Proof. unfold numpy_convert. solve_steps. Qed.

Lemma exits_pure_convert i o : exits_1 (pure_convert i o).
Proof. unfold pure_convert. solve_steps. Qed.

End Frames.

Lemma main_exit_status convert argv w :
  (forall i o, exits_1 (convert i o)) ->
  snd (run (main convert argv) w) = 0 \/ snd (run (main convert argv) w) = 1.
Proof.
  intros Hc. assert (He : exits_1 (main convert argv)) by (unfold main; solve_steps).
  unfold run. specialize (He w).
  destruct (main convert argv w) as [w' [[c|e]|[]]]; simpl in *; [|by auto..].
  right. by apply He.
Qed.

(** What a run with arguments [argv] may change: only the file named by
    [argv[2]]; the writable paths stay; standard output only grows. *)
Definition run_frame (argv : list string) (w w' : world) : Prop :=
  (forall q, argv !! 2%nat <> Some q -> files w' !! q = files w !! q) /\
  readonly w' = readonly w /\ stdout w `prefix_of` stdout w'.

Lemma main_frame convert argv w :
  (forall i o, frames o (convert i o)) -> run_frame argv w (fst (run (main convert argv) w)).
Proof.
  intros Hc. rewrite run_fst. unfold main. case_decide as Hl.
  - destruct (frames_bind (B:=unit) "" _ _ (frames_print "" Usage)
                (fun _ => frames_exit "" 1) w) as (_ & R & O).
    done.
  - destruct argv as [|prog [|i [|o rest]]]; simpl in Hl; [lia..|]. simpl.
    destruct (Hc i o w) as (F & R & O).
    split; [|done]. intros q Hq. apply F. intros ->. by apply Hq.
Qed.

(** ** Runs on a concrete file system *)

Definition example_img : image := Image ModeRGB 2 1 [[PxRGB 250 250 250; PxRGB 10 20 30]].

Definition example_world : world :=
  World {[ "in.png" := raw_encode example_img ]} ∅ [].

Definition readonly_world : world :=
  World (<[ "out.png" := [7] ]> {[ "in.png" := raw_encode example_img ]}) {[ "out.png" ]} [].

Lemma cv2_cli_success_witness :
  exists out bs', Cv2.remove_background example_img = Ok out /\ decode bs' = Some out /\
    run (cv2_main ["process_bg.py"; "in.png"; "out.png"]) example_world =
      (World (<[ "out.png" := bs' ]> (files example_world)) (readonly example_world)
         (stdout example_world ++ Saved "out.png" :: (Text <$> Base64.report bs')), 0).
Proof.
  apply (cv2_cli_success example_world _ _ _ (raw_encode example_img));
    [reflexivity | vm_compute; reflexivity | reflexivity | apply not_elem_of_empty].
Defined.

Lemma numpy_cli_success_witness :
  exists out bs', PillowNumpy.remove_background example_img = Ok out /\ decode bs' = Some out /\
    run (numpy_main ["process_bg_pillow.py"; "in.png"; "out.png"]) example_world =
      (World (<[ "out.png" := bs' ]> (files example_world)) (readonly example_world)
         (stdout example_world ++ (Text <$> Base64.report bs')), 0).
Proof.
  apply (numpy_cli_success example_world _ _ _ (raw_encode example_img));
    [reflexivity | vm_compute; reflexivity | reflexivity | apply not_elem_of_empty].
Defined.

Lemma pure_cli_success_witness :
  exists out bs', PillowPure.remove_background example_img = Ok out /\ decode bs' = Some out /\
    run (pure_main ["process_bg_pillow_pure.py"; "in.png"; "out.jpg"]) example_world =
      (World (<[ "out.jpg" := bs' ]> (files example_world)) (readonly example_world)
         (stdout example_world ++ (Text <$> Base64.report bs')), 0).
Proof.
  apply (pure_cli_success example_world _ _ _ (raw_encode example_img));
    [reflexivity | vm_compute; reflexivity | apply not_elem_of_empty].
Defined.

Lemma cli_decode_failure_witness :
  run (cv2_main ["script.py"; "missing.png"; "out.png"]) example_world =
    (World (files example_world) ∅ [CouldNotRead "missing.png"], 1) /\
  run (numpy_main ["script.py"; "missing.png"; "out.png"]) example_world =
    (World (files example_world) ∅ [ErrorOpening OSError], 1) /\
  run (pure_main ["script.py"; "missing.png"; "out.png"]) example_world =
    (World (files example_world) ∅ [ErrorOpening OSError], 1).
Proof. apply (cli_decode_failure example_world). reflexivity. Defined.

Lemma cv2_stale_output_witness :
  run (cv2_main ["process_bg.py"; "in.png"; "out.png"]) readonly_world =
    (World (files readonly_world) (readonly readonly_world)
       (Saved "out.png" :: (Text <$> Base64.report [7])), 0).
Proof.
  apply (cv2_stale_output readonly_world _ _ _ (raw_encode example_img) example_img [7]);
    [reflexivity | vm_compute; reflexivity | reflexivity | vm_compute; reflexivity | reflexivity].
Defined.

Lemma pillow_unwritable_output_witness :
  run (numpy_main ["script.py"; "in.png"; "out.png"]) readonly_world = (readonly_world, 1) /\
  run (pure_main ["script.py"; "in.png"; "out.png"]) readonly_world = (readonly_world, 1).
Proof.
  apply (pillow_unwritable_output readonly_world _ _ _ (raw_encode example_img) example_img);
    [reflexivity | vm_compute; reflexivity | vm_compute; reflexivity].
Defined.

Lemma numpy_jpeg_output_witness :
  run (numpy_main ["process_bg_pillow.py"; "in.png"; "out.jpg"]) example_world =
    (World (files example_world) ∅ [], 1).
Proof.
  rewrite (numpy_jpeg_output example_world _ _ _ (raw_encode example_img) example_img).
  all: first [apply not_elem_of_empty | vm_compute; reflexivity].
Defined.

Lemma main_usage_witness :
  run (cv2_main ["process_bg.py"; "in.png"]) example_world =
    (World (files example_world) ∅ [Usage], 1).
Proof. apply (main_usage cv2_convert _ example_world). simpl. lia. Defined.

(** C24: whatever its arguments and the files, a run of each script
    changes no file except the one its second argument names, never makes
    a path writable or unwritable, and only appends to standard output. *)
Theorem scripts_frame `{codec : ImageCodec} argv w :
  run_frame argv w (fst (run (cv2_main argv) w)) /\
  run_frame argv w (fst (run (numpy_main argv) w)) /\
  run_frame argv w (fst (run (pure_main argv) w)).
Proof.
  split; [|split]; apply main_frame;
    [exact frames_cv2_convert | exact frames_numpy_convert | exact frames_pure_convert].
Qed.

(** C27: every run of each script, whatever its arguments and the files,
    ends with exit status 0 or 1: [sys.exit] is only called with 1, and
    an uncaught exception ends the process with 1. *)
Theorem scripts_exit_status `{codec : ImageCodec} argv w :
  snd (run (cv2_main argv) w) ∈ [0; 1] /\
  snd (run (numpy_main argv) w) ∈ [0; 1] /\
  snd (run (pure_main argv) w) ∈ [0; 1].
Proof.
  assert (H01 : forall z : Z, z = 0 \/ z = 1 -> z ∈ [0; 1]) by (intros z [-> | ->]; set_solver).
  split; [|split]; apply H01, main_exit_status;
    [exact exits_cv2_convert | exact exits_numpy_convert | exact exits_pure_convert].
Qed.

(** C25: from a process whose output is still empty, each script run
    with an input that decodes and a writable output path ending in
    [.png] meets the specification's promise: status 0, the file written
    decodes to the filtered image, and reading the base64 block back out
    of the printed text gives exactly the bytes of that file, whatever
    the text of exception messages. *)
Theorem cli_reports_result `{codec : ImageCodec} exc_str w prog inp outp bs img :
  stdout w = [] -> files w !! inp = Some bs -> decode bs = Some img ->
  cv_ext outp = Some "png" -> pil_ext outp = "png" -> outp ∉ readonly w ->
  reports_result exc_str Cv2.remove_background img outp w (cv2_main [prog; inp; outp]) /\
  reports_result exc_str PillowNumpy.remove_background img outp w (numpy_main [prog; inp; outp]) /\
  reports_result exc_str PillowPure.remove_background img outp w (pure_main [prog; inp; outp]).
Proof.
  intros Hout Hin Hdec Hc Hp Hro. split; [|split].
  - destruct (cv2_convert_ok w inp outp bs img Hin Hdec Hc Hro) as (out & bs' & Hr & Hd & Hb & E).
    eapply (reports_result_intro _ _ _ _ _ _ [Saved outp]); [done..| |].
    + repeat constructor. simpl. discriminate.
    + unfold cv2_main. rewrite (run_main_ok _ prog _ _ _ _ E), Hout. done.
  - destruct (numpy_convert_ok w inp outp bs img Hin Hdec Hp Hro) as (out & bs' & Hr & _ & Hd & Hb & E).
    eapply (reports_result_intro _ _ _ _ _ _ []); [done..| |]; [done|].
    unfold numpy_main, pure_main. rewrite (run_main_ok _ prog _ _ _ _ E), Hout. done.
  - destruct (pure_convert_ok w inp outp bs img Hin Hdec Hro) as (out & bs' & Hr & _ & Hd & Hb & E).
    eapply (reports_result_intro _ _ _ _ _ _ []); [done..| |]; [done|].
    unfold numpy_main, pure_main. rewrite (run_main_ok _ prog _ _ _ _ E), Hout. done.
Qed.

Lemma cli_reports_result_witness :
  reports_result (fun _ => "") Cv2.remove_background example_img "out.png" example_world
    (cv2_main ["script.py"; "in.png"; "out.png"]) /\
  reports_result (fun _ => "") PillowNumpy.remove_background example_img "out.png" example_world
    (numpy_main ["script.py"; "in.png"; "out.png"]) /\
  reports_result (fun _ => "") PillowPure.remove_background example_img "out.png" example_world
    (pure_main ["script.py"; "in.png"; "out.png"]).
Proof.
  apply (cli_reports_result _ example_world _ _ _ (raw_encode example_img));
    [reflexivity | reflexivity | vm_compute; reflexivity | reflexivity | reflexivity
    | apply not_elem_of_empty].
Defined.

(** ** A second run on the output *)

(** A script whose conversion writes the PNG encoding of its transform
    and whose transform has its outputs as fixed points leaves the file
    as it is when run again with the output as input. *)
Lemma rerun_same_file `{codec : ImageCodec} (conv : string -> string -> io unit)
    (f : image -> result image) prog inp outp w bs img :
  (forall w inp bs img, files w !! inp = Some bs -> decode bs = Some img -> outp ∉ readonly w ->
     exists out bs', f img = Ok out /\ pil_encode PNG out = Some bs' /\ decode bs' = Some out /\
       conv inp outp w = (World (<[outp := bs']> (files w)) (readonly w)
                            (stdout w ++ (Text <$> Base64.report bs')), inr tt)) ->
  (forall img out, image_wf img -> f img = Ok out -> f out = Ok out) ->
  files w !! inp = Some bs -> decode bs = Some img -> outp ∉ readonly w ->
  let w1 := fst (run (main conv [prog; inp; outp]) w) in
  snd (run (main conv [prog; inp; outp]) w) = 0 /\
  files (fst (run (main conv [prog; outp; outp]) w1)) = files w1 /\
  snd (run (main conv [prog; outp; outp]) w1) = 0.
Proof.
  intros Hok Hfix Hin Hdec Hro w1.
  destruct (Hok w inp bs img Hin Hdec Hro) as (o1 & bs1 & R1 & E1 & D1 & Run1).
  pose proof (run_main_ok conv prog _ _ _ _ Run1) as M1.
  set (w1' := World (<[outp := bs1]> (files w)) (readonly w)
                (stdout w ++ (Text <$> Base64.report bs1))) in M1.
  assert (Ew1 : w1 = w1') by (unfold w1; by rewrite M1).
  rewrite M1. split; [done|]. rewrite Ew1.
  destruct (Hok w1' outp bs1 o1) as (o2 & bs2 & R2 & E2 & _ & Run2);
    [apply lookup_insert_eq|done|done|].
  rewrite (Hfix img o1 (decode_wf _ _ Hdec) R1) in R2. injection R2 as <-.
  rewrite E1 in E2. injection E2 as <-.
  rewrite (run_main_ok conv prog _ _ _ _ Run2). cbn. by rewrite insert_insert_eq.
Qed.

(** C10: the Pillow scripts are idempotent on files (spec.md section 8,
    at the level of the command line): after a run that succeeds on an
    output path ending in [.png], running the same script again with
    that output file as its input and as its output exits 0 and leaves
    every file, that one included, byte for byte as it was. *)
Theorem pillow_cli_idempotent `{codec : ImageCodec} prog inp outp w bs img :
  files w !! inp = Some bs -> decode bs = Some img -> pil_ext outp = "png" -> outp ∉ readonly w ->
  (let w1 := fst (run (numpy_main [prog; inp; outp]) w) in
   snd (run (numpy_main [prog; inp; outp]) w) = 0 /\
   files (fst (run (numpy_main [prog; outp; outp]) w1)) = files w1 /\
   snd (run (numpy_main [prog; outp; outp]) w1) = 0) /\
  (let w1 := fst (run (pure_main [prog; inp; outp]) w) in
   snd (run (pure_main [prog; inp; outp]) w) = 0 /\
   files (fst (run (pure_main [prog; outp; outp]) w1)) = files w1 /\
   snd (run (pure_main [prog; outp; outp]) w1) = 0).
Proof.
  intros Hin Hdec He Hro. split.
  - apply (rerun_same_file _ PillowNumpy.remove_background prog inp outp w bs img); [|intros i o; apply (Filter.map_idempotent _ _
        PillowNumpy.numpy_remove_background_px PillowNumpy.matte_px_wf i o (fun p _ => PillowNumpy.matte_px_idem p))|done..].
    intros w' i' bs' img' Hi Hd Hr.
    destruct (numpy_convert_ok w' i' outp bs' img' Hi Hd He Hr) as (o & b & R & E & D & _ & Run).
    by exists o, b.
  - apply (rerun_same_file _ PillowPure.remove_background prog inp outp w bs img); [|intros i o; apply (Filter.map_idempotent _ _
        PillowPure.pure_remove_background_px PillowPure.pure_px_wf i o (fun p _ => PillowPure.pure_px_idem p))|done..].
    intros w' i' bs' img' Hi Hd Hr.
    destruct (pure_convert_ok w' i' outp bs' img' Hi Hd Hr) as (o & b & R & E & D & _ & Run).
    by exists o, b.
Qed.

Lemma pillow_cli_idempotent_witness :
  (let w1 := fst (run (numpy_main ["s.py"; "in.png"; "out.png"]) example_world) in
   snd (run (numpy_main ["s.py"; "in.png"; "out.png"]) example_world) = 0 /\
   files (fst (run (numpy_main ["s.py"; "out.png"; "out.png"]) w1)) = files w1 /\
   snd (run (numpy_main ["s.py"; "out.png"; "out.png"]) w1) = 0) /\
  (let w1 := fst (run (pure_main ["s.py"; "in.png"; "out.png"]) example_world) in
   snd (run (pure_main ["s.py"; "in.png"; "out.png"]) example_world) = 0 /\
   files (fst (run (pure_main ["s.py"; "out.png"; "out.png"]) w1)) = files w1 /\
   snd (run (pure_main ["s.py"; "out.png"; "out.png"]) w1) = 0).
Proof.
  apply (pillow_cli_idempotent _ _ _ example_world (raw_encode example_img) example_img);
    [reflexivity | vm_compute; reflexivity | reflexivity | apply not_elem_of_empty].
Defined.

End Cli.
