(* ===== verification/Compare.v ===== *)
(** * Compare: the two Pillow scripts are interchangeable

    spec.md section 9 calls the scripts redundant implementations of one
    operation.  src/process_bg_pillow.py and src/process_bg_pillow_pure.py
    differ in the colour they give background pixels (kept, or set to
    white) and in how they choose the output format (from the extension,
    or always PNG).  This file states what a caller of the command line
    sees of them: on the same arguments and files, with an output path
    that Pillow reads as [.png], the two runs end with the same exit
    status and leave files that are byte for byte equal or decode to
    images of one size with the same alpha at every pixel
    ([pillow_scripts_interchangeable]).

    [alpha_equiv] and [alpha_equiv_bytes] are equivalences coarser than
    equality; [runs_equiv] relates the results of two runs ([Io.run]),
    with stdpp's [map_Forall2] over the file maps. *)

From S2P Require Import Prelude Raster PillowNumpy PillowPure MatteSpec Codec Io Paths Cli.
From stdpp Require Import strings gmap.

Module Compare.
Local Open Scope Z_scope.
Import Raster Codec Io Paths Cli.

(** Two images of one size with the same alpha at every pixel. *)
Definition alpha_equiv (i1 i2 : image) : Prop :=
  im_width i1 = im_width i2 /\ im_height i1 = im_height i2 /\
  map2d px_alpha (im_rows i1) = map2d px_alpha (im_rows i2).

#[global] Instance alpha_equiv_Equivalence : Equivalence alpha_equiv.
Proof.
  split.
  - intros i. by split; [|split].
  - intros i1 i2 (W & H & A). by split; [|split].
  - intros i1 i2 i3 (W1 & H1 & A1) (W2 & H2 & A2). split; [|split]; congruence.
Qed.

Section Runs.
Context {codec : ImageCodec}.

(** Two files a reader of the alpha channel cannot tell apart: the same
    bytes, or two images that [decode] to [alpha_equiv] images. *)
Definition alpha_equiv_bytes (bs1 bs2 : list Z) : Prop :=
  bs1 = bs2 \/ exists i1 i2, decode bs1 = Some i1 /\ decode bs2 = Some i2 /\ alpha_equiv i1 i2.

#[global] Instance alpha_equiv_bytes_Equivalence : Equivalence alpha_equiv_bytes.
Proof.
  split.
  - intros bs. by left.
  - intros bs1 bs2 [<-|(i1 & i2 & D1 & D2 & A)]; [by left|right]. exists i2, i1.
    split; [done|]. split; [done|]. by symmetry.
  - intros bs1 bs2 bs3 [<-|(i1 & i2 & D1 & D2 & A)] [<-|(j2 & j3 & E2 & E3 & B)];
      [by left|right; eauto 10..|].
    right. exists i1, j3. rewrite D2 in E2. injection E2 as <-.
    split; [done|]. split; [done|]. by transitivity i2.
Qed.

(** The results of two runs ([Io.run]): the same exit status, the same
    unwritable paths, the same files up to [alpha_equiv_bytes]. *)
Definition runs_equiv (r1 r2 : world * Z) : Prop :=
  r1.2 = r2.2 /\ readonly r1.1 = readonly r2.1 /\
  map_Forall2 (fun _ => alpha_equiv_bytes) (files r1.1) (files r2.1).

Lemma runs_equiv_refl r : runs_equiv r r.
Proof.
  split; [done|]. split; [done|]. intros p. destruct (files r.1 !! p); constructor. reflexivity.
Qed.

(** Writing two [alpha_equiv_bytes] files at one path keeps the file maps
    related, whatever the two runs print. *)
Lemma runs_equiv_write (fs : gmap string (list Z)) ro out1 out2 p bs1 bs2 c :
  alpha_equiv_bytes bs1 bs2 ->
  runs_equiv (World (<[p := bs1]> fs) ro out1, c) (World (<[p := bs2]> fs) ro out2, c).
Proof.
  intros Hb. split; [done|]. split; [done|]. cbn.
  apply map_Forall2_insert_2; [exact Hb|]. apply (runs_equiv_refl (World fs ro out1, c)).
Qed.

(** [remove_background_and_convert] of the two Pillow scripts, on an
    output path Pillow reads as [.png]. *)
Lemma convert_equiv i o w :
  pil_ext o = "png" -> runs_equiv (run (numpy_convert i o) w) (run (pure_convert i o) w).
Proof.
  intros He. destruct (files w !! i) as [bs|] eqn:Hin;
    [destruct (decode bs) as [img|] eqn:Hdec|].
  - destruct (decide (o ∈ readonly w)) as [Hro|Hro].
    + destruct (pil_convert_readonly w i o bs img Hin Hdec Hro) as [[e1 E1] [e2 E2]].
      unfold run. rewrite E1, E2. apply runs_equiv_refl.
    + destruct (numpy_convert_ok w i o bs img Hin Hdec He Hro) as (o1 & bs1 & R1 & _ & D1 & _ & E1).
      destruct (pure_convert_ok w i o bs img Hin Hdec Hro) as (o2 & bs2 & R2 & _ & D2 & _ & E2).
      unfold run. rewrite E1, E2. apply runs_equiv_write. right. exists o1, o2.
      split; [done|]. split; [done|].
      exact (MatteSpec.pillow_alpha_agree img o1 o2 (decode_wf _ _ Hdec) R1 R2).
  - unfold run, numpy_convert, pure_convert. rewrite !pil_open_run, Hin. cbn. rewrite Hdec.
    apply runs_equiv_refl.
  - unfold run, numpy_convert, pure_convert. rewrite !pil_open_run, Hin. apply runs_equiv_refl.
Qed.

(** C30: the two Pillow scripts are interchangeable for a caller that
    looks at the exit status and at the alpha channel of the files: run
    with the same arguments on the same files, with an output path that
    Pillow reads as [.png], src/process_bg_pillow.py and
    src/process_bg_pillow_pure.py end with the same exit status, leave
    the same paths unwritable, and leave the same paths with files that
    are equal or decode to images of one size with the same alpha at
    every pixel (on every path: usage error, unreadable input,
    unwritable output, success). *)
Theorem pillow_scripts_interchangeable argv w :
  (forall o, argv !! 2%nat = Some o -> pil_ext o = "png") ->
  runs_equiv (run (numpy_main argv) w) (run (pure_main argv) w).
Proof.
  intros He. unfold numpy_main, pure_main, main.
  case_decide; [apply runs_equiv_refl|].
  destruct (argv !! 1%nat) as [i|]; destruct (argv !! 2%nat) as [o|] eqn:Eo;
    try apply runs_equiv_refl.
  by apply convert_equiv, He.
Qed.

End Runs.
Lemma pillow_scripts_interchangeable_witness :
  runs_equiv (run (numpy_main ["s.py"; "in.png"; "out.png"]) example_world)
             (run (pure_main ["s.py"; "in.png"; "out.png"]) example_world).
Proof. apply pillow_scripts_interchangeable. intros o [= <-]. reflexivity. Defined.

End Compare.
