(* ===== verification/LoopMachine.v ===== *)
(** * LoopMachine: the pixel loop of src/process_bg_pillow_pure.py as a machine

    Lines 14-19 build [newData] with a [for] loop over [datas]:
    {[
    newData = []
    for item in datas:
        if item[0] > 240 and item[1] > 240 and item[2] > 240:
            newData.append((255, 255, 255, 0))
        else:
            newData.append(item)
    ]}
    PillowPure.v computes the loop by structural recursion ([loop]).  Here
    it is a small-step machine, the way the interpreter runs it: a state
    is the iterator position with the list built so far, the end of the
    loop, or the exception an iteration raised; [lstep] runs one
    iteration (its body is [PillowPure.loop_step], lines 16-19) and
    [next] is the same step as an executable function ([lstep_next]).

    The theorem [loop_invariant] gives the loop invariant, by induction on
    the reachability relation: on the RGBA items [getdata] yields after
    [convert("RGBA")], every state reached from the start has taken
    [i <= len(datas)] items, its [newData] is the comprehension over
    them, and no iteration raises. *)

From S2P Require Import Prelude Raster PillowPure.
From stdpp Require Import relations.

Module LoopMachine.
Import Raster.
Local Open Scope py_scope.

(** The interpreter's state during the loop. *)
Inductive lstate : Type :=
  | Running (i : nat) (newData : list px)  (** about to take [datas[i]] *)
  | Finished (newData : list px)           (** the iterator is exhausted *)
  | Failed (e : PyExc).                    (** an iteration raised [e] *)

Section Machine.
Variable datas : list px.

(** One step of [for item in datas]: take the next item and run the body,
    or leave the loop when there is none. *)
Inductive lstep : lstate -> lstate -> Prop :=
  | lstep_body i acc item acc' :
      datas !! i = Some item -> PillowPure.loop_step acc item = Ok acc' ->
      lstep (Running i acc) (Running (S i) acc')
  | lstep_raise i acc item e :
      datas !! i = Some item -> PillowPure.loop_step acc item = Raise e ->
      lstep (Running i acc) (Failed e)
  | lstep_exit i acc :
      datas !! i = None -> lstep (Running i acc) (Finished acc).

(** The start of the loop (line 14: [newData = []]). *)
Definition start : lstate := Running 0 [].

(** The machine as a function: the state after one step, if any. *)
Definition next (s : lstate) : option lstate :=
  match s with
  | Running i acc =>
      match datas !! i with
      | Some item =>
          match PillowPure.loop_step acc item with
          | Ok acc' => Some (Running (S i) acc')
          | Raise e => Some (Failed e)
          end
      | None => Some (Finished acc)
      end
  | _ => None
  end.

(** ** The step relation is the function [next] *)

Lemma lstep_next s s' : lstep s s' <-> next s = Some s'.
Proof.
  split.
  - destruct 1 as [i acc item acc' Hi Hs|i acc item e Hi Hs|i acc Hi];
      simpl; rewrite Hi; rewrite ?Hs; done.
  - destruct s as [i acc| |]; simpl; [|done..].
    destruct (datas !! i) as [item|] eqn:Hi; [|intros [= <-]; by constructor].
    destruct (PillowPure.loop_step acc item) as [acc'|e] eqn:Hs; intros [= <-];
      econstructor; eauto.
Qed.

(** [loop_inv s]: what the state holds when the items are RGBA pixels. *)
Definition loop_inv (s : lstate) : Prop :=
  match s with
  | Running i acc => i <= length datas /\ acc = PillowPure.pure_px <$> take i datas
  | Finished acc => acc = PillowPure.pure_px <$> datas
  | Failed _ => False
  end.

Section Rgba.
Hypothesis Hrgba : Forall (fun p => px_mode p = ModeRGBA) datas.

Lemma loop_inv_step s s' : loop_inv s -> lstep s s' -> loop_inv s'.
Proof.
  intros Hinv Hs. destruct Hs as [i acc item acc' Hi Hb|i acc item e Hi Hb|i acc Hi];
    destruct Hinv as [Hle ->]; pose proof Hi as Hi'.
  - apply lookup_lt_Some in Hi'. split; [simpl; lia|].
    rewrite (PillowPure.loop_step_rgba _ item (Forall_lookup_1 _ _ _ _ Hrgba Hi)) in Hb.
    injection Hb as <-. by rewrite (take_S_r _ _ _ Hi), fmap_app.
  - by rewrite (PillowPure.loop_step_rgba _ item (Forall_lookup_1 _ _ _ _ Hrgba Hi)) in Hb.
  - apply lookup_ge_None_1 in Hi'. simpl. by rewrite take_ge.
Qed.

Lemma reachable_inv s : rtc lstep start s -> loop_inv s.
Proof.
  revert s. apply rtc_ind_r.
  - simpl. split; [lia|done].
  - intros s1 s2 _ H12 IH. exact (loop_inv_step _ _ IH H12).
Qed.

End Rgba.
End Machine.

(** C28: loop invariant.  On RGBA items (what [getdata] gives after
    [convert("RGBA")]), every state reached from the start has taken
    [i <= len(datas)] items with [newData] the comprehension over them,
    ends with the comprehension over all of them, and never raises. *)
Theorem loop_invariant datas s :
  Forall (fun p => px_mode p = ModeRGBA) datas ->
  rtc (lstep datas) start s -> loop_inv datas s.
Proof. intros H. exact (reachable_inv datas H s). Qed.

Definition example_datas : list px :=
  [PxRGBA 250 250 250 255; PxRGBA 10 20 30 255].

Lemma loop_invariant_witness :
  loop_inv example_datas (Running 1 [PxRGBA 255 255 255 0]).
Proof.
  apply (loop_invariant example_datas (Running 1 [PxRGBA 255 255 255 0])).
  - repeat constructor.
  - eapply rtc_l; [|apply rtc_refl]. apply lstep_next. reflexivity.
Defined.

End LoopMachine.
