(* ===== verification/NdView.v ===== *)
(** * NdView: the numpy script with arrays as views of one shared buffer

    NdArray.v and PillowNumpy.v treat each numpy expression as a value.
    numpy does not: [data = np.array(img)] allocates one buffer, and
    [data.T], the planes [r, g, b, a] unpacked from it, and [data[..., 3]]
    are views of that same buffer (an offset and a stride per axis, as in
    numpy's array header).  Line 22, [data[..., 3][white_areas.T] = 0],
    writes through a view, and the write is seen by [data], which line 24
    hands to [Image.fromarray].

    This file models lines 13-24 that way: [view2]/[view3] are array
    headers over a flat buffer [list Z]; [vT3], [vunpack4] and [vlast]
    build the views of [.T], tuple unpacking and [[..., k]] without
    copying; [materialize2] is what a comparison reads through a view;
    [setitem_mask] writes into the shared buffer.
    [numpy_views_filter_spec] proves, in this model, the per-pixel
    behaviour of the script: the write through the transposed mask
    changes the alpha byte of exactly the pixels whose R, G, B exceed
    240.  The proof goes through the buffer addresses ([np_buffer_at],
    [alpha_target], [write_alpha_at]), not through the value model. *)

From S2P Require Import Prelude Raster NdArray PillowNumpy.
From stdpp Require Import sets.

Module NdView.
Import Raster Np.
Local Open Scope py_scope.

(** ** Views *)

(** A 2-d and a 3-d array header: element [(i, j)] (resp. [(i, j, k)])
    of the view is at [off + i*s0 + j*s1 (+ k*s2)] in the buffer. *)
Record view2 : Type := View2 { off2 : nat; vshape2 : nat * nat; vstrides2 : nat * nat }.
Record view3 : Type := View3 {
  off3 : nat; vshape3 : nat * nat * nat; vstrides3 : nat * nat * nat }.

Definition addr2 (v : view2) (i j : nat) : nat :=
  let '(s0, s1) := vstrides2 v in (off2 v + i * s0 + j * s1)%nat.

Definition addr3 (v : view3) (i j k : nat) : nat :=
  let '(s0, s1, s2) := vstrides3 v in (off3 v + i * s0 + j * s1 + k * s2)%nat.

(** The [n0 x n1] table of [f]. *)
Definition tabulate2 {A} (n0 n1 : nat) (f : nat -> nat -> A) : list (list A) :=
  (fun i => (fun j => f i j) <$> seq 0 n1) <$> seq 0 n0.

(** The elements a 2-d or 3-d view shows, as nested lists. *)
Definition read2 (buf : list Z) (v : view2) : list (list Z) :=
  let '(n0, n1) := vshape2 v in tabulate2 n0 n1 (fun i j => buf !!! addr2 v i j).

Definition read3 (buf : list Z) (v : view3) : list (list (list Z)) :=
  let '(n0, n1, n2) := vshape3 v in
  tabulate2 n0 n1 (fun i j => (fun k => buf !!! addr3 v i j k) <$> seq 0 n2).

(** [np.array(img)]: the channels of the pixels, row after row, in one
    buffer, with the C-order header of shape [(height, width, bands)]. *)
Definition np_buffer (img : image) : list Z :=
  concat (concat (map2d px_channels (im_rows img))).

Definition c_order (n0 n1 n2 : nat) : view3 := View3 0 (n0, n1, n2) (n1 * n2, n2, 1)%nat.

Definition np_array_view (img : image) : view3 :=
  c_order (im_height img) (im_width img) (bands (im_mode img)).

(** [a.T]: the same buffer with the axes reversed. *)
Definition vT3 (v : view3) : view3 :=
  let '(n0, n1, n2) := vshape3 v in
  let '(s0, s1, s2) := vstrides3 v in
  View3 (off3 v) (n2, n1, n0) (s2, s1, s0).

(** [a[c]] on the first axis. *)
Definition vindex0 (v : view3) (c : nat) : view2 :=
  let '(_, n1, n2) := vshape3 v in
  let '(s0, s1, s2) := vstrides3 v in
  View2 (off3 v + c * s0) (n1, n2) (s1, s2).

(** [x0, x1, x2, x3 = a]: the four views [a[0]] .. [a[3]], or
    [ValueError] unless the first axis has four items. *)
Definition vunpack4 (v : view3) : result (view2 * view2 * view2 * view2) :=
  let '(n0, _, _) := vshape3 v in
  if decide (n0 = 4%nat) then Ok (vindex0 v 0, vindex0 v 1, vindex0 v 2, vindex0 v 3)
  else Raise ValueError.

(** [a[..., k]]: the view of channel [k]; [IndexError] past the last. *)
Definition vlast (v : view3) (k : nat) : result view2 :=
  let '(n0, n1, n2) := vshape3 v in
  let '(s0, s1, s2) := vstrides3 v in
  if decide (k < n2)%nat then Ok (View2 (off3 v + k * s2) (n0, n1) (s0, s1))
  else Raise IndexError.

(** What an operation such as [r > 240] reads through a view. *)
Definition materialize2 (buf : list Z) (v : view2) : nd2 Z :=
  ND2 (vshape2 v) (read2 buf v).

(** The cells a boolean mask selects, row after row. *)
Definition mask_cells (m : nd2 bool) : list (nat * nat) :=
  let '(n0, n1) := shape2 m in
  filter (fun ij => at2 (buf2 m) ij.1 ij.2 = Some true)
    (seq 0 n0 ≫= fun i => (fun j => (i, j)) <$> seq 0 n1).

(** [view[mask] = x]: [x] is stored in the shared buffer at every cell
    the mask selects; a mask of another shape raises [IndexError]. *)
Definition setitem_mask (buf : list Z) (v : view2) (m : nd2 bool) (x : Z)
  : result (list Z) :=
  if decide (shape2 m = vshape2 v) then
    Ok (foldr (fun ij b => <[addr2 v ij.1 ij.2 := x]> b) buf (mask_cells m))
  else Raise IndexError.

(** Lines 8-24 of src/process_bg_pillow.py with numpy's views. *)
Definition remove_background_views (img : image) : result image :=
  let rgba := convert_rgba img in
  let buf := np_buffer rgba in
  let data := np_array_view rgba in
  planes <- vunpack4 (vT3 data) ;;
  let '(r, g, b, _) := planes in
  white_areas <- PillowNumpy.white_areas_of
                   (materialize2 buf r) (materialize2 buf g) (materialize2 buf b) ;;
  alpha <- vlast data 3 ;;
  buf' <- setitem_mask buf alpha (T2 white_areas) 0 ;;
  PillowNumpy.fromarray (ND3 (vshape3 data) (read3 buf' data)).

(** ** Lemmas on views *)

Lemma rect_tabulate2 {A} n0 n1 (f : nat -> nat -> A) : rect n0 n1 (tabulate2 n0 n1 f).
Proof.
  unfold tabulate2. split; [by rewrite length_fmap, length_seq|].
  apply Forall_fmap, Forall_forall. intros i _. simpl. by rewrite length_fmap, length_seq.
Qed.

Lemma at2_tabulate2 {A} n0 n1 (f : nat -> nat -> A) i j :
  (i < n0)%nat -> (j < n1)%nat -> at2 (tabulate2 n0 n1 f) i j = Some (f i j).
Proof.
  intros Hi Hj. unfold at2, tabulate2.
  rewrite list_lookup_fmap, lookup_seq_lt by done. simpl.
  by rewrite list_lookup_fmap, lookup_seq_lt.
Qed.

(** Indexing a concatenation of rows of one length. *)
Lemma lookup_concat_uniform {A} (m : list (list A)) n i j :
  Forall (fun r => length r = n) m -> (j < n)%nat ->
  concat m !! (i * n + j)%nat = m !! i ≫= fun r => r !! j.
Proof.
  intros Hm Hj. revert i. induction Hm as [|r m Hr _ IH]; intros i; [done|].
  simpl. destruct i as [|i].
  - simpl. rewrite lookup_app_l by lia. done.
  - rewrite lookup_app_r by (simpl; lia).
    replace (S i * n + j - length r)%nat with (i * n + j)%nat by (simpl; lia). apply IH.
Qed.

(** Two indices in mixed radix are equal only if their digits are. *)
Lemma mixed_radix_unique a b c d n :
  (b < n)%nat -> (d < n)%nat -> (a * n + b = c * n + d)%nat -> a = c /\ b = d.
Proof. intros Hb Hd E. assert (a = c) by nia. subst. lia. Qed.

Lemma elem_of_mask_cells (m : nd2 bool) i j :
  (i, j) ∈ mask_cells m <->
  (i < (shape2 m).1)%nat /\ (j < (shape2 m).2)%nat /\ at2 (buf2 m) i j = Some true.
Proof.
  destruct m as [[n0 n1] b]. unfold mask_cells. simpl.
  rewrite list_elem_of_filter, list_elem_of_bind. simpl. split.
  - intros [Ht (i' & Hi & Hi')]. apply list_elem_of_fmap in Hi as (j' & [= <- <-] & Hj').
    apply elem_of_seq in Hi', Hj'. split; [lia|]. split; [lia|done].
  - intros (Hi & Hj & Ht). cbn in Hi, Hj. split; [done|]. exists i. split; [|apply elem_of_seq; lia].
    apply list_elem_of_fmap. exists j. split; [done|]. apply elem_of_seq. lia.
Qed.

Lemma lookup_foldr_insert (f : nat * nat -> nat) (x : Z) cells buf p :
  foldr (fun ij b => <[f ij := x]> b) buf cells !! p =
    if decide ((p < length buf)%nat /\ p ∈ f <$> cells) then Some x else buf !! p.
Proof.
  induction cells as [|c cells IH]; simpl.
  - rewrite decide_False; [done|]. set_solver.
  - assert (L : length (foldr (fun ij b => <[f ij := x]> b) buf cells) = length buf).
    { clear IH. induction cells; simpl; [done|]. by rewrite length_insert. }
    rewrite list_lookup_insert, L, IH.
    repeat case_decide; set_solver.
Qed.

Lemma length_concat_uniform {A} (m : list (list A)) n :
  Forall (fun r => length r = n) m -> length (concat m) = (length m * n)%nat.
Proof. induction 1 as [|r m Hr _ IH]; [done|]. simpl. rewrite length_app, IH. lia. Qed.

(** ** The buffer of an RGBA image *)

Section Rgba.
Variable c : image.
Hypothesis Hwf : image_wf c.
Hypothesis Hm : im_mode c = ModeRGBA.

Lemma channels_uniform :
  Forall (fun ch => length ch = 4%nat) (concat (map2d px_channels (im_rows c))).
Proof.
  apply Forall_concat. unfold map2d. apply Forall_fmap.
  eapply Forall_impl; [exact (proj2 Hwf)|]. intros r Hr. apply Forall_fmap.
  eapply Forall_impl; [exact Hr|]. intros p [Hp _]. rewrite Hm in Hp. by destruct p.
Qed.

Lemma rows_uniform :
  Forall (fun r => length r = im_width c) (map2d px_channels (im_rows c)).
Proof.
  unfold map2d. apply Forall_fmap. eapply Forall_impl; [exact (proj2 (proj1 Hwf))|].
  intros r Hr. simpl. by rewrite length_fmap.
Qed.

Lemma length_np_buffer : length (np_buffer c) = (im_height c * (im_width c * 4))%nat.
Proof.
  unfold np_buffer. rewrite (length_concat_uniform _ 4 channels_uniform).
  rewrite (length_concat_uniform _ _ rows_uniform).
  unfold map2d. rewrite length_fmap, (proj1 (proj1 Hwf)). lia.
Qed.

(** Channel [k] of the pixel in row [y], column [x] is at
    [y * (width * 4) + x * 4 + k]. *)
Lemma np_buffer_at y x k p :
  (x < im_width c)%nat -> (k < 4)%nat -> at2 (im_rows c) y x = Some p ->
  np_buffer c !!! (y * (im_width c * 4) + x * 4 + k)%nat = px_channels p !!! k.
Proof.
  intros Hx Hk Hp. apply list_lookup_total_correct. unfold np_buffer.
  replace (y * (im_width c * 4) + x * 4 + k)%nat with ((y * im_width c + x) * 4 + k)%nat by lia.
  rewrite (lookup_concat_uniform _ 4 _ _ channels_uniform Hk).
  rewrite (lookup_concat_uniform _ _ _ _ rows_uniform Hx).
  pose proof (at2_map2d px_channels (im_rows c) y x) as E. unfold at2 in E, Hp.
  rewrite E, Hp. simpl. apply list_lookup_lookup_total_lt.
  destruct (image_wf_at2 _ _ _ _ Hwf Hp) as [Hpm _]. rewrite Hm in Hpm.
  destruct p; simpl in *; try discriminate; lia.
Qed.

End Rgba.

Lemma vunpack4_c_order n0 n1 :
  vunpack4 (vT3 (c_order n0 n1 4)) =
    Ok (View2 0 (n1, n0) (4, n1 * 4), View2 1 (n1, n0) (4, n1 * 4),
        View2 2 (n1, n0) (4, n1 * 4), View2 3 (n1, n0) (4, n1 * 4))%nat.
Proof. reflexivity. Qed.

Lemma vlast_c_order n0 n1 :
  vlast (c_order n0 n1 4) 3 = Ok (View2 3 (n0, n1) (n1 * 4, 4))%nat.
Proof. reflexivity. Qed.

Lemma lookup_total_foldr_insert (f : nat * nat -> nat) (x : Z) cells buf p :
  foldr (fun ij b => <[f ij := x]> b) buf cells !!! p =
    if decide ((p < length buf)%nat /\ p ∈ f <$> cells) then x else buf !!! p.
Proof. rewrite !list_lookup_total_alt, lookup_foldr_insert. by case_decide. Qed.

(** The cell [data[y, x, k]] is written through the view [data[..., 3]]
    exactly when [k = 3] and the mask selects [(y, x)]. *)
Lemma alpha_target n0 n1 (cells : list (nat * nat)) y x k :
  (x < n1)%nat -> (k < 4)%nat -> (forall ij, ij ∈ cells -> (ij.2 < n1)%nat) ->
  (y * (n1 * 4) + x * 4 + k)%nat ∈
    (fun ij => addr2 (View2 3 (n0, n1) (n1 * 4, 4)) ij.1 ij.2) <$> cells <->
  k = 3%nat /\ (y, x) ∈ cells.
Proof.
  intros Hx Hk Hc. rewrite list_elem_of_fmap. unfold addr2. cbn. split.
  - intros ([i j] & E & Hij). simpl in E. pose proof (Hc _ Hij) as Hj. simpl in Hj.
    destruct (mixed_radix_unique (y * n1 + x) k (i * n1 + j) 3 4) as [E1 ->]; [lia..|].
    destruct (mixed_radix_unique y x i j n1) as [-> ->]; [lia..|]. done.
  - intros [-> Hyx]. exists (y, x). split; [simpl; lia|done].
Qed.

(** Reading channel [k] of pixel [(y, x)] through the plane view of
    [data.T[k]]. *)
Lemma plane_at c y x k p :
  image_wf c -> im_mode c = ModeRGBA ->
  (y < im_height c)%nat -> (x < im_width c)%nat -> (k < 4)%nat ->
  at2 (im_rows c) y x = Some p ->
  at2 (read2 (np_buffer c) (View2 k (im_width c, im_height c) (4, im_width c * 4))) x y =
    Some (px_channels p !!! k).
Proof.
  intros Hwf Hm Hy Hx Hk Hp. unfold read2. cbn. rewrite at2_tabulate2 by done. f_equal.
  unfold addr2. cbn.
  replace (k + x * 4 + y * (im_width c * 4))%nat with (y * (im_width c * 4) + x * 4 + k)%nat by lia.
  exact (np_buffer_at c Hwf Hm y x k _ Hx Hk Hp).
Qed.

(** After storing [z] through [data[..., 3]] at [cells], channel [k] of
    pixel [(y, x)] is [z] if [k = 3] and [(y, x)] is a cell, and the
    pixel's own channel otherwise. *)
Lemma write_alpha_at c (cells : list (nat * nat)) z y x k p :
  image_wf c -> im_mode c = ModeRGBA ->
  (forall ij, ij ∈ cells -> (ij.2 < im_width c)%nat) ->
  (y < im_height c)%nat -> (x < im_width c)%nat -> (k < 4)%nat ->
  at2 (im_rows c) y x = Some p ->
  foldr (fun ij b => <[addr2 (View2 3 (im_height c, im_width c) (im_width c * 4, 4)) ij.1 ij.2 := z]> b)
    (np_buffer c) cells !!! addr3 (c_order (im_height c) (im_width c) 4) y x k =
  if decide (k = 3%nat /\ (y, x) ∈ cells) then z else px_channels p !!! k.
Proof.
  intros Hwf Hm Hcells Hy Hx Hk Hp. rewrite lookup_total_foldr_insert.
  unfold addr3. cbn [vstrides3 off3 c_order].
  replace (0 + y * (im_width c * 4) + x * 4 + k * 1)%nat
    with (y * (im_width c * 4) + x * 4 + k)%nat by lia.
  pose proof (alpha_target (im_height c) _ _ y x k Hx Hk Hcells) as HT.
  rewrite (np_buffer_at c Hwf Hm y x k _ Hx Hk Hp).
  pose proof (length_np_buffer c Hwf Hm) as L.
  assert (Hlt : (y * (im_width c * 4) + x * 4 + k < length (np_buffer c))%nat) by nia.
  destruct (decide (k = 3%nat /\ (y, x) ∈ cells)) as [Hd|Hd].
  - rewrite decide_True; [done|]. split; [exact Hlt|]. by apply HT.
  - rewrite decide_False; [done|]. intros [_ Ht]. by apply Hd, HT.
Qed.

(** [white_areas.T] in the view model: the comparisons of line 19 read
    the plane views of an RGBA buffer of [h] rows of [w] pixels. *)
Definition views_white_T (buf : list Z) (h w : nat) : nd2 bool :=
  let gt240 (k : nat) := map2d (fun v => (240 <? v)%Z) (read2 buf (View2 k (w, h) (4, w * 4))) in
  ND2 (h, w) (transpose_n h (zip2d andb (zip2d andb (gt240 0%nat) (gt240 1%nat)) (gt240 2%nat))).

(** Lines 13-24 on views reduce to one store through [data[..., 3]] at
    the cells of [white_areas.T], then [Image.fromarray] of [data]. *)
Lemma views_run img :
  im_mode (convert_rgba img) = ModeRGBA ->
  let c := convert_rgba img in
  remove_background_views img =
    Ok (Image ModeRGBA (im_width c) (im_height c)
      (map2d PillowNumpy.px_of_channels
        (read3 (foldr (fun ij b => <[addr2 (View2 3 (im_height c, im_width c)
                                                 (im_width c * 4, 4)) ij.1 ij.2 := 0%Z]> b)
                  (np_buffer c) (mask_cells (views_white_T (np_buffer c) (im_height c) (im_width c))))
               (c_order (im_height c) (im_width c) 4)))).
Proof.
  intros Hm. unfold remove_background_views. cbv zeta. unfold np_array_view. rewrite Hm.
  cbn [bands]. rewrite vunpack4_c_order. cbn [rbind].
  unfold PillowNumpy.white_areas_of, materialize2, gt_scalar. cbn [vshape2 shape2 buf2].
  rewrite and2_same by reflexivity. cbn [rbind shape2 buf2].
  rewrite and2_same by reflexivity. cbn [rbind shape2 buf2].
  rewrite vlast_c_order. cbn [rbind].
  unfold T2, setitem_mask. cbn [shape2 vshape2 buf2]. rewrite decide_True by done.
  reflexivity.
Qed.

(** The mask selects pixel [(y, x)] exactly when its R, G, B exceed 240. *)
Lemma views_white_T_at c y x r g b a :
  image_wf c -> im_mode c = ModeRGBA ->
  (y < im_height c)%nat -> (x < im_width c)%nat ->
  at2 (im_rows c) y x = Some (PxRGBA r g b a) ->
  (y, x) ∈ mask_cells (views_white_T (np_buffer c) (im_height c) (im_width c)) <->
  ((240 <? r) && (240 <? g) && (240 <? b))%Z = true.
Proof.
  intros Hwf Hm Hy Hx Hp. rewrite elem_of_mask_cells. unfold views_white_T.
  cbn [shape2 buf2 fst snd]. erewrite (at2_transpose_n _ _ _ _ _).
  2: { apply rect_zip2d; [apply rect_zip2d|]; apply rect_map2d; unfold read2; cbn;
         apply rect_tabulate2. }
  rewrite PillowNumpy.white_areas_at, !(plane_at c y x _ _ Hwf Hm Hy Hx) by (done || lia).
  cbn. split; [intros (_ & _ & E); by injection E|]. intros ->. auto.
Qed.

Lemma mask_cells_col (m : nd2 bool) ij : ij ∈ mask_cells m -> (ij.2 < (shape2 m).2)%nat.
Proof. destruct ij as [i j]. rewrite elem_of_mask_cells. cbn. lia. Qed.

(** The views compute the per-pixel map [matte_px]. *)
Lemma views_remove_background_map img :
  image_wf img ->
  remove_background_views img =
    Ok (Image ModeRGBA (im_width img) (im_height img)
          (map2d PillowNumpy.matte_px (im_rows (convert_rgba img)))).
Proof.
  intros Hwf0. destruct (convert_rgba_wf img Hwf0) as [Hwf Hm].
  rewrite (views_run img Hm). cbn zeta.
  change (im_width img) with (im_width (convert_rgba img)).
  change (im_height img) with (im_height (convert_rgba img)).
  set (c := convert_rgba img) in *. clearbody c. do 2 f_equal.
  apply (rect_eq (im_height c) (im_width c)).
  - apply rect_map2d. unfold read3. cbn. apply rect_tabulate2.
  - exact (rect_map2d _ _ _ _ (proj1 Hwf)).
  - intros y x Hy Hx.
    destruct (PillowNumpy.rgba_at _ _ _ Hwf Hm Hy Hx) as (r & g & b & a & Hp).
    rewrite !at2_map2d, Hp. unfold read3. cbn [vshape3 c_order].
    rewrite at2_tabulate2 by done. simpl. f_equal.
    pose proof (views_white_T_at c y x r g b a Hwf Hm Hy Hx Hp) as Hin.
    pose proof (mask_cells_col (views_white_T (np_buffer c) (im_height c) (im_width c))) as Hc.
    pose proof (fun k Hk => write_alpha_at c _ 0 y x k _ Hwf Hm Hc Hy Hx Hk Hp) as Hw.
    rewrite !Hw by lia.
    cbn. destruct ((240 <? r) && (240 <? g) && (240 <? b))%Z; repeat case_decide; naive_solver.
Qed.

(** C29: lines 13-24 with numpy's aliasing: [data.T] and the planes
    [r, g, b] unpacked from it read the one buffer of [np.array(img)],
    line 22 writes through the view [data[..., 3]] into that buffer, and
    [Image.fromarray] reads [data] back.  On every decoded image this
    raises nothing and returns an RGBA image of the same size whose pixel
    at each place is [matte_px] of the RGBA conversion of the input pixel:
    the stores through the transposed mask land on the alpha byte of
    exactly the pixels whose R, G and B exceed 240, and on no other byte
    of the buffer. *)
Theorem numpy_views_filter_spec img :
  image_wf img ->
  exists out, remove_background_views img = Ok out /\
    rect (im_height img) (im_width img) (im_rows out) /\
    im_mode out = ModeRGBA /\
    forall i j p, at2 (im_rows img) i j = Some p ->
      at2 (im_rows out) i j = Some (PillowNumpy.matte_px (to_rgba p)).
Proof.
  intros Hwf. eexists. split; [exact (views_remove_background_map img Hwf)|].
  simpl. split; [exact (rect_map2d _ _ _ _ (rect_map2d _ _ _ _ (proj1 Hwf)))|].
  split; [done|]. intros i j p Hp. by rewrite !at2_map2d, Hp.
Qed.

Definition example_img : image :=
  Image ModeRGB 3 2 [[PxRGB 250 250 250; PxRGB 1 2 3; PxRGB 241 255 241];
                     [PxRGB 240 250 250; PxRGB 255 255 255; PxRGB 0 0 0]].

(** C35 on a non-square image (3 columns, 2 rows), where a
    transposition error would move the mask: the three pixels whose R, G
    and B exceed 240 become transparent, the others keep alpha 255. *)
Lemma numpy_views_filter_spec_witness :
  exists out, remove_background_views example_img = Ok out /\
    at2 (im_rows out) 0 0 = Some (PxRGBA 250 250 250 0) /\
    at2 (im_rows out) 0 1 = Some (PxRGBA 1 2 3 255) /\
    at2 (im_rows out) 0 2 = Some (PxRGBA 241 255 241 0) /\
    at2 (im_rows out) 1 0 = Some (PxRGBA 240 250 250 255) /\
    at2 (im_rows out) 1 1 = Some (PxRGBA 255 255 255 0).
Proof.
  destruct (numpy_views_filter_spec example_img) as (out & Hrun & _ & _ & Hat).
  - apply image_wfb_spec. vm_compute. reflexivity.
  - exists out. split; [exact Hrun|].
    repeat split; [apply (Hat 0%nat 0%nat (PxRGB 250 250 250)) | apply (Hat 0%nat 1%nat (PxRGB 1 2 3))
      | apply (Hat 0%nat 2%nat (PxRGB 241 255 241)) | apply (Hat 1%nat 0%nat (PxRGB 240 250 250))
      | apply (Hat 1%nat 1%nat (PxRGB 255 255 255))]; reflexivity.
Defined.

End NdView.
